(** * Node-collector jobs: the manifest builder and the collector

    A shallow embedding of [pkg/jobs/builder.go] and [pkg/jobs/collector.go].
    Go structs are records, [nil]-able pointers and maps are [option]s,
    [map[string]string] is a [gmap string string], [time.Duration] is its
    [int64] count of nanoseconds, and the cluster API is an explicit world
    with a log of the calls issued. *)

From Stdlib Require Import ZArith String List Bool Lia SpecFloat.
From stdpp Require Import gmap strings list fin_maps.
Import ListNotations.

(** ** Errors and outcomes *)

(** [metav1.StatusReason], the reasons the code and its callers tell apart. *)
Inductive StatusReason :=
| StatusReasonNotFound
| StatusReasonAlreadyExists
| StatusReasonForbidden
| StatusReasonTimeout
| StatusReasonInternalError
| StatusReasonUnknown.

(** Go [error] values: an API status error, a plain error, or an error
    wrapped by [fmt.Errorf("...: %w", err)]. *)
Inductive error :=
| StatusError (reason : StatusReason) (message : string)
| errorString (message : string)
| wrapError (prefix : string) (err : error).

(** [fmt.Errorf(prefix ++ "%w", err)]. *)
Definition Errorf (prefix : string) (err : error) : error := wrapError prefix err.

(** [errors.Unwrap]. *)
Definition Unwrap (err : error) : option error :=
  match err with
  | wrapError _ e => Some e
  | _ => None
  end.

(** [k8sapierror.ReasonForError]: the reason of the first status error in the
    wrap chain. *)
Fixpoint ReasonForError (err : error) : StatusReason :=
  match err with
  | StatusError reason _ => reason
  | errorString _ => StatusReasonUnknown
  | wrapError _ e => ReasonForError e
  end.

(** [k8sapierror.IsNotFound]. *)
Definition IsNotFound (err : error) : bool :=
  match ReasonForError err with
  | StatusReasonNotFound => true
  | _ => false
  end.

(** A Go call returning [(T, error)]. *)
Inductive result (A : Type) :=
| Ok (a : A)
| Error (err : error).
Arguments Ok {A} a.
Arguments Error {A} err.

(** How a Go function body ends: it returns a value, returns a non-nil
    [error], or panics (index out of range). *)
Inductive outcome (A : Type) :=
| Ret (a : A)
| Fail (err : error)
| Panic.
Arguments Ret {A} a.
Arguments Fail {A} err.
Arguments Panic {A}.

#[global] Instance outcome_ret : MRet outcome := fun A a => Ret a.
#[global] Instance outcome_bind : MBind outcome := fun A B k x =>
  match x with
  | Ret a => k a
  | Fail err => Fail err
  | Panic => Panic
  end.

(** ** [time.Duration] *)

Module Duration.

Local Open Scope Z_scope.

(** A [Duration] is an [int64] count of nanoseconds. *)
Definition Second : Z := 1000000000.

(** IEEE 754 binary64, the format of Go's [float64]. *)
Definition prec : Z := 53.
Definition emax : Z := 1024.

(** [float64(z)] for an integer [z], rounding to nearest even. *)
Definition float64_of_Z (z : Z) : spec_float := binary_normalize prec emax z 0 false.

(** [int64(f)] for a finite [f] in range: the fraction is discarded. *)
Definition int64_of_float64 (f : spec_float) : Z :=
  match f with
  | S754_finite s m e =>
      let a := if 0 <=? e then Z.pos m * 2 ^ e else Z.pos m / 2 ^ (- e) in
      if s then - a else a
  | _ => 0
  end.

(** [func (d Duration) Seconds() float64]:
    [sec := d / Second; nsec := d % Second;
     return float64(sec) + float64(nsec)/1e9]. *)
Definition Seconds (d : Z) : spec_float :=
  let sec := Z.quot d Second in
  let nsec := Z.rem d Second in
  SFadd prec emax (float64_of_Z sec)
    (SFdiv prec emax (float64_of_Z nsec) (float64_of_Z 1000000000)).

End Duration.

(** ** Kubernetes API objects *)

Module corev1.

(** [corev1.LabelHostname]. *)
Definition LabelHostname : string := "kubernetes.io/hostname".

(** [corev1.ResourceRequirements], quantities kept in their textual form. *)
Record ResourceRequirements := {
  Limits : gmap string string;
  Requests : gmap string string
}.

(** The following values are only ever copied whole by the builder; their
    fields are abridged. *)
Record SecurityContext := {
  Privileged : option bool;
  ReadOnlyRootFilesystem : option bool;
  RunAsUser : option Z
}.

Record PodSecurityContext := {
  RunAsNonRoot : option bool;
  FSGroup : option Z
}.

Record Affinity := {
  RequiredNodeSelectorTerms : list (gmap string string)
}.

Record Toleration := {
  Key : string;
  Operator : string;
  Value : string;
  Effect : string
}.

Record Volume := {
  VolumeName : string;
  HostPath : string
}.

Record VolumeMount := {
  MountName : string;
  MountPath : string;
  ReadOnly : bool
}.

Record LocalObjectReference := {
  SecretName : string
}.

End corev1.

(** corev1.Container: the fields the builder reads or writes. *)
Module Container.
Record t := mk {
  Name : string;
  Image : string;
  Args : list string;
  Resources : corev1.ResourceRequirements;
  VolumeMounts : list corev1.VolumeMount;
  SecurityContext : option corev1.SecurityContext
}.
Definition set_Image (v : string) (x : t) : t :=
  {| Name := Name x; Image := v; Args := Args x; Resources := Resources x; VolumeMounts
     := VolumeMounts x; SecurityContext := SecurityContext x |}.
Definition set_Args (v : list string) (x : t) : t :=
  {| Name := Name x; Image := Image x; Args := v; Resources := Resources x; VolumeMounts
     := VolumeMounts x; SecurityContext := SecurityContext x |}.
Definition set_Resources (v : corev1.ResourceRequirements) (x : t) : t :=
  {| Name := Name x; Image := Image x; Args := Args x; Resources := v; VolumeMounts :=
     VolumeMounts x; SecurityContext := SecurityContext x |}.
Definition set_VolumeMounts (v : list corev1.VolumeMount) (x : t) : t :=
  {| Name := Name x; Image := Image x; Args := Args x; Resources := Resources x;
     VolumeMounts := v; SecurityContext := SecurityContext x |}.
Definition set_SecurityContext (v : option corev1.SecurityContext) (x : t) : t :=
  {| Name := Name x; Image := Image x; Args := Args x; Resources := Resources x;
     VolumeMounts := VolumeMounts x; SecurityContext := v |}.
End Container.

(** corev1.PodSpec. *)
Module PodSpec.
Record t := mk {
  Containers : list Container.t;
  NodeSelector : option (gmap string string);
  NodeName : string;
  ServiceAccountName : string;
  Affinity : option corev1.Affinity;
  Tolerations : list corev1.Toleration;
  PriorityClassName : string;
  SecurityContext : option corev1.PodSecurityContext;
  Volumes : list corev1.Volume;
  ImagePullSecrets : list corev1.LocalObjectReference
}.
Definition set_Containers (v : list Container.t) (x : t) : t :=
  {| Containers := v; NodeSelector := NodeSelector x; NodeName := NodeName x;
     ServiceAccountName := ServiceAccountName x; Affinity := Affinity x; Tolerations :=
     Tolerations x; PriorityClassName := PriorityClassName x; SecurityContext :=
     SecurityContext x; Volumes := Volumes x; ImagePullSecrets := ImagePullSecrets x |}.
Definition set_NodeSelector (v : option (gmap string string)) (x : t) : t :=
  {| Containers := Containers x; NodeSelector := v; NodeName := NodeName x;
     ServiceAccountName := ServiceAccountName x; Affinity := Affinity x; Tolerations :=
     Tolerations x; PriorityClassName := PriorityClassName x; SecurityContext :=
     SecurityContext x; Volumes := Volumes x; ImagePullSecrets := ImagePullSecrets x |}.
Definition set_ServiceAccountName (v : string) (x : t) : t :=
  {| Containers := Containers x; NodeSelector := NodeSelector x; NodeName := NodeName x;
     ServiceAccountName := v; Affinity := Affinity x; Tolerations := Tolerations x;
     PriorityClassName := PriorityClassName x; SecurityContext := SecurityContext x;
     Volumes := Volumes x; ImagePullSecrets := ImagePullSecrets x |}.
Definition set_Affinity (v : option corev1.Affinity) (x : t) : t :=
  {| Containers := Containers x; NodeSelector := NodeSelector x; NodeName := NodeName x;
     ServiceAccountName := ServiceAccountName x; Affinity := v; Tolerations :=
     Tolerations x; PriorityClassName := PriorityClassName x; SecurityContext :=
     SecurityContext x; Volumes := Volumes x; ImagePullSecrets := ImagePullSecrets x |}.
Definition set_Tolerations (v : list corev1.Toleration) (x : t) : t :=
  {| Containers := Containers x; NodeSelector := NodeSelector x; NodeName := NodeName x;
     ServiceAccountName := ServiceAccountName x; Affinity := Affinity x; Tolerations :=
     v; PriorityClassName := PriorityClassName x; SecurityContext := SecurityContext x;
     Volumes := Volumes x; ImagePullSecrets := ImagePullSecrets x |}.
Definition set_PriorityClassName (v : string) (x : t) : t :=
  {| Containers := Containers x; NodeSelector := NodeSelector x; NodeName := NodeName x;
     ServiceAccountName := ServiceAccountName x; Affinity := Affinity x; Tolerations :=
     Tolerations x; PriorityClassName := v; SecurityContext := SecurityContext x;
     Volumes := Volumes x; ImagePullSecrets := ImagePullSecrets x |}.
Definition set_SecurityContext (v : option corev1.PodSecurityContext) (x : t) : t :=
  {| Containers := Containers x; NodeSelector := NodeSelector x; NodeName := NodeName x;
     ServiceAccountName := ServiceAccountName x; Affinity := Affinity x; Tolerations :=
     Tolerations x; PriorityClassName := PriorityClassName x; SecurityContext := v;
     Volumes := Volumes x; ImagePullSecrets := ImagePullSecrets x |}.
Definition set_Volumes (v : list corev1.Volume) (x : t) : t :=
  {| Containers := Containers x; NodeSelector := NodeSelector x; NodeName := NodeName x;
     ServiceAccountName := ServiceAccountName x; Affinity := Affinity x; Tolerations :=
     Tolerations x; PriorityClassName := PriorityClassName x; SecurityContext :=
     SecurityContext x; Volumes := v; ImagePullSecrets := ImagePullSecrets x |}.
Definition set_ImagePullSecrets (v : list corev1.LocalObjectReference) (x : t) : t :=
  {| Containers := Containers x; NodeSelector := NodeSelector x; NodeName := NodeName x;
     ServiceAccountName := ServiceAccountName x; Affinity := Affinity x; Tolerations :=
     Tolerations x; PriorityClassName := PriorityClassName x; SecurityContext :=
     SecurityContext x; Volumes := Volumes x; ImagePullSecrets := v |}.
End PodSpec.

(** corev1.PodTemplateSpec. *)
Module PodTemplateSpec.
Record t := mk {
  Spec : PodSpec.t
}.
Definition set_Spec (v : PodSpec.t) (x : t) : t :=
  {| Spec := v |}.
End PodTemplateSpec.

(** batchv1.JobSpec. *)
Module JobSpec.
Record t := mk {
  ActiveDeadlineSeconds : option Z;
  Template : PodTemplateSpec.t
}.
Definition set_ActiveDeadlineSeconds (v : option Z) (x : t) : t :=
  {| ActiveDeadlineSeconds := v; Template := Template x |}.
Definition set_Template (v : PodTemplateSpec.t) (x : t) : t :=
  {| ActiveDeadlineSeconds := ActiveDeadlineSeconds x; Template := v |}.
End JobSpec.

(** batchv1.Job; the ObjectMeta fields are promoted as in Go (job.Name, job.Labels, ...). *)
Module Job.
Record t := mk {
  Name : string;
  Namespace : string;
  Labels : option (gmap string string);
  Annotations : option (gmap string string);
  Spec : JobSpec.t
}.
Definition set_Name (v : string) (x : t) : t :=
  {| Name := v; Namespace := Namespace x; Labels := Labels x; Annotations := Annotations
     x; Spec := Spec x |}.
Definition set_Namespace (v : string) (x : t) : t :=
  {| Name := Name x; Namespace := v; Labels := Labels x; Annotations := Annotations x;
     Spec := Spec x |}.
Definition set_Labels (v : option (gmap string string)) (x : t) : t :=
  {| Name := Name x; Namespace := Namespace x; Labels := v; Annotations := Annotations
     x; Spec := Spec x |}.
Definition set_Annotations (v : option (gmap string string)) (x : t) : t :=
  {| Name := Name x; Namespace := Namespace x; Labels := Labels x; Annotations := v;
     Spec := Spec x |}.
Definition set_Spec (v : JobSpec.t) (x : t) : t :=
  {| Name := Name x; Namespace := Namespace x; Labels := Labels x; Annotations :=
     Annotations x; Spec := v |}.
End Job.

(** [type JobBuilder struct]. Its [labels] and [annotations] are only ever
    ranged over, where a nil map and an empty map behave alike: they are
    plain maps. A nil pointer is [None], and [time.Duration] is [Z]. *)
Module JobBuilder.
Record t := mk {
  template : string;
  nodeName : string;
  namespace : string;
  imageRef : string;
  serviceAccount : string;
  name : string;
  labels : gmap string string;
  podSecurityContext : option corev1.PodSecurityContext;
  securityContext : option corev1.SecurityContext;
  annotations : gmap string string;
  affinity : option corev1.Affinity;
  tolerations : list corev1.Toleration;
  priorityClassName : string;
  volumes : list corev1.Volume;
  volumeMounts : list corev1.VolumeMount;
  imagePullSecrets : list corev1.LocalObjectReference;
  resourceRequirements : option corev1.ResourceRequirements;
  timeout : Z;
  nodeConfig : bool;
  useNodeSelector : bool
}.
Definition set_template (v : string) (j : t) : t :=
  let 'mk _ x1 x2 x3 x4 x5 x6 x7 x8 x9 x10 x11 x12 x13 x14 x15 x16 x17 x18 x19 := j in
  mk v x1 x2 x3 x4 x5 x6 x7 x8 x9 x10 x11 x12 x13 x14 x15 x16 x17 x18 x19.
Definition set_nodeName (v : string) (j : t) : t :=
  let 'mk x0 _ x2 x3 x4 x5 x6 x7 x8 x9 x10 x11 x12 x13 x14 x15 x16 x17 x18 x19 := j in
  mk x0 v x2 x3 x4 x5 x6 x7 x8 x9 x10 x11 x12 x13 x14 x15 x16 x17 x18 x19.
Definition set_namespace (v : string) (j : t) : t :=
  let 'mk x0 x1 _ x3 x4 x5 x6 x7 x8 x9 x10 x11 x12 x13 x14 x15 x16 x17 x18 x19 := j in
  mk x0 x1 v x3 x4 x5 x6 x7 x8 x9 x10 x11 x12 x13 x14 x15 x16 x17 x18 x19.
Definition set_imageRef (v : string) (j : t) : t :=
  let 'mk x0 x1 x2 _ x4 x5 x6 x7 x8 x9 x10 x11 x12 x13 x14 x15 x16 x17 x18 x19 := j in
  mk x0 x1 x2 v x4 x5 x6 x7 x8 x9 x10 x11 x12 x13 x14 x15 x16 x17 x18 x19.
Definition set_serviceAccount (v : string) (j : t) : t :=
  let 'mk x0 x1 x2 x3 _ x5 x6 x7 x8 x9 x10 x11 x12 x13 x14 x15 x16 x17 x18 x19 := j in
  mk x0 x1 x2 x3 v x5 x6 x7 x8 x9 x10 x11 x12 x13 x14 x15 x16 x17 x18 x19.
Definition set_name (v : string) (j : t) : t :=
  let 'mk x0 x1 x2 x3 x4 _ x6 x7 x8 x9 x10 x11 x12 x13 x14 x15 x16 x17 x18 x19 := j in
  mk x0 x1 x2 x3 x4 v x6 x7 x8 x9 x10 x11 x12 x13 x14 x15 x16 x17 x18 x19.
Definition set_labels (v : gmap string string) (j : t) : t :=
  let 'mk x0 x1 x2 x3 x4 x5 _ x7 x8 x9 x10 x11 x12 x13 x14 x15 x16 x17 x18 x19 := j in
  mk x0 x1 x2 x3 x4 x5 v x7 x8 x9 x10 x11 x12 x13 x14 x15 x16 x17 x18 x19.
Definition set_podSecurityContext (v : option corev1.PodSecurityContext) (j : t) : t :=
  let 'mk x0 x1 x2 x3 x4 x5 x6 _ x8 x9 x10 x11 x12 x13 x14 x15 x16 x17 x18 x19 := j in
  mk x0 x1 x2 x3 x4 x5 x6 v x8 x9 x10 x11 x12 x13 x14 x15 x16 x17 x18 x19.
Definition set_securityContext (v : option corev1.SecurityContext) (j : t) : t :=
  let 'mk x0 x1 x2 x3 x4 x5 x6 x7 _ x9 x10 x11 x12 x13 x14 x15 x16 x17 x18 x19 := j in
  mk x0 x1 x2 x3 x4 x5 x6 x7 v x9 x10 x11 x12 x13 x14 x15 x16 x17 x18 x19.
Definition set_annotations (v : gmap string string) (j : t) : t :=
  let 'mk x0 x1 x2 x3 x4 x5 x6 x7 x8 _ x10 x11 x12 x13 x14 x15 x16 x17 x18 x19 := j in
  mk x0 x1 x2 x3 x4 x5 x6 x7 x8 v x10 x11 x12 x13 x14 x15 x16 x17 x18 x19.
Definition set_affinity (v : option corev1.Affinity) (j : t) : t :=
  let 'mk x0 x1 x2 x3 x4 x5 x6 x7 x8 x9 _ x11 x12 x13 x14 x15 x16 x17 x18 x19 := j in
  mk x0 x1 x2 x3 x4 x5 x6 x7 x8 x9 v x11 x12 x13 x14 x15 x16 x17 x18 x19.
Definition set_tolerations (v : list corev1.Toleration) (j : t) : t :=
  let 'mk x0 x1 x2 x3 x4 x5 x6 x7 x8 x9 x10 _ x12 x13 x14 x15 x16 x17 x18 x19 := j in
  mk x0 x1 x2 x3 x4 x5 x6 x7 x8 x9 x10 v x12 x13 x14 x15 x16 x17 x18 x19.
Definition set_priorityClassName (v : string) (j : t) : t :=
  let 'mk x0 x1 x2 x3 x4 x5 x6 x7 x8 x9 x10 x11 _ x13 x14 x15 x16 x17 x18 x19 := j in
  mk x0 x1 x2 x3 x4 x5 x6 x7 x8 x9 x10 x11 v x13 x14 x15 x16 x17 x18 x19.
Definition set_volumes (v : list corev1.Volume) (j : t) : t :=
  let 'mk x0 x1 x2 x3 x4 x5 x6 x7 x8 x9 x10 x11 x12 _ x14 x15 x16 x17 x18 x19 := j in
  mk x0 x1 x2 x3 x4 x5 x6 x7 x8 x9 x10 x11 x12 v x14 x15 x16 x17 x18 x19.
Definition set_volumeMounts (v : list corev1.VolumeMount) (j : t) : t :=
  let 'mk x0 x1 x2 x3 x4 x5 x6 x7 x8 x9 x10 x11 x12 x13 _ x15 x16 x17 x18 x19 := j in
  mk x0 x1 x2 x3 x4 x5 x6 x7 x8 x9 x10 x11 x12 x13 v x15 x16 x17 x18 x19.
Definition set_imagePullSecrets (v : list corev1.LocalObjectReference) (j : t) : t :=
  let 'mk x0 x1 x2 x3 x4 x5 x6 x7 x8 x9 x10 x11 x12 x13 x14 _ x16 x17 x18 x19 := j in
  mk x0 x1 x2 x3 x4 x5 x6 x7 x8 x9 x10 x11 x12 x13 x14 v x16 x17 x18 x19.
Definition set_resourceRequirements (v : option corev1.ResourceRequirements) (j : t) : t :=
  let 'mk x0 x1 x2 x3 x4 x5 x6 x7 x8 x9 x10 x11 x12 x13 x14 x15 _ x17 x18 x19 := j in
  mk x0 x1 x2 x3 x4 x5 x6 x7 x8 x9 x10 x11 x12 x13 x14 x15 v x17 x18 x19.
Definition set_timeout (v : Z) (j : t) : t :=
  let 'mk x0 x1 x2 x3 x4 x5 x6 x7 x8 x9 x10 x11 x12 x13 x14 x15 x16 _ x18 x19 := j in
  mk x0 x1 x2 x3 x4 x5 x6 x7 x8 x9 x10 x11 x12 x13 x14 x15 x16 v x18 x19.
Definition set_nodeConfig (v : bool) (j : t) : t :=
  let 'mk x0 x1 x2 x3 x4 x5 x6 x7 x8 x9 x10 x11 x12 x13 x14 x15 x16 x17 _ x19 := j in
  mk x0 x1 x2 x3 x4 x5 x6 x7 x8 x9 x10 x11 x12 x13 x14 x15 x16 x17 v x19.
Definition set_useNodeSelector (v : bool) (j : t) : t :=
  let 'mk x0 x1 x2 x3 x4 x5 x6 x7 x8 x9 x10 x11 x12 x13 x14 x15 x16 x17 x18 _ := j in
  mk x0 x1 x2 x3 x4 x5 x6 x7 x8 x9 x10 x11 x12 x13 x14 x15 x16 x17 x18 v.
End JobBuilder.

(** ** builder.go *)

(** [type JobOption]: a function updating the builder it is given. *)
Definition JobOption : Type := JobBuilder.t -> JobBuilder.t.

Definition WithTemplate (template : string) : JobOption :=
  fun j => JobBuilder.set_template template j.

Definition WithNodeName (nodeName : string) : JobOption :=
  fun j => JobBuilder.set_nodeName nodeName j.

Definition WithJobName (name : string) : JobOption :=
  fun j => JobBuilder.set_name name j.

Definition WithNamespace (namespace : string) : JobOption :=
  fun j => JobBuilder.set_namespace namespace j.

Definition WithJobServiceAccount (sa : string) : JobOption :=
  fun j => JobBuilder.set_serviceAccount sa j.

Definition WithLabels (labels : gmap string string) : JobOption :=
  fun j => JobBuilder.set_labels labels j.

Definition WithAnnotation (annotations : gmap string string) : JobOption :=
  fun j => JobBuilder.set_annotations annotations j.

Definition WithAffinity (affinity : option corev1.Affinity) : JobOption :=
  fun j => JobBuilder.set_affinity affinity j.

Definition WithTolerations (tolerations : list corev1.Toleration) : JobOption :=
  fun j => JobBuilder.set_tolerations tolerations j.

Definition WithPriorityClassName (priorityClassName : string) : JobOption :=
  fun j => JobBuilder.set_priorityClassName priorityClassName j.

Definition WithNodeCollectorImageRef (imageRef : string) : JobOption :=
  fun j => JobBuilder.set_imageRef imageRef j.

Definition withSecurityContext (securityContext : option corev1.SecurityContext) : JobOption :=
  fun j => JobBuilder.set_securityContext securityContext j.

Definition withPodSecurityContext (podSecurityContext : option corev1.PodSecurityContext) : JobOption :=
  fun j => JobBuilder.set_podSecurityContext podSecurityContext j.

Definition WithPodVolumes (volumes : list corev1.Volume) : JobOption :=
  fun j => JobBuilder.set_volumes volumes j.

Definition WithContainerVolumeMounts (volumeMounts : list corev1.VolumeMount) : JobOption :=
  fun j => JobBuilder.set_volumeMounts volumeMounts j.

Definition WithImagePullSecrets (imagePullSecrets : list corev1.LocalObjectReference) : JobOption :=
  fun j => JobBuilder.set_imagePullSecrets imagePullSecrets j.

Definition WithResourceRequirements (rr : option corev1.ResourceRequirements) : JobOption :=
  fun j => JobBuilder.set_resourceRequirements rr j.

Definition WithJobTimeout (timeout : Z) : JobOption :=
  fun j => JobBuilder.set_timeout timeout j.

Definition WithNodeConfiguration (nodeConfig : bool) : JobOption :=
  fun j => JobBuilder.set_nodeConfig nodeConfig j.

Definition WithUseNodeSelectorParam (useNodeSelector : bool) : JobOption :=
  fun j => JobBuilder.set_useNodeSelector useNodeSelector j.

(** The zero value [JobBuilder{}]. *)
Definition zeroJobBuilder : JobBuilder.t :=
  JobBuilder.mk "" "" "" "" "" "" ∅ None None ∅ None [] "" [] [] [] None 0%Z false false.

(** [job.Spec.Template.Spec]. *)
Definition podSpec (job : Job.t) : PodSpec.t :=
  PodTemplateSpec.Spec (JobSpec.Template (Job.Spec job)).

(** [job.Spec.Template.Spec = ps]. *)
Definition set_podSpec (ps : PodSpec.t) (job : Job.t) : Job.t :=
  Job.set_Spec
    (JobSpec.set_Template
       (PodTemplateSpec.set_Spec ps (JobSpec.Template (Job.Spec job)))
       (Job.Spec job))
    job.

(** [job.Spec.Template.Spec.Containers[0].F = v], written as the update [f]
    of the element: indexing an empty slice panics. *)
Definition assignContainers0 (f : Container.t -> Container.t) (job : Job.t)
  : outcome Job.t :=
  match PodSpec.Containers (podSpec job) with
  | [] => Panic
  | c :: cs => Ret (set_podSpec (PodSpec.set_Containers (f c :: cs) (podSpec job)) job)
  end.

(** [p != nil] for a pointer [p]. *)
Definition notNil {A : Type} (p : option A) : bool :=
  match p with
  | Some _ => true
  | None => false
  end.

(** The body of the two merge loops,
    [if dst == nil { dst = make(map[string]string) }; dst[key] = val]. *)
Definition assignKey (dst : option (gmap string string)) (kv : string * string)
  : option (gmap string string) :=
  let dst := match dst with
             | None => Some ∅
             | Some m => Some m
             end in
  insert kv.1 kv.2 <$> dst.

(** [for key, val := range src { ... }] over the entries of [src]. *)
Definition rangeAssign (src : gmap string string) (dst : option (gmap string string))
  : option (gmap string string) :=
  fold_left assignKey (map_to_list src) dst.

(** [for _, c := range containers { c.Resources = rr }]: the loop variable
    [c] holds a copy of each element ([Containers] is a slice of struct
    values), the assignment writes the copy, and the slice is not written. *)
Definition rangeResources (rr : corev1.ResourceRequirements)
  (containers : list Container.t) : list Container.t :=
  fold_left (fun slice c => let c := Container.set_Resources rr c in slice)
    containers containers.

(** [for _, opt := range opts { opt(jb) }]. *)
Definition applyOptions (opts : list JobOption) (jb : JobBuilder.t) : JobBuilder.t :=
  fold_left (fun jb opt => opt jb) opts jb.

Section Build.

(** [getTemplate] resolves a template name to its manifest, and
    [yaml.Unmarshal] decodes a manifest into a zero [batchv1.Job]; both
    live outside this package's two files and are taken as given. *)
Variable getTemplate : string -> string.
Variable yaml_Unmarshal : string -> result Job.t.

(** [JobBuilder.build]: decode the template, then apply each setting. *)
Definition build (b : JobBuilder.t) : outcome Job.t :=
  let template := getTemplate (JobBuilder.template b) in
  match yaml_Unmarshal template with
  | Error err => Fail err
  | Ok job =>
    let job := Job.set_Namespace (JobBuilder.namespace b) job in
    let job := if (0 <? String.length (JobBuilder.name b))%nat
               then Job.set_Name (JobBuilder.name b) job else job in
    job ← (if (0 <? String.length (JobBuilder.imageRef b))%nat
           then assignContainers0 (Container.set_Image (JobBuilder.imageRef b)) job
           else Ret job);
    job ← (if JobBuilder.nodeConfig b
           then assignContainers0
                  (fun c => Container.set_Args
                              (Container.Args c ++ ["--node"; JobBuilder.nodeName b]) c)
                  job
           else Ret job);
    let job := if JobBuilder.useNodeSelector b
               then set_podSpec
                      (PodSpec.set_NodeSelector
                         (Some {[ corev1.LabelHostname := JobBuilder.nodeName b ]})
                         (podSpec job)) job
               else job in
    let job := Job.set_Labels (rangeAssign (JobBuilder.labels b) (Job.Labels job)) job in
    let job := Job.set_Annotations
                 (rangeAssign (JobBuilder.annotations b) (Job.Annotations job)) job in
    let job := if (0 <? String.length (JobBuilder.serviceAccount b))%nat
               then set_podSpec
                      (PodSpec.set_ServiceAccountName (JobBuilder.serviceAccount b)
                         (podSpec job)) job
               else job in
    let job := if notNil (JobBuilder.affinity b)
               then set_podSpec
                      (PodSpec.set_Affinity (JobBuilder.affinity b) (podSpec job)) job
               else job in
    let job := if (0 <? length (JobBuilder.tolerations b))%nat
               then set_podSpec
                      (PodSpec.set_Tolerations (JobBuilder.tolerations b) (podSpec job)) job
               else job in
    let job := if negb (String.eqb (JobBuilder.priorityClassName b) "")
               then set_podSpec
                      (PodSpec.set_PriorityClassName (JobBuilder.priorityClassName b)
                         (podSpec job)) job
               else job in
    let job := if notNil (JobBuilder.podSecurityContext b)
               then set_podSpec
                      (PodSpec.set_SecurityContext (JobBuilder.podSecurityContext b)
                         (podSpec job)) job
               else job in
    let job := if (0 <? JobBuilder.timeout b)%Z
               then Job.set_Spec
                      (JobSpec.set_ActiveDeadlineSeconds
                         (Some (Duration.int64_of_float64
                                  (Duration.Seconds (JobBuilder.timeout b))))
                         (Job.Spec job)) job
               else job in
    job ← (if notNil (JobBuilder.securityContext b)
           then assignContainers0
                  (Container.set_SecurityContext (JobBuilder.securityContext b)) job
           else Ret job);
    let job := if (0 <? length (JobBuilder.volumes b))%nat
               then set_podSpec (PodSpec.set_Volumes (JobBuilder.volumes b) (podSpec job)) job
               else job in
    let job := if (0 <? length (JobBuilder.imagePullSecrets b))%nat
               then set_podSpec
                      (PodSpec.set_ImagePullSecrets (JobBuilder.imagePullSecrets b)
                         (podSpec job)) job
               else job in
    let job := match JobBuilder.resourceRequirements b with
               | Some rr =>
                   set_podSpec
                     (PodSpec.set_Containers
                        (rangeResources rr (PodSpec.Containers (podSpec job)))
                        (podSpec job)) job
               | None => job
               end in
    job ← (if (0 <? length (JobBuilder.volumeMounts b))%nat
           then assignContainers0
                  (Container.set_VolumeMounts (JobBuilder.volumeMounts b)) job
           else Ret job);
    Ret job
  end.

(** [GetJob(opts ...JobOption)]: apply the options in order to a zero
    builder and build. *)
Definition GetJob (opts : list JobOption) : outcome Job.t :=
  let jb := applyOptions opts zeroJobBuilder in
  build jb.

End Build.

(** ** collector.go *)

Definition NodeCollectorName : string := "node-collector".

(** [corev1.Namespace], by its [ObjectMeta.Name]. *)
Record Namespace := {
  NamespaceName : string
}.

(** The RBAC objects returned by [GetAuth], by their names. *)
Record ClusterRole := {
  ClusterRoleName : string
}.

Record ClusterRoleBinding := {
  ClusterRoleBindingName : string
}.

Record ServiceAccount := {
  ServiceAccountName : string
}.

(** [metav1.DeletionPropagation] and [metav1.DeleteOptions]. *)
Inductive DeletionPropagation :=
| DeletePropagationOrphan
| DeletePropagationBackground
| DeletePropagationForeground.

Record DeleteOptions := {
  PropagationPolicy : option DeletionPropagation
}.

(** An open log stream ([io.ReadCloser]). *)
Record ReadCloser := {
  stream : nat
}.

(** [type ObjectRef struct]. *)
Record ObjectRef := {
  Kind : string;
  Name : string;
  Namespace_ : string
}.

(** The calls the collector issues, indexed by what they return. Deletions
    and [Close] return a possibly nil [error].
    [RunnerRun timeout job] is
    [New(WithTimeout(timeout)).Run(ctx, NewRunnableJob(clientset, job))] and
    [GetLogs] is [LogsReader.GetLogsByJobAndContainerName]. *)
Inductive Call : Type -> Type :=
| NamespacesGet (name : string) : Call (result Namespace)
| NamespacesCreate (ns : Namespace) : Call (result Namespace)
| NamespacesDelete (name : string) (opts : DeleteOptions) : Call (option error)
| ClusterRolesCreate (cr : ClusterRole) : Call (result ClusterRole)
| ClusterRolesDelete (name : string) (opts : DeleteOptions) : Call (option error)
| ServiceAccountsCreate (namespace : string) (sa : ServiceAccount)
  : Call (result ServiceAccount)
| ServiceAccountsDelete (namespace name : string) (opts : DeleteOptions)
  : Call (option error)
| ClusterRoleBindingsCreate (rb : ClusterRoleBinding) : Call (result ClusterRoleBinding)
| ClusterRoleBindingsDelete (name : string) (opts : DeleteOptions) : Call (option error)
| JobsCreate (namespace : string) (job : Job.t) : Call (result Job.t)
| JobsDelete (namespace name : string) (opts : DeleteOptions) : Call (option error)
| RunnerRun (timeout : Z) (job : Job.t) : Call (option error)
| GetLogs (job : Job.t) (containerName : string) : Call (result ReadCloser)
| ReadAll (r : ReadCloser) : Call (result string)
| Close (r : ReadCloser) : Call (option error).

(** A call together with what the cluster answered. *)
Inductive Event :=
| Issued {R : Type} (c : Call R) (r : R).

(** A cluster answers every call from its current state [W]; nothing else
    is assumed of it. *)
Record Cluster (W : Type) := {
  respond : forall R : Type, Call R -> W -> R * W
}.
Arguments respond {W} _ {R} _ _.

(** [type jobCollector struct]. The [cluster] and [logsReader] fields are the
    cluster the calls below are issued to. *)
Module jobCollector.
Record t := mk {
  timeout : Z;
  labels : gmap string string;
  annotation : gmap string string;
  templateName : string;
  namespace : string;
  priorityClassName : string;
  name : string;
  serviceAccount : string;
  podSecurityContext : option corev1.PodSecurityContext;
  securityContext : option corev1.SecurityContext;
  imageRef : string;
  affinity : option corev1.Affinity;
  tolerations : list corev1.Toleration;
  volumes : list corev1.Volume;
  volumeMounts : list corev1.VolumeMount;
  imagePullSecrets : list corev1.LocalObjectReference;
  collectorTimeout : Z;
  resourceRequirements : option corev1.ResourceRequirements;
  nodeConfig : bool;
  useNodeSelector : bool
}.
End jobCollector.
Section Collector.

Context {W : Type} (cluster : Cluster W).

(** From the parts of the package outside the two files: the template
    source and decoder of the builder, and [GetAuth] with the names of its
    RBAC objects. *)
Variable getTemplate : string -> string.
Variable yaml_Unmarshal : string -> result Job.t.
Variable GetAuth : string -> result (ClusterRole * ClusterRoleBinding * ServiceAccount).
Variables clusterRole roleBinding serviceAccount : string.

(** Modelled from the spec: [ComputeHash], whose file is not among the
    sources, hashes an identity key (kind, name, namespace) to a
    deterministic short identifier; it is any function of the reference. *)
Variable ComputeHash : ObjectRef -> string.

(** The state threaded through a collector method: the cluster's state and
    the log of the calls issued so far, oldest first. *)
Record St := {
  world : W;
  trace : list Event
}.

Definition M (A : Type) : Type := St -> outcome A * St.

#[global] Instance M_ret : MRet M := fun A a st => (Ret a, st).
#[global] Instance M_bind : MBind M := fun A B k m st =>
  match m st with
  | (Ret a, st') => k a st'
  | (Fail err, st') => (Fail err, st')
  | (Panic, st') => (Panic, st')
  end.

(** Issue a call: ask the cluster, log the call and its answer. *)
Definition call {R : Type} (c : Call R) : M R := fun st =>
  let (r, w) := respond cluster c (world st) in
  (Ret r, {| world := w; trace := trace st ++ [Issued c r] |}).

(** [return zero, err]. *)
Definition throw {A : Type} (err : error) : M A := fun st => (Fail err, st).

(** The outcome of a Go call that touches no cluster state. *)
Definition lift {A : Type} (o : outcome A) : M A := fun st => (o, st).

(** [defer d(); body]: [d] runs when [body] is left, however it is left. *)
Definition defer {A : Type} (d : M unit) (body : M A) : M A := fun st =>
  let (r, st') := body st in
  let (_, st'') := d st' in
  (r, st'').

(** [if err != nil { return zero, fmt.Errorf(prefix + "%w", err) }] after a
    call returning [(T, error)]. *)
Definition orErrorf {A : Type} (prefix : string) (r : result A) : M A :=
  match r with
  | Ok a => mret a
  | Error err => throw (Errorf prefix err)
  end.

Definition getTrivyNamespace (jb : jobCollector.t) : M (result Namespace) :=
  call (NamespacesGet (jobCollector.namespace jb)).

Definition background : DeleteOptions :=
  {| PropagationPolicy := Some DeletePropagationBackground |}.

(** The options [ApplyAndCollect] hands to [GetJob]. *)
Definition collectJobOptions (jb : jobCollector.t) (nodeName : string)
  : list JobOption :=
  let JobOptions :=
    [ WithTemplate (jobCollector.templateName jb);
      WithNamespace (jobCollector.namespace jb);
      WithNodeName nodeName;
      WithAnnotation (jobCollector.annotation jb);
      WithLabels (jobCollector.labels jb);
      WithJobTimeout (jobCollector.collectorTimeout jb);
      withSecurityContext (jobCollector.securityContext jb);
      withPodSecurityContext (jobCollector.podSecurityContext jb);
      WithNodeCollectorImageRef (jobCollector.imageRef jb);
      WithAffinity (jobCollector.affinity jb);
      WithTolerations (jobCollector.tolerations jb);
      WithPodVolumes (jobCollector.volumes jb);
      WithImagePullSecrets (jobCollector.imagePullSecrets jb);
      WithContainerVolumeMounts (jobCollector.volumeMounts jb);
      WithNodeConfiguration (jobCollector.nodeConfig jb);
      WithPriorityClassName (jobCollector.priorityClassName jb);
      WithResourceRequirements (jobCollector.resourceRequirements jb);
      WithUseNodeSelectorParam true;
      WithJobName
        (jobCollector.templateName jb +:+ "-" +:+
         ComputeHash {| Kind := "Node-Info";
                        Name := nodeName;
                        Namespace_ := jobCollector.namespace jb |}) ] in
  if jobCollector.nodeConfig jb
  then JobOptions ++ [WithJobServiceAccount serviceAccount]
  else JobOptions.

(** The deferred cleanup of [ApplyAndCollect]: every error is dropped. *)
Definition cleanup (jb : jobCollector.t) (job : Job.t) : M unit :=
  (if jobCollector.nodeConfig jb
   then
     call (ClusterRoleBindingsDelete roleBinding background);;
     call (ClusterRolesDelete clusterRole background);;
     call (ServiceAccountsDelete (Job.Namespace job) serviceAccount background);;
     mret tt
   else mret tt);;
  call (JobsDelete (Job.Namespace job) (Job.Name job) background);;
  mret tt.

(** The first block of [ApplyAndCollect]: look the collector's namespace
    up, and create it when the lookup fails with a not-found error. *)
Definition ensureNamespace (jb : jobCollector.t) : M unit :=
  r ← getTrivyNamespace jb;
  match r with
  | Error err =>
      if IsNotFound err then
        let trivyNamespace := {| NamespaceName := jobCollector.namespace jb |} in
        r ← call (NamespacesCreate trivyNamespace);
        match r with
        | Error err => throw err
        | Ok _ => mret tt
        end
      else mret tt
  | Ok _ => mret tt
  end.

(** The second block: with [nodeConfig], create the cluster role, the
    service account and the role binding. *)
Definition provisionAuth (jb : jobCollector.t) : M unit :=
  if jobCollector.nodeConfig jb then
    match GetAuth (jobCollector.namespace jb) with
    | Error err => throw (Errorf "running node-collector job: " err)
    | Ok (cr, rb, sa) =>
        r ← call (ClusterRolesCreate cr);
        orErrorf "creating cluster role: " r;;
        r ← call (ServiceAccountsCreate (jobCollector.namespace jb) sa);
        orErrorf "creating service account: " r;;
        r ← call (ClusterRoleBindingsCreate rb);
        orErrorf "creating role binding: " r;;
        mret tt
    end
  else mret tt.

(** The rest: build the job, run it to completion, then, with the cleanup
    deferred, read its logs. *)
Definition runAndCollect (jb : jobCollector.t) (nodeName : string) : M string :=
  let JobOptions := collectJobOptions jb nodeName in
  job ← match GetJob getTemplate yaml_Unmarshal JobOptions with
        | Ret job => mret job
        | Fail err => throw (Errorf "running node-collector job: " err)
        | Panic => lift Panic
        end;
  err ← call (RunnerRun (jobCollector.timeout jb) job);
  match err with
  | Some err => throw (Errorf "running node-collector job: " err)
  | None => mret tt
  end;;
  defer (cleanup jb job)
    (r ← call (GetLogs job NodeCollectorName);
     logsStream ← orErrorf "getting logs: " r;
     defer (call (Close logsStream);; mret tt)
       (r ← call (ReadAll logsStream);
        output ← orErrorf "reading logs: " r;
        mret output)).

(** [jobCollector.ApplyAndCollect(ctx, nodeName)]: the three blocks in
    sequence; an error returned by one ends the method. *)
Definition ApplyAndCollect (jb : jobCollector.t) (nodeName : string) : M string :=
  ensureNamespace jb;;
  provisionAuth jb;;
  runAndCollect jb nodeName.

(** The options [Apply] hands to [GetJob]. *)
Definition applyJobOptions (jb : jobCollector.t) (nodeName : string)
  : list JobOption :=
  [ WithNamespace (jobCollector.namespace jb);
    WithLabels (jobCollector.labels jb);
    withPodSecurityContext (jobCollector.podSecurityContext jb);
    withSecurityContext (jobCollector.securityContext jb);
    WithAffinity (jobCollector.affinity jb);
    WithTolerations (jobCollector.tolerations jb);
    WithJobServiceAccount (jobCollector.serviceAccount jb);
    WithJobTimeout (jobCollector.collectorTimeout jb);
    WithNodeCollectorImageRef (jobCollector.imageRef jb);
    WithAnnotation (jobCollector.annotation jb);
    WithTemplate (jobCollector.templateName jb);
    WithPodVolumes (jobCollector.volumes jb);
    WithNodeConfiguration (jobCollector.nodeConfig jb);
    WithImagePullSecrets (jobCollector.imagePullSecrets jb);
    WithContainerVolumeMounts (jobCollector.volumeMounts jb);
    WithPriorityClassName (jobCollector.priorityClassName jb);
    WithNodeName nodeName;
    WithJobName (jobCollector.name jb);
    WithUseNodeSelectorParam (jobCollector.useNodeSelector jb);
    WithResourceRequirements (jobCollector.resourceRequirements jb) ].

(** [jobCollector.Apply(ctx, nodeName)], returning the job the cluster
    created. *)
Definition Apply (jb : jobCollector.t) (nodeName : string) : M Job.t :=
  let jobOptions := applyJobOptions jb nodeName in
  job ← match GetJob getTemplate yaml_Unmarshal jobOptions with
        | Ret job => mret job
        | Fail err => throw (Errorf "running node-collector job: " err)
        | Panic => lift Panic
        end;
  r ← call (JobsCreate (Job.Namespace job) job);
  match r with
  | Error err => throw err
  | Ok job => mret job
  end.

Definition deleteTrivyNamespace (jb : jobCollector.t) : M unit :=
  call (NamespacesDelete (jobCollector.namespace jb) background);;
  mret tt.

Definition Cleanup (jb : jobCollector.t) : M unit :=
  deleteTrivyNamespace jb.

(** A method is run from a cluster state and a log; [run] starts it with
    an empty log. *)
Definition runFrom {A : Type} (m : M A) (w : W) (tr : list Event)
  : outcome A * list Event :=
  let (r, st) := m {| world := w; trace := tr |} in
  (r, trace st).

Definition run {A : Type} (m : M A) (w : W) : outcome A * list Event :=
  runFrom m w [].

End Collector.

(** ** Closed forms of the built job *)

(** What [build] makes of the first container of the template. *)
Definition builtContainer0 (b : JobBuilder.t) (c0 : Container.t) : Container.t :=
  {| Container.Name := Container.Name c0;
     Container.Image :=
       if (0 <? String.length (JobBuilder.imageRef b))%nat
       then JobBuilder.imageRef b else Container.Image c0;
     Container.Args :=
       if JobBuilder.nodeConfig b
       then Container.Args c0 ++ ["--node"; JobBuilder.nodeName b]
       else Container.Args c0;
     Container.Resources := Container.Resources c0;
     Container.VolumeMounts :=
       if (0 <? length (JobBuilder.volumeMounts b))%nat
       then JobBuilder.volumeMounts b else Container.VolumeMounts c0;
     Container.SecurityContext :=
       if notNil (JobBuilder.securityContext b)
       then JobBuilder.securityContext b else Container.SecurityContext c0 |}.

(** What [build] makes of the containers of the template: only the first
    one is written. *)
Definition builtContainers (b : JobBuilder.t) (containers : list Container.t)
  : list Container.t :=
  match containers with
  | [] => []
  | c0 :: rest => builtContainer0 b c0 :: rest
  end.

(** Whether [build] indexes [Containers[0]]. *)
Definition needsContainer0 (b : JobBuilder.t) : bool :=
  (0 <? String.length (JobBuilder.imageRef b))%nat
  || JobBuilder.nodeConfig b
  || notNil (JobBuilder.securityContext b)
  || (0 <? length (JobBuilder.volumeMounts b))%nat.

(** What [build] makes of the pod spec of the template. *)
Definition builtPodSpec (b : JobBuilder.t) (ps : PodSpec.t) : PodSpec.t :=
  {| PodSpec.Containers := builtContainers b (PodSpec.Containers ps);
     PodSpec.NodeSelector :=
       if JobBuilder.useNodeSelector b
       then Some {[ corev1.LabelHostname := JobBuilder.nodeName b ]}
       else PodSpec.NodeSelector ps;
     PodSpec.NodeName := PodSpec.NodeName ps;
     PodSpec.ServiceAccountName :=
       if (0 <? String.length (JobBuilder.serviceAccount b))%nat
       then JobBuilder.serviceAccount b else PodSpec.ServiceAccountName ps;
     PodSpec.Affinity :=
       if notNil (JobBuilder.affinity b)
       then JobBuilder.affinity b else PodSpec.Affinity ps;
     PodSpec.Tolerations :=
       if (0 <? length (JobBuilder.tolerations b))%nat
       then JobBuilder.tolerations b else PodSpec.Tolerations ps;
     PodSpec.PriorityClassName :=
       if negb (String.eqb (JobBuilder.priorityClassName b) "")
       then JobBuilder.priorityClassName b else PodSpec.PriorityClassName ps;
     PodSpec.SecurityContext :=
       if notNil (JobBuilder.podSecurityContext b)
       then JobBuilder.podSecurityContext b else PodSpec.SecurityContext ps;
     PodSpec.Volumes :=
       if (0 <? length (JobBuilder.volumes b))%nat
       then JobBuilder.volumes b else PodSpec.Volumes ps;
     PodSpec.ImagePullSecrets :=
       if (0 <? length (JobBuilder.imagePullSecrets b))%nat
       then JobBuilder.imagePullSecrets b else PodSpec.ImagePullSecrets ps |}.

(** The job [build] returns on a decoded template [tj], when it returns one
    (lemmas [build_decoded] and [build_decoded_nil]). *)
Definition builtJob (b : JobBuilder.t) (tj : Job.t) : Job.t :=
  {| Job.Name :=
       if (0 <? String.length (JobBuilder.name b))%nat
       then JobBuilder.name b else Job.Name tj;
     Job.Namespace := JobBuilder.namespace b;
     Job.Labels := rangeAssign (JobBuilder.labels b) (Job.Labels tj);
     Job.Annotations := rangeAssign (JobBuilder.annotations b) (Job.Annotations tj);
     Job.Spec :=
       {| JobSpec.ActiveDeadlineSeconds :=
            if (0 <? JobBuilder.timeout b)%Z
            then Some (Duration.int64_of_float64
                         (Duration.Seconds (JobBuilder.timeout b)))
            else JobSpec.ActiveDeadlineSeconds (Job.Spec tj);
          JobSpec.Template :=
            {| PodTemplateSpec.Spec := builtPodSpec b (podSpec tj) |} |} |}.


(** Reading key [k] of a possibly nil map. *)
Definition lookupKey (m : option (gmap string string)) (k : string) : option string :=
  m ≫= (.!! k).


(** ** Reading the log of calls *)

(** A namespace-create call. *)
Definition isNamespacesCreate (e : Event) : bool :=
  match e with
  | Issued c _ => match c with NamespacesCreate _ => true | _ => false end
  end.

(** A deletion of any object. *)
Definition isDeletion (e : Event) : bool :=
  match e with
  | Issued c _ =>
      match c with
      | NamespacesDelete _ _ | ClusterRolesDelete _ _ | ServiceAccountsDelete _ _ _
      | ClusterRoleBindingsDelete _ _ | JobsDelete _ _ _ => true
      | _ => false
      end
  end.

(** A call of the log retriever or on the stream it returned. *)
Definition isLogRetrieval (e : Event) : bool :=
  match e with
  | Issued c _ =>
      match c with
      | GetLogs _ _ | ReadAll _ | Close _ => true
      | _ => false
      end
  end.

(** A job submission through the jobs API. *)
Definition isJobsCreate (e : Event) : bool :=
  match e with
  | Issued c _ => match c with JobsCreate _ _ => true | _ => false end
  end.

(** A blocking wait: the Completion Runner's [Run]. *)
Definition isWait (e : Event) : bool :=
  match e with
  | Issued c _ => match c with RunnerRun _ _ => true | _ => false end
  end.

(** The error of a failed namespace lookup. *)
Definition lookupFailure (e : Event) : option error :=
  match e with
  | Issued c r =>
      match c in Call R return R -> option error with
      | NamespacesGet _ =>
          fun r => match r with
                   | Error err => Some err
                   | Ok _ => None
                   end
      | _ => fun _ => None
      end r
  end.

(** The error [Run] returned, if the event is a [Run] that returned one. *)
Definition runFailure (e : Event) : option error :=
  match e with
  | Issued c r =>
      match c in Call R return R -> option error with
      | RunnerRun _ _ => fun r => r
      | _ => fun _ => None
      end r
  end.

(** A [Run] that returned nil. *)
Definition runSucceeded (e : Event) : bool :=
  match e with
  | Issued c r =>
      match c in Call R return R -> bool with
      | RunnerRun _ _ => fun r => negb (notNil r)
      | _ => fun _ => false
      end r
  end.

(** The job handed to [Run]. *)
Definition ranJob (e : Event) : option Job.t :=
  match e with
  | Issued c _ => match c with RunnerRun _ job => Some job | _ => None end
  end.

(** The job handed to the jobs API, and what the API answered. *)
Definition createdJob (e : Event) : option (string * Job.t * result Job.t) :=
  match e with
  | Issued c r =>
      match c in Call R return R -> option (string * Job.t * result Job.t) with
      | JobsCreate namespace job => fun r => Some (namespace, job, r)
      | _ => fun _ => None
      end r
  end.

(** How many logged calls satisfy [p]. *)
Definition countCalls (p : Event -> bool) (tr : list Event) : nat :=
  length (List.filter p tr).

(** The calls logged before the first [Run] that returned nil; the whole
    log when there is none. *)
Fixpoint beforeRunSucceeded (tr : list Event) : list Event :=
  match tr with
  | [] => []
  | e :: tr' => if runSucceeded e then [] else e :: beforeRunSucceeded tr'
  end.

(** ** A template and a scripted cluster for the examples *)

Module Sample.

Definition noResources : corev1.ResourceRequirements :=
  {| corev1.Limits := ∅; corev1.Requests := ∅ |}.

Definition collectorContainer : Container.t :=
  {| Container.Name := "node-collector";
     Container.Image := "ghcr.io/aquasecurity/node-collector:0.3.1";
     Container.Args := ["k8s"];
     Container.Resources := noResources;
     Container.VolumeMounts := [];
     Container.SecurityContext := None |}.

Definition sidecarContainer : Container.t :=
  {| Container.Name := "log-shipper";
     Container.Image := "busybox:1.36";
     Container.Args := ["tail"];
     Container.Resources := noResources;
     Container.VolumeMounts := [];
     Container.SecurityContext := None |}.

(** A decoded template with a primary container and a sidecar. *)
Definition template : Job.t :=
  {| Job.Name := "node-collector";
     Job.Namespace := "";
     Job.Labels := Some {[ "app" := "node-collector"; "team" := "template" ]};
     Job.Annotations := None;
     Job.Spec :=
       {| JobSpec.ActiveDeadlineSeconds := Some 300%Z;
          JobSpec.Template :=
            {| PodTemplateSpec.Spec :=
                 {| PodSpec.Containers := [collectorContainer; sidecarContainer];
                    PodSpec.NodeSelector := None;
                    PodSpec.NodeName := "";
                    PodSpec.ServiceAccountName := "";
                    PodSpec.Affinity := None;
                    PodSpec.Tolerations := [];
                    PodSpec.PriorityClassName := "";
                    PodSpec.SecurityContext := None;
                    PodSpec.Volumes := [];
                    PodSpec.ImagePullSecrets := [] |} |} |} |}.

Definition getTemplate (name : string) : string := name.

Definition yaml_Unmarshal (manifest : string) : result Job.t :=
  if String.eqb manifest "node-collector" then Ok template
  else Error (errorString "error unmarshaling JSON").

Definition resources : corev1.ResourceRequirements :=
  {| corev1.Limits := {[ "cpu" := "100m" ]}; corev1.Requests := ∅ |}.

Definition securityContext : corev1.SecurityContext :=
  {| corev1.Privileged := Some false;
     corev1.ReadOnlyRootFilesystem := Some true;
     corev1.RunAsUser := Some 1000%Z |}.

Definition volumeMounts : list corev1.VolumeMount :=
  [ {| corev1.MountName := "var-lib-kubelet";
       corev1.MountPath := "/var/lib/kubelet";
       corev1.ReadOnly := true |} ].

(** A builder with every container setting set. *)
Definition builder : JobBuilder.t :=
  applyOptions
    [ WithTemplate "node-collector";
      WithNamespace "trivy-temp";
      WithNodeName "worker-1";
      WithNodeCollectorImageRef "example.org/node-collector:1";
      WithResourceRequirements (Some resources);
      withSecurityContext (Some securityContext);
      WithContainerVolumeMounts volumeMounts;
      WithLabels {[ "team" := "caller"; "trivy.collector.name" := "node-collector" ]};
      WithAnnotation {[ "note" := "scan" ]};
      WithJobTimeout 1500000000%Z;
      WithNodeConfiguration true ]
    zeroJobBuilder.

Definition GetAuth (namespace : string)
  : result (ClusterRole * ClusterRoleBinding * ServiceAccount) :=
  Ok ({| ClusterRoleName := "node-collector-cr" |},
      {| ClusterRoleBindingName := "node-collector-rb" |},
      {| ServiceAccountName := "node-collector-sa" |}).

Definition ComputeHash (ref : ObjectRef) : string :=
  Kind ref +:+ "." +:+ Name ref +:+ "." +:+ Namespace_ ref.

(** A cluster that answers the namespace lookup with [lookup], [Run] with
    [ran], and lets every other call succeed. *)
Definition scripted (lookup : result Namespace) (ran : option error) : Cluster unit :=
  {| respond := fun R (c : Call R) w =>
       (match c in Call R return R with
        | NamespacesGet _ => lookup
        | NamespacesCreate ns => Ok ns
        | NamespacesDelete _ _ => None
        | ClusterRolesCreate cr => Ok cr
        | ClusterRolesDelete _ _ => None
        | ServiceAccountsCreate _ sa => Ok sa
        | ServiceAccountsDelete _ _ _ => None
        | ClusterRoleBindingsCreate rb => Ok rb
        | ClusterRoleBindingsDelete _ _ => None
        | JobsCreate _ job => Ok job
        | JobsDelete _ _ _ => None
        | RunnerRun _ _ => ran
        | GetLogs _ _ => Ok {| stream := 0 |}
        | ReadAll _ => Ok "{}"
        | Close _ => None
        end, w) |}.

Definition collector : jobCollector.t :=
  {| jobCollector.timeout := 0;
     jobCollector.labels := ∅;
     jobCollector.annotation := ∅;
     jobCollector.templateName := "node-collector";
     jobCollector.namespace := "trivy-temp";
     jobCollector.priorityClassName := "";
     jobCollector.name := "scan-worker-1";
     jobCollector.serviceAccount := "";
     jobCollector.podSecurityContext := None;
     jobCollector.securityContext := None;
     jobCollector.imageRef := "";
     jobCollector.affinity := None;
     jobCollector.tolerations := [];
     jobCollector.volumes := [];
     jobCollector.volumeMounts := [];
     jobCollector.imagePullSecrets := [];
     jobCollector.collectorTimeout := 0;
     jobCollector.resourceRequirements := None;
     jobCollector.nodeConfig := false;
     jobCollector.useNodeSelector := false |}.

Definition forbidden : error :=
  StatusError StatusReasonForbidden "namespaces is forbidden".

Definition notFound : error :=
  StatusError StatusReasonNotFound "namespaces not found".

Definition deadlineExceeded : error :=
  errorString "context deadline exceeded".

(** [ApplyAndCollect] and [Apply] of the sample collector on the scripted
    cluster. *)
Definition applyAndCollect (lookup : result Namespace) (ran : option error)
  (jb : jobCollector.t) (nodeName : string) : outcome string * list Event :=
  run (ApplyAndCollect (scripted lookup ran) getTemplate yaml_Unmarshal GetAuth
         "node-collector-cr" "node-collector-rb" "node-collector-sa" ComputeHash
         jb nodeName) tt.

Definition apply (jb : jobCollector.t) (nodeName : string)
  : outcome Job.t * list Event :=
  run (Apply (scripted (Ok {| NamespaceName := "trivy-temp" |}) None)
         getTemplate yaml_Unmarshal jb nodeName) tt.

End Sample.

(** ** The collector's options *)

(** [type CollectorOption]: a function updating the collector it is
    given. *)
Definition CollectorOption : Type := jobCollector.t -> jobCollector.t.

(** [for name, value := range labels { dst[name] = value }] into a map that
    is not nil. *)
Definition insertAll (labels dst : gmap string string) : gmap string string :=
  fold_left (fun dst kv => <[kv.1 := kv.2]> dst) (map_to_list labels) dst.

Definition WithTimetout (timeout : Z) : CollectorOption := fun jc =>
  let 'jobCollector.mk _ x1 x2 x3 x4 x5 x6 x7 x8 x9 x10 x11 x12 x13 x14 x15 x16 x17 x18
    x19 := jc in
  jobCollector.mk timeout x1 x2 x3 x4 x5 x6 x7 x8 x9 x10 x11 x12 x13 x14 x15 x16 x17 x18
    x19.

(** [WithJobLabels] is the one option that adds to what the collector has:
    [if jc.labels == nil { jc.labels = make(...) }], then one assignment per
    entry. *)
Definition WithJobLabels (labels : gmap string string) : CollectorOption := fun jc =>
  let 'jobCollector.mk x0 x1 x2 x3 x4 x5 x6 x7 x8 x9 x10 x11 x12 x13 x14 x15 x16 x17 x18
    x19 := jc in
  jobCollector.mk x0 (insertAll labels x1) x2 x3 x4 x5 x6 x7 x8 x9 x10 x11 x12 x13 x14 x15
    x16 x17 x18 x19.

Definition WithJobAnnotation (annotation : gmap string string) : CollectorOption := fun jc =>
  let 'jobCollector.mk x0 x1 _ x3 x4 x5 x6 x7 x8 x9 x10 x11 x12 x13 x14 x15 x16 x17 x18
    x19 := jc in
  jobCollector.mk x0 x1 annotation x3 x4 x5 x6 x7 x8 x9 x10 x11 x12 x13 x14 x15 x16 x17
    x18 x19.

Definition WithJobNamespace (namespace : string) : CollectorOption := fun jc =>
  let 'jobCollector.mk x0 x1 x2 x3 _ x5 x6 x7 x8 x9 x10 x11 x12 x13 x14 x15 x16 x17 x18
    x19 := jc in
  jobCollector.mk x0 x1 x2 x3 namespace x5 x6 x7 x8 x9 x10 x11 x12 x13 x14 x15 x16 x17 x18
    x19.

Definition WithPodPriorityClassName (priorityClassName : string) : CollectorOption := fun jc =>
  let 'jobCollector.mk x0 x1 x2 x3 x4 _ x6 x7 x8 x9 x10 x11 x12 x13 x14 x15 x16 x17 x18
    x19 := jc in
  jobCollector.mk x0 x1 x2 x3 x4 priorityClassName x6 x7 x8 x9 x10 x11 x12 x13 x14 x15 x16
    x17 x18 x19.

Definition WithJobAffinity (affinity : option corev1.Affinity) : CollectorOption := fun jc =>
  let 'jobCollector.mk x0 x1 x2 x3 x4 x5 x6 x7 x8 x9 x10 _ x12 x13 x14 x15 x16 x17 x18 x19
    := jc in
  jobCollector.mk x0 x1 x2 x3 x4 x5 x6 x7 x8 x9 x10 affinity x12 x13 x14 x15 x16 x17 x18
    x19.

Definition WithJobTolerations (tolerations : list corev1.Toleration) : CollectorOption := fun jc =>
  let 'jobCollector.mk x0 x1 x2 x3 x4 x5 x6 x7 x8 x9 x10 x11 _ x13 x14 x15 x16 x17 x18 x19
    := jc in
  jobCollector.mk x0 x1 x2 x3 x4 x5 x6 x7 x8 x9 x10 x11 tolerations x13 x14 x15 x16 x17
    x18 x19.

Definition WithName (name : string) : CollectorOption := fun jc =>
  let 'jobCollector.mk x0 x1 x2 x3 x4 x5 _ x7 x8 x9 x10 x11 x12 x13 x14 x15 x16 x17 x18
    x19 := jc in
  jobCollector.mk x0 x1 x2 x3 x4 x5 name x7 x8 x9 x10 x11 x12 x13 x14 x15 x16 x17 x18 x19.

Definition WithNodeConfig (nodeConfig : bool) : CollectorOption := fun jc =>
  let 'jobCollector.mk x0 x1 x2 x3 x4 x5 x6 x7 x8 x9 x10 x11 x12 x13 x14 x15 x16 x17 _ x19
    := jc in
  jobCollector.mk x0 x1 x2 x3 x4 x5 x6 x7 x8 x9 x10 x11 x12 x13 x14 x15 x16 x17 nodeConfig
    x19.

Definition WithImageRef (imageRef : string) : CollectorOption := fun jc =>
  let 'jobCollector.mk x0 x1 x2 x3 x4 x5 x6 x7 x8 x9 _ x11 x12 x13 x14 x15 x16 x17 x18 x19
    := jc in
  jobCollector.mk x0 x1 x2 x3 x4 x5 x6 x7 x8 x9 imageRef x11 x12 x13 x14 x15 x16 x17 x18
    x19.

Definition WithServiceAccount (sa : string) : CollectorOption := fun jc =>
  let 'jobCollector.mk x0 x1 x2 x3 x4 x5 x6 _ x8 x9 x10 x11 x12 x13 x14 x15 x16 x17 x18
    x19 := jc in
  jobCollector.mk x0 x1 x2 x3 x4 x5 x6 sa x8 x9 x10 x11 x12 x13 x14 x15 x16 x17 x18 x19.

Definition WithJobTemplateName (name : string) : CollectorOption := fun jc =>
  let 'jobCollector.mk x0 x1 x2 _ x4 x5 x6 x7 x8 x9 x10 x11 x12 x13 x14 x15 x16 x17 x18
    x19 := jc in
  jobCollector.mk x0 x1 x2 name x4 x5 x6 x7 x8 x9 x10 x11 x12 x13 x14 x15 x16 x17 x18 x19.

Definition WithContainerResourceRequirements (rr : option corev1.ResourceRequirements) : CollectorOption := fun jc =>
  let 'jobCollector.mk x0 x1 x2 x3 x4 x5 x6 x7 x8 x9 x10 x11 x12 x13 x14 x15 x16 _ x18 x19
    := jc in
  jobCollector.mk x0 x1 x2 x3 x4 x5 x6 x7 x8 x9 x10 x11 x12 x13 x14 x15 x16 rr x18 x19.

Definition WithContainerSecurityContext (securityContext : option corev1.SecurityContext) : CollectorOption := fun jc =>
  let 'jobCollector.mk x0 x1 x2 x3 x4 x5 x6 x7 x8 _ x10 x11 x12 x13 x14 x15 x16 x17 x18
    x19 := jc in
  jobCollector.mk x0 x1 x2 x3 x4 x5 x6 x7 x8 securityContext x10 x11 x12 x13 x14 x15 x16
    x17 x18 x19.

Definition WithPodSpecSecurityContext (podSecurityContext : option corev1.PodSecurityContext) : CollectorOption := fun jc =>
  let 'jobCollector.mk x0 x1 x2 x3 x4 x5 x6 x7 _ x9 x10 x11 x12 x13 x14 x15 x16 x17 x18
    x19 := jc in
  jobCollector.mk x0 x1 x2 x3 x4 x5 x6 x7 podSecurityContext x9 x10 x11 x12 x13 x14 x15
    x16 x17 x18 x19.

Definition WithVolumes (volumes : list corev1.Volume) : CollectorOption := fun jc =>
  let 'jobCollector.mk x0 x1 x2 x3 x4 x5 x6 x7 x8 x9 x10 x11 x12 _ x14 x15 x16 x17 x18 x19
    := jc in
  jobCollector.mk x0 x1 x2 x3 x4 x5 x6 x7 x8 x9 x10 x11 x12 volumes x14 x15 x16 x17 x18
    x19.

Definition WithVolumesMount (volumesMount : list corev1.VolumeMount) : CollectorOption := fun jc =>
  let 'jobCollector.mk x0 x1 x2 x3 x4 x5 x6 x7 x8 x9 x10 x11 x12 x13 _ x15 x16 x17 x18 x19
    := jc in
  jobCollector.mk x0 x1 x2 x3 x4 x5 x6 x7 x8 x9 x10 x11 x12 x13 volumesMount x15 x16 x17
    x18 x19.

Definition WithPodImagePullSecrets (imagePullSecrets : list corev1.LocalObjectReference) : CollectorOption := fun jc =>
  let 'jobCollector.mk x0 x1 x2 x3 x4 x5 x6 x7 x8 x9 x10 x11 x12 x13 x14 _ x16 x17 x18 x19
    := jc in
  jobCollector.mk x0 x1 x2 x3 x4 x5 x6 x7 x8 x9 x10 x11 x12 x13 x14 imagePullSecrets x16
    x17 x18 x19.

Definition WithCollectorTimeout (timeout : Z) : CollectorOption := fun jc =>
  let 'jobCollector.mk x0 x1 x2 x3 x4 x5 x6 x7 x8 x9 x10 x11 x12 x13 x14 x15 _ x17 x18 x19
    := jc in
  jobCollector.mk x0 x1 x2 x3 x4 x5 x6 x7 x8 x9 x10 x11 x12 x13 x14 x15 timeout x17 x18
    x19.

Definition WithUseNodeSelector (useNodeSelector : bool) : CollectorOption := fun jc =>
  let 'jobCollector.mk x0 x1 x2 x3 x4 x5 x6 x7 x8 x9 x10 x11 x12 x13 x14 x15 x16 x17 x18 _
    := jc in
  jobCollector.mk x0 x1 x2 x3 x4 x5 x6 x7 x8 x9 x10 x11 x12 x13 x14 x15 x16 x17 x18
    useNodeSelector.

(** The collector [NewCollector] starts from: [timeout: 0] and zero
    values. *)
Definition zeroCollector : jobCollector.t :=
  jobCollector.mk 0%Z ∅ ∅ "" "" "" "" "" None None "" None [] [] [] [] 0%Z None false false.

(** [NewCollector(cluster, opts...)]: the options applied in order. *)
Definition NewCollector (opts : list CollectorOption) : jobCollector.t :=
  fold_left (fun jc opt => opt jc) opts zeroCollector.

(** [jobCollector.AppendLabels(opts...)]: more options applied to the
    collector. *)
Definition AppendLabels (jb : jobCollector.t) (opts : list CollectorOption)
  : jobCollector.t :=
  fold_left (fun jb opt => opt jb) opts jb.

(** ** Calls without their answers *)

(** A call of any answer type. *)
Definition op {R : Type} (c : Call R) : sigT Call := existT R c.

(** The call of a logged event. *)
Definition callOf (e : Event) : sigT Call :=
  match e with
  | Issued c _ => op c
  end.

(** The prefix and the error of a failed call whose error [ApplyAndCollect]
    wraps: an RBAC creation, the log lookup or the log read. *)
Definition wrappedFailure (e : Event) : option (string * error) :=
  match e with
  | Issued c r =>
      match c in Call R return R -> option (string * error) with
      | ClusterRolesCreate _ =>
          fun r => match r with
                   | Error err => Some ("creating cluster role: ", err)
                   | Ok _ => None
                   end
      | ServiceAccountsCreate _ _ =>
          fun r => match r with
                   | Error err => Some ("creating service account: ", err)
                   | Ok _ => None
                   end
      | ClusterRoleBindingsCreate _ =>
          fun r => match r with
                   | Error err => Some ("creating role binding: ", err)
                   | Ok _ => None
                   end
      | GetLogs _ _ =>
          fun r => match r with
                   | Error err => Some ("getting logs: ", err)
                   | Ok _ => None
                   end
      | ReadAll _ =>
          fun r => match r with
                   | Error err => Some ("reading logs: ", err)
                   | Ok _ => None
                   end
      | _ => fun _ => None
      end r
  end.

(** The error of a failed namespace creation. *)
Definition namespaceCreateFailure (e : Event) : option error :=
  match e with
  | Issued c r =>
      match c in Call R return R -> option error with
      | NamespacesCreate _ =>
          fun r => match r with
                   | Error err => Some err
                   | Ok _ => None
                   end
      | _ => fun _ => None
      end r
  end.

(** An RBAC creation. *)
Definition isAuthCreate (e : Event) : bool :=
  match e with
  | Issued c _ =>
      match c with
      | ClusterRolesCreate _ | ServiceAccountsCreate _ _
      | ClusterRoleBindingsCreate _ => true
      | _ => false
      end
  end.

(** The stream a log lookup opened. *)
Definition openedStream (e : Event) : option ReadCloser :=
  match e with
  | Issued c r =>
      match c in Call R return R -> option ReadCloser with
      | GetLogs _ _ =>
          fun r => match r with
                   | Ok s => Some s
                   | Error _ => None
                   end
      | _ => fun _ => None
      end r
  end.

(** The stream a [Close] closed. *)
Definition closedStream (e : Event) : option ReadCloser :=
  match e with
  | Issued c _ => match c with Close s => Some s | _ => None end
  end.

(** A deletion of one of the RBAC objects. *)
Definition isAuthDelete (e : Event) : bool :=
  match e with
  | Issued c _ =>
      match c with
      | ClusterRolesDelete _ _ | ServiceAccountsDelete _ _ _
      | ClusterRoleBindingsDelete _ _ => true
      | _ => false
      end
  end.


(** The API operation of a logged call, without its arguments. *)
Definition kindOf (e : Event) : string :=
  match e with
  | Issued c _ =>
      match c with
      | NamespacesGet _ => "Namespaces.Get"
      | NamespacesCreate _ => "Namespaces.Create"
      | NamespacesDelete _ _ => "Namespaces.Delete"
      | ClusterRolesCreate _ => "ClusterRoles.Create"
      | ClusterRolesDelete _ _ => "ClusterRoles.Delete"
      | ServiceAccountsCreate _ _ => "ServiceAccounts.Create"
      | ServiceAccountsDelete _ _ _ => "ServiceAccounts.Delete"
      | ClusterRoleBindingsCreate _ => "ClusterRoleBindings.Create"
      | ClusterRoleBindingsDelete _ _ => "ClusterRoleBindings.Delete"
      | JobsCreate _ _ => "Jobs.Create"
      | JobsDelete _ _ _ => "Jobs.Delete"
      | RunnerRun _ _ => "Runner.Run"
      | GetLogs _ _ => "LogsReader.GetLogsByJobAndContainerName"
      | ReadAll _ => "io.ReadAll"
      | Close _ => "ReadCloser.Close"
      end
  end.

(** The three RBAC creations of [ApplyAndCollect], in the order of the
    source, for the objects [GetAuth] answered. *)
Definition authCreates (namespace : string)
  (auth : result (ClusterRole * ClusterRoleBinding * ServiceAccount))
  : list (sigT Call) :=
  match auth with
  | Ok (cr, rb, sa) =>
      [ op (ClusterRolesCreate cr);
        op (ServiceAccountsCreate namespace sa);
        op (ClusterRoleBindingsCreate rb) ]
  | Error _ => []
  end.

(** The three RBAC deletions of the deferred cleanup, in the order of the
    source. *)
Definition authDeletes (clusterRole roleBinding serviceAccount namespace : string)
  : list (sigT Call) :=
  [ op (ClusterRoleBindingsDelete roleBinding background);
    op (ClusterRolesDelete clusterRole background);
    op (ServiceAccountsDelete namespace serviceAccount background) ].

(** ** Clusters that fail on chosen calls *)

Module Faulty.

(** The answer of a call that succeeds. *)
Definition succeed {R : Type} (c : Call R) : R :=
  match c in Call R return R with
  | NamespacesGet name => Ok {| NamespaceName := name |}
  | NamespacesCreate ns => Ok ns
  | NamespacesDelete _ _ => None
  | ClusterRolesCreate cr => Ok cr
  | ClusterRolesDelete _ _ => None
  | ServiceAccountsCreate _ sa => Ok sa
  | ServiceAccountsDelete _ _ _ => None
  | ClusterRoleBindingsCreate rb => Ok rb
  | ClusterRoleBindingsDelete _ _ => None
  | JobsCreate _ job => Ok job
  | JobsDelete _ _ _ => None
  | RunnerRun _ _ => None
  | GetLogs _ _ => Ok {| stream := 7 |}
  | ReadAll _ => Ok "node info"
  | Close _ => None
  end.

(** The answer of a call that fails with [err]. *)
Definition failWith {R : Type} (err : error) (c : Call R) : R :=
  match c in Call R return R with
  | NamespacesGet _ => Error err
  | NamespacesCreate _ => Error err
  | NamespacesDelete _ _ => Some err
  | ClusterRolesCreate _ => Error err
  | ClusterRolesDelete _ _ => Some err
  | ServiceAccountsCreate _ _ => Error err
  | ServiceAccountsDelete _ _ _ => Some err
  | ClusterRoleBindingsCreate _ => Error err
  | ClusterRoleBindingsDelete _ _ => Some err
  | JobsCreate _ _ => Error err
  | JobsDelete _ _ _ => Some err
  | RunnerRun _ _ => Some err
  | GetLogs _ _ => Error err
  | ReadAll _ => Error err
  | Close _ => Some err
  end.

(** A cluster on which the calls chosen by [faults] fail with the error
    given, and every other call succeeds. *)
Definition cluster (faults : sigT Call -> option error) : Cluster unit :=
  {| respond := fun R (c : Call R) w =>
       (match faults (op c) with
        | Some err => failWith err c
        | None => succeed c
        end, w) |}.

Definition internalError : error :=
  StatusError StatusReasonInternalError "etcdserver: request timed out".

Definition noFault (c : sigT Call) : option error := None.

Definition lookupNotFound (c : sigT Call) : option error :=
  match c with
  | existT _ (NamespacesGet _) => Some Sample.notFound
  | _ => None
  end.

Definition namespaceCreateFails (c : sigT Call) : option error :=
  match c with
  | existT _ (NamespacesGet _) => Some Sample.notFound
  | existT _ (NamespacesCreate _) => Some Sample.forbidden
  | _ => None
  end.

Definition serviceAccountFails (c : sigT Call) : option error :=
  match c with
  | existT _ (ServiceAccountsCreate _ _) => Some Sample.forbidden
  | _ => None
  end.

Definition logsFail (c : sigT Call) : option error :=
  match c with
  | existT _ (GetLogs _ _) => Some internalError
  | _ => None
  end.

Definition readFails (c : sigT Call) : option error :=
  match c with
  | existT _ (ReadAll _) => Some internalError
  | existT _ (JobsDelete _ _ _) => Some internalError
  | _ => None
  end.

(** A decoder that also knows a template without containers. *)
Definition emptyTemplate : Job.t :=
  set_podSpec (PodSpec.set_Containers [] (podSpec Sample.template)) Sample.template.

Definition yaml_Unmarshal (manifest : string) : result Job.t :=
  if String.eqb manifest "no-containers" then Ok emptyTemplate
  else Sample.yaml_Unmarshal manifest.

(** A [GetAuth] that fails. *)
Definition noAuth (namespace : string)
  : result (ClusterRole * ClusterRoleBinding * ServiceAccount) :=
  Error (errorString "error unmarshaling JSON").

(** The sample collector with node configuration on. *)
Definition nodeConfigCollector : jobCollector.t :=
  WithNodeConfig true Sample.collector.

(** [ApplyAndCollect] of a collector on a faulty cluster. *)
Definition applyAndCollect (faults : sigT Call -> option error)
  (jb : jobCollector.t) (nodeName : string) : outcome string * list Event :=
  run (ApplyAndCollect (cluster faults) Sample.getTemplate Sample.yaml_Unmarshal
         Sample.GetAuth "node-collector-cr" "node-collector-rb" "node-collector-sa"
         Sample.ComputeHash jb nodeName) tt.

End Faulty.

(** ** Rounding in binary64 *)

Section Float64.

Local Open Scope Z_scope.

Lemma fexp_normal (e : Z) : -1021 <= e -> fexp 53 1024 e = e - 53.
Proof. intros He. unfold fexp, emin. lia. Qed.

Lemma digits2_pos_size (p : positive) : digits2_pos p = Pos.size p.
Proof. induction p as [p IH|p IH|]; cbn; by rewrite ?IH. Qed.

Lemma digits2_pos_log2 (p : positive) : Z.pos (digits2_pos p) = Z.log2 (Z.pos p) + 1.
Proof.
  rewrite digits2_pos_size. destruct p as [p|p|]; cbn; [| |done].
  all: lia.
Qed.

Lemma digits2_pos_bounds (p : positive) :
  2 ^ (Z.pos (digits2_pos p) - 1) <= Z.pos p < 2 ^ Z.pos (digits2_pos p).
Proof.
  rewrite digits2_pos_log2.
  replace (Z.log2 (Z.pos p) + 1 - 1) with (Z.log2 (Z.pos p)) by lia.
  replace (Z.log2 (Z.pos p) + 1) with (Z.succ (Z.log2 (Z.pos p))) by lia.
  apply Z.log2_spec. lia.
Qed.

Lemma digits2_pos_unique (p : positive) (d : Z) :
  2 ^ (d - 1) <= Z.pos p < 2 ^ d -> Z.pos (digits2_pos p) = d.
Proof.
  intros Hb. rewrite digits2_pos_log2.
  assert (0 <= d - 1).
  { destruct (Z_lt_le_dec (d - 1) 0) as [Hlt|]; [|done].
    assert (d <= 0) by lia. destruct Hb as [_ Hb].
    destruct (Z.eq_dec d 0) as [->|]; [cbn in Hb; lia|].
    rewrite Z.pow_neg_r in Hb by lia. lia. }
  rewrite (Z.log2_unique (Z.pos p) (d - 1)); [lia|done|].
  replace (Z.succ (d - 1)) with d by lia. exact Hb.
Qed.

Lemma iter_xO (p k : positive) : Z.pos (Pos.iter xO p k) = Z.pos p * 2 ^ Z.pos k.
Proof.
  induction k as [|k IH] using Pos.peano_ind.
  - cbn. lia.
  - rewrite Pos.iter_succ, Pos2Z.inj_succ, Z.pow_succ_r by lia.
    rewrite Pos2Z.inj_xO, IH. lia.
Qed.

End Float64.

Section Shift.

Local Open Scope Z_scope.

Lemma iter_pos_nat {A : Type} (f : A -> A) (p : positive) (x : A) :
  SpecFloat.iter_pos f p x = Nat.iter (Pos.to_nat p) f x.
Proof.
  revert x. induction p as [p IH|p IH|]; intros x; cbn [SpecFloat.iter_pos].
  - rewrite !IH, Pos2Nat.inj_xI, Nat.iter_succ_r.
    replace (2 * Pos.to_nat p)%nat with (Pos.to_nat p + Pos.to_nat p)%nat by lia.
    by rewrite Nat.iter_add.
  - rewrite !IH, Pos2Nat.inj_xO.
    replace (2 * Pos.to_nat p)%nat with (Pos.to_nat p + Pos.to_nat p)%nat by lia.
    by rewrite Nat.iter_add.
  - reflexivity.
Qed.

Lemma shr_1_nonneg (m : Z) (r s : bool) :
  0 <= m ->
  shr_1 {| shr_m := m; shr_r := r; shr_s := s |} =
  {| shr_m := m / 2; shr_r := Z.odd m; shr_s := r || s |}.
Proof.
  intros Hm. rewrite <- Z.div2_div.
  destruct m as [|p|p]; [done| |lia]. by destruct p.
Qed.

Lemma shr_iter (j : nat) (m : Z) (r s : bool) :
  0 <= m ->
  shr_m (Nat.iter (S j) shr_1 {| shr_m := m; shr_r := r; shr_s := s |})
  = m / 2 ^ Z.of_nat (S j) /\
  shr_r (Nat.iter (S j) shr_1 {| shr_m := m; shr_r := r; shr_s := s |})
  = Z.odd (m / 2 ^ Z.of_nat j).
Proof.
  intros Hm. induction j as [|j [IHm IHr]].
  - cbn [Nat.iter]. rewrite shr_1_nonneg by done. cbn [shr_m shr_r].
    change (2 ^ Z.of_nat 1) with 2. change (2 ^ Z.of_nat 0) with 1.
    by rewrite Z.div_1_r.
  - rewrite Nat.iter_succ.
    destruct (Nat.iter (S j) shr_1 _) as [m' r' s']. cbn [shr_m shr_r] in IHm, IHr.
    assert (0 <= m') by (subst m'; apply Z.div_pos; lia).
    rewrite shr_1_nonneg by done. cbn [shr_m shr_r]. subst m'. split; [|done].
    rewrite Z.div_div by lia.
    rewrite (Nat2Z.inj_succ (S j)), Z.pow_succ_r by lia.
    f_equal. lia.
Qed.

Lemma shr_m_of_loc (m : Z) (l : location) : shr_m (shr_record_of_loc m l) = m.
Proof. by destruct l as [|[]]. Qed.

Lemma loc_of_shr_record_of_loc (m : Z) (l : location) :
  loc_of_shr_record (shr_record_of_loc m l) = l.
Proof. by destruct l as [|[]]. Qed.

(** Shifting a non-negative mantissa right by [n > 0] bits divides it by
    [2 ^ n] and leaves bit [n - 1] as the round bit. *)
Lemma shr_spec (m : Z) (l : location) (e n : Z) :
  0 <= m -> 0 < n ->
  (shr (shr_record_of_loc m l) e n).2 = e + n /\
  shr_m (shr (shr_record_of_loc m l) e n).1 = m / 2 ^ n /\
  shr_r (shr (shr_record_of_loc m l) e n).1 = Z.odd (m / 2 ^ (n - 1)).
Proof.
  intros Hm Hn. destruct n as [|p|p]; [lia| |lia]. cbn [shr fst snd].
  split; [done|]. rewrite iter_pos_nat.
  destruct (Pos2Nat.is_succ p) as [j Hj]. rewrite Hj.
  assert (shr_record_of_loc m l =
          {| shr_m := m;
             shr_r := shr_r (shr_record_of_loc m l);
             shr_s := shr_s (shr_record_of_loc m l) |}) as ->
    by (by destruct l as [|[]]).
  destruct (shr_iter j m (shr_r (shr_record_of_loc m l))
              (shr_s (shr_record_of_loc m l)) Hm) as [-> ->].
  assert (Z.pos p = Z.of_nat (S j)) as -> by lia.
  split; [done|]. do 3 f_equal. lia.
Qed.

Lemma round_nearest_even_cases (q : Z) (l : location) :
  round_nearest_even q l = q \/ round_nearest_even q l = q + 1.
Proof. destruct l as [|[]]; cbn; auto. destruct (Z.even q); auto. Qed.

Lemma round_nearest_even_down (rec : shr_record) :
  shr_r rec = false ->
  round_nearest_even (shr_m rec) (loc_of_shr_record rec) = shr_m rec.
Proof. destruct rec as [m [] []]; by cbn. Qed.

End Shift.

Section Round.

Local Open Scope Z_scope.

Lemma shr_fexp_spec (m : positive) (e : Z) (l : location) :
  let n := Z.pos (digits2_pos m) - 53 in
  0 <= n -> -1074 <= e ->
  exists rec,
    shr_fexp 53 1024 (Z.pos m) e l = (rec, e + n) /\
    shr_m rec = Z.pos m / 2 ^ n /\
    (n = 0 -> rec = shr_record_of_loc (Z.pos m) l) /\
    (0 < n -> shr_r rec = Z.odd (Z.pos m / 2 ^ (n - 1))).
Proof.
  intros n Hn He. unfold shr_fexp. cbn [Zdigits2].
  rewrite fexp_normal by lia.
  replace (Z.pos (digits2_pos m) + e - 53 - e) with n by lia.
  destruct (Z.eq_dec n 0) as [Hn0|Hn0].
  - rewrite Hn0. cbn [shr]. eexists. split; [by rewrite Z.add_0_r|].
    rewrite shr_m_of_loc, Z.div_1_r. split; [done|]. split; [done|lia].
  - destruct (shr_spec (Z.pos m) l e n) as (He' & Hm' & Hr'); [lia|lia|].
    destruct (shr (shr_record_of_loc (Z.pos m) l) e n) as [rec e'].
    cbn [fst snd] in *. subst e'. exists rec.
    split; [done|]. split; [done|]. split; [lia|done].
Qed.

Lemma low_bits_even (m n : Z) :
  0 <= m -> 0 < n -> 2 * (m mod 2 ^ n) < 2 ^ n -> Z.odd (m / 2 ^ (n - 1)) = false.
Proof.
  intros Hm Hn Hlow.
  assert (2 ^ n = 2 * 2 ^ (n - 1)) as Hpow.
  { rewrite <- Z.pow_succ_r by lia. f_equal. lia. }
  assert (0 < 2 ^ (n - 1)) by (apply Z.pow_pos_nonneg; lia).
  assert (0 <= m mod 2 ^ n) by (apply Z.mod_pos_bound; lia).
  assert (m / 2 ^ (n - 1) = 2 * (m / 2 ^ n)) as ->.
  { symmetry. apply (Z.div_unique_pos m _ _ (m mod 2 ^ n)); [lia|].
    rewrite (Z.div_mod m (2 ^ n)) at 1 by lia. rewrite Hpow at 1. lia. }
  by rewrite Z.odd_mul.
Qed.

(** Rounding a positive mantissa [m] of at least 53 bits, at exponent [e],
    to binary64: the result is finite and normal, and in units of [2 ^ e] it
    is [m] with its [n] excess bits cleared, or the next such number; it is
    the former when [m] is exact and its excess bits are below one half. *)
Lemma binary_round_aux_spec (m : positive) (e : Z) (l : location) :
  let n := Z.pos (digits2_pos m) - 53 in
  let q := Z.pos m / 2 ^ n in
  0 <= n -> -1074 <= e -> e + n + 1 <= 971 ->
  exists (m' : positive) (e' : Z),
    binary_round_aux 53 1024 false (Z.pos m) e l = S754_finite false m' e' /\
    e + n <= e' /\
    2 ^ 52 <= Z.pos m' < 2 ^ 53 /\
    (Z.pos m' * 2 ^ (e' - e) = q * 2 ^ n \/
     Z.pos m' * 2 ^ (e' - e) = (q + 1) * 2 ^ n) /\
    (l = loc_Exact -> 2 * (Z.pos m mod 2 ^ n) < 2 ^ n ->
     Z.pos m' * 2 ^ (e' - e) = q * 2 ^ n).
Proof.
  intros n q Hn He Hmax.
  pose proof (digits2_pos_bounds m) as Hd.
  replace (Z.pos (digits2_pos m) - 1) with (52 + n) in Hd by lia.
  replace (Z.pos (digits2_pos m)) with (53 + n) in Hd by lia.
  rewrite !Z.pow_add_r in Hd by lia.
  assert (0 < 2 ^ n) as Hpn by (apply Z.pow_pos_nonneg; lia).
  assert (2 ^ 52 <= q < 2 ^ 53) as Hq.
  { split.
    - apply Z.div_le_lower_bound; lia.
    - apply Z.div_lt_upper_bound; lia. }
  destruct (shr_fexp_spec m e l Hn He) as (rec1 & Hshr1 & Hm1 & Hrec0 & Hr1).
  fold n in Hshr1, Hm1, Hrec0, Hr1. fold q in Hm1.
  unfold binary_round_aux. rewrite Hshr1.
  set (m1 := round_nearest_even (shr_m rec1) (loc_of_shr_record rec1)).
  assert (m1 = q \/ m1 = q + 1) as Hm1cases.
  { subst m1. rewrite Hm1. apply round_nearest_even_cases. }
  assert (l = loc_Exact -> 2 * (Z.pos m mod 2 ^ n) < 2 ^ n -> m1 = q) as Hdown.
  { intros -> Hlow. subst m1. rewrite <- Hm1.
    destruct (Z.eq_dec n 0) as [Hn0|Hn0].
    - by rewrite (Hrec0 Hn0).
    - apply round_nearest_even_down. rewrite Hr1 by lia.
      apply low_bits_even; lia. }
  clearbody m1.
  destruct m1 as [|p1|p1]; [lia| |lia].
  destruct (Z_lt_le_dec (Z.pos p1) (2 ^ 53)) as [Hlt|Hge].
  - assert (Z.pos (digits2_pos p1) = 53) as Hd1
      by (apply digits2_pos_unique; change (53 - 1) with 52; lia).
    destruct (shr_fexp_spec p1 (e + n) loc_Exact) as (rec2 & Hshr2 & Hm2 & _);
      [lia|lia|].
    rewrite Hd1 in Hshr2, Hm2. change (53 - 53) with 0 in Hshr2, Hm2.
    rewrite Hshr2, Hm2, Z.div_1_r.
    replace (e + n + 0 <=? 1024 - 53) with true by (symmetry; apply Z.leb_le; lia).
    exists p1, (e + n + 0).
    replace (e + n + 0 - e) with n by lia.
    split; [reflexivity|]. split; [lia|]. split; [lia|]. split.
    + destruct Hm1cases as [->| ->]; auto.
    + intros Hl Hlow. by rewrite (Hdown Hl Hlow).
  - assert (Z.pos p1 = 2 ^ 53) as Hp1 by lia.
    assert (Z.pos (digits2_pos p1) = 54) as Hd1
      by (apply digits2_pos_unique; rewrite Hp1; change (54 - 1) with 53; lia).
    destruct (shr_fexp_spec p1 (e + n) loc_Exact) as (rec2 & Hshr2 & Hm2 & _);
      [lia|lia|].
    rewrite Hd1 in Hshr2, Hm2. change (54 - 53) with 1 in Hshr2, Hm2.
    rewrite Hshr2, Hm2, Hp1. change (2 ^ 53 / 2 ^ 1) with (Z.pos (2 ^ 52)%positive).
    replace (e + n + 1 <=? 1024 - 53) with true by (symmetry; apply Z.leb_le; lia).
    exists (2 ^ 52)%positive, (e + n + 1).
    replace (e + n + 1 - e) with (n + 1) by lia.
    rewrite Z.pow_add_r by lia.
    assert (q + 1 = 2 ^ 53) as Hq1 by lia.
    split; [reflexivity|]. split; [lia|].
    split; [split; by vm_compute|]. split.
    + right. rewrite Hq1. change (Z.pos (2 ^ 52)%positive) with (2 ^ 52).
      change (2 ^ 53) with (2 ^ 52 * 2 ^ 1). lia.
    + intros Hl Hlow. specialize (Hdown Hl Hlow). lia.
Qed.

End Round.

Section Conversions.

Local Open Scope Z_scope.

(** [float64(z)] is exact for a positive [z] of at most 53 bits. *)
Lemma float64_of_Z_exact (p : positive) :
  let d := Z.pos (digits2_pos p) in
  d <= 53 ->
  exists m,
    Duration.float64_of_Z (Z.pos p) = S754_finite false m (d - 53) /\
    Z.pos m = Z.pos p * 2 ^ (53 - d) /\
    2 ^ 52 <= Z.pos m < 2 ^ 53.
Proof.
  intros d Hd. pose proof (digits2_pos_bounds p) as Hb. fold d in Hb.
  assert (0 < d) by (unfold d; lia).
  unfold Duration.float64_of_Z, Duration.prec, Duration.emax.
  unfold binary_normalize, binary_round.
  rewrite Z.add_0_r, fexp_normal by (fold d; lia). fold d.
  assert (exists mz, shl_align p 0 (d - 53) = (mz, d - 53) /\
                     Z.pos mz = Z.pos p * 2 ^ (53 - d)) as (mz & -> & Hmz).
  { unfold shl_align. rewrite Z.sub_0_r.
    destruct (d - 53) as [|k|k] eqn:Hk; [|lia|].
    - exists p. split; [done|]. replace (53 - d) with 0 by lia. lia.
    - exists (Pos.iter xO p k). split; [done|]. rewrite iter_xO.
      do 2 f_equal. lia. }
  assert (2 ^ 52 <= Z.pos mz < 2 ^ 53) as Hmzb.
  { assert (2 ^ 52 = 2 ^ (d - 1) * 2 ^ (53 - d)) as ->
      by (rewrite <- Z.pow_add_r by lia; f_equal; lia).
    assert (2 ^ 53 = 2 ^ d * 2 ^ (53 - d)) as ->
      by (rewrite <- Z.pow_add_r by lia; f_equal; lia).
    rewrite Hmz.
    assert (0 < 2 ^ (53 - d)) by (apply Z.pow_pos_nonneg; lia).
    split; [apply Z.mul_le_mono_nonneg_r | apply Z.mul_lt_mono_pos_r]; lia. }
  assert (Z.pos (digits2_pos mz) = 53) as Hdz
    by (apply digits2_pos_unique; change (53 - 1) with 52; lia).
  destruct (binary_round_aux_spec mz (d - 53) loc_Exact)
    as (m' & e' & -> & He' & Hm' & _ & Hex); [lia|lia|lia|].
  rewrite Hdz in He', Hex. change (53 - 53) with 0 in He', Hex.
  rewrite Z.mod_1_r, Z.div_1_r, Z.mul_1_r in Hex. specialize (Hex eq_refl eq_refl).
  assert (e' = d - 53) as ->.
  { destruct (Z.eq_dec e' (d - 53)) as [|Hne]; [done|exfalso].
    assert (2 ^ 1 <= 2 ^ (e' - (d - 53))) by (apply Z.pow_le_mono_r; lia).
    change (2 ^ 1) with 2 in *. nia. }
  rewrite Z.sub_diag, Z.mul_1_r in Hex.
  exists m'. split; [done|]. split; [by rewrite Hex|done].
Qed.

(** [int64(f)] of a non-negative finite [f], read in units of [2 ^ e]. *)
Lemma int64_of_float64_units (m : positive) (e' e : Z) :
  e <= 0 -> e <= e' ->
  Duration.int64_of_float64 (S754_finite false m e') =
  (Z.pos m * 2 ^ (e' - e)) / 2 ^ (- e).
Proof.
  intros He Hee'. unfold Duration.int64_of_float64.
  destruct (Z.leb_spec 0 e') as [Hpos|Hneg].
  - replace (e' - e) with (e' + - e) by lia. rewrite Z.pow_add_r by lia.
    rewrite Z.mul_assoc, Z.div_mul; [done|].
    apply Z.pow_nonzero; lia.
  - replace (- e) with ((e' - e) + - e') by lia. rewrite Z.pow_add_r by lia.
    rewrite (Z.mul_comm (Z.pos m)).
    rewrite Z.div_mul_cancel_l; [done| |]; apply Z.pow_nonzero; lia.
Qed.

End Conversions.

Section Division.

Local Open Scope Z_scope.

Lemma digits_below (p : positive) (k : Z) :
  0 <= k -> Z.pos p < 2 ^ k -> Z.pos (digits2_pos p) <= k.
Proof.
  intros Hk Hp. pose proof (digits2_pos_bounds p) as [Hlo _].
  assert (2 ^ (Z.pos (digits2_pos p) - 1) < 2 ^ k) as Hlt by lia.
  apply Z.pow_lt_mono_r_iff in Hlt; lia.
Qed.

(** The quotient [float64(nsec) / 1e9] for [0 < nsec < 1e9]: a normal
    binary64 at most two units of [2 ^ (- K)] above the exact quotient. *)
Lemma SFdiv_nsec (p : positive) :
  Z.pos p < 1000000000 ->
  let K := 83 - Z.pos (digits2_pos p) in
  exists my ey,
    SFdiv 53 1024 (Duration.float64_of_Z (Z.pos p))
      (Duration.float64_of_Z 1000000000) = S754_finite false my ey /\
    2 ^ 52 <= Z.pos my < 2 ^ 53 /\
    - K <= ey /\
    Z.pos my * 2 ^ (ey + K) <= (Z.pos p * 2 ^ K) / 1000000000 + 2.
Proof.
  intros Hp K.
  assert (Z.pos (digits2_pos p) <= 30) as Hd1 by (apply digits_below; lia).
  destruct (float64_of_Z_exact p) as (m1 & -> & Hm1 & Hm1b); [lia|].
  assert (Duration.float64_of_Z 1000000000 =
          S754_finite false 8388608000000000 (-23)) as -> by (by vm_compute).
  assert (Z.pos (digits2_pos m1) = 53) as Hdm1
    by (apply digits2_pos_unique; change (53 - 1) with 52; lia).
  unfold SFdiv, SFdiv_core_binary. cbn [xorb Zdigits2].
  rewrite Hdm1.
  replace (Z.pos (digits2_pos 8388608000000000)) with 53 by (by vm_compute).
  rewrite fexp_normal by lia. rewrite Z.min_l by lia.
  replace (53 + (Z.pos (digits2_pos p) - 53) - (53 + -23) - 53) with (- K)
    by (unfold K; lia).
  replace (Z.pos (digits2_pos p) - 53 - -23 - - K) with 53 by (unfold K; lia).
  cbv iota. rewrite Z.shiftl_mul_pow2 by lia.
  assert (Z.pos m1 * 2 ^ 53 = (Z.pos p * 2 ^ K) * 2 ^ 23) as Hnum.
  { rewrite Hm1, <- !Z.mul_assoc, <- !Z.pow_add_r by (unfold K; lia).
    do 2 f_equal. unfold K. lia. }
  assert (2 ^ 52 = 4503599627370496) as E52 by reflexivity.
  assert (2 ^ 53 = 9007199254740992) as E53 by reflexivity.
  assert (2 ^ 54 = 18014398509481984) as E54 by reflexivity.
  destruct (IntDef.Z.div_eucl (Z.pos m1 * 2 ^ 53) 8388608000000000)
    as [q r] eqn:Hdiv.
  assert (q = (Z.pos m1 * 2 ^ 53) / 8388608000000000) as Hq
    by (unfold Z.div; by rewrite Hdiv).
  assert (2 ^ 52 <= q < 2 ^ 54) as Hqb.
  { rewrite Hq. split.
    - apply Z.div_le_lower_bound; lia.
    - apply Z.div_lt_upper_bound; lia. }
  assert (q = (Z.pos p * 2 ^ K) / 1000000000) as Hq'.
  { rewrite Hq, Hnum. change 8388608000000000 with (1000000000 * 2 ^ 23).
    rewrite Z.div_mul_cancel_r; [done|lia|lia]. }
  destruct q as [|pq|pq]; [lia| |lia].
  pose proof (digits2_pos_bounds pq) as Hdq.
  assert (Z.pos (digits2_pos pq) <= 54) as Hdq54 by (apply digits_below; lia).
  assert (53 <= Z.pos (digits2_pos pq)) as Hdq53.
  { assert (2 ^ 52 < 2 ^ Z.pos (digits2_pos pq)) as Hlt by lia.
    apply Z.pow_lt_mono_r_iff in Hlt; lia. }
  destruct (binary_round_aux_spec pq (- K)
              (new_location 8388608000000000 r))
    as (m' & e' & Heq & He' & Hm'b & Hcases & _); [lia|unfold K; lia|unfold K; lia|].
  rewrite Heq. exists m', e'.
  split; [done|]. split; [done|]. split; [lia|].
  replace (e' - - K) with (e' + K) in Hcases by lia.
  set (n := Z.pos (digits2_pos pq) - 53) in *.
  assert (0 < 2 ^ n <= 2) as Hpn.
  { split; [apply Z.pow_pos_nonneg; lia|].
    change 2 with (2 ^ 1) at 2. apply Z.pow_le_mono_r; lia. }
  pose proof (Z.mul_div_le (Z.pos pq) (2 ^ n)) as Hle.
  rewrite <- Hq'. lia.
Qed.

End Division.

Section SecondsWhole.

Local Open Scope Z_scope.

Lemma quotient_below (nsec K : Z) :
  0 <= nsec < 1000000000 -> 53 <= K ->
  (nsec * 2 ^ K) / 1000000000 + 2 < 2 ^ K - 2 ^ (K - 30).
Proof.
  intros Hn HK.
  assert (2 ^ K = 2 ^ 30 * 2 ^ (K - 30)) as ->
    by (rewrite <- Z.pow_add_r by lia; f_equal; lia).
  assert (2 ^ 23 <= 2 ^ (K - 30)) as HT by (apply Z.pow_le_mono_r; lia).
  set (T := 2 ^ (K - 30)) in *.
  change (2 ^ 30) with 1073741824. change (2 ^ 23) with 8388608 in HT.
  assert ((nsec * (1073741824 * T)) / 1000000000
          <= (999999999 * (1073741824 * T)) / 1000000000) as Hle.
  { apply Z.div_le_mono; [lia|]. apply Z.mul_le_mono_nonneg_r; lia. }
  clearbody T.
  pose proof (Z.mul_div_le (999999999 * (1073741824 * T)) 1000000000 ltac:(lia)).
  lia.
Qed.

Lemma shl_align_left (mx : positive) (ex ex' : Z) :
  ex' < ex ->
  exists mz, shl_align mx ex ex' = (mz, ex') /\ Z.pos mz = Z.pos mx * 2 ^ (ex - ex').
Proof.
  intros Hlt. unfold shl_align. destruct (ex' - ex) as [|k|k] eqn:Hk; [lia|lia|].
  exists (Pos.iter xO mx k). split; [done|]. rewrite iter_xO. do 2 f_equal. lia.
Qed.

Lemma shl_align_same (mx : positive) (ex ex' : Z) :
  ex <= ex' -> shl_align mx ex ex' = (mx, ex).
Proof.
  intros Hle. unfold shl_align. destruct (ex' - ex) as [|k|k] eqn:Hk; [done|done|lia].
Qed.

Lemma float64_of_Z_1e9 :
  Duration.float64_of_Z 1000000000 = S754_finite false 8388608000000000 (-23).
Proof. by vm_compute. Qed.

(** Below [2 ^ 24] seconds, [int64(d.Seconds())] is the whole seconds of
    [d]. *)
Theorem Seconds_truncates (d : Z) :
  0 < d < 2 ^ 24 * Duration.Second ->
  Duration.int64_of_float64 (Duration.Seconds d) = d / Duration.Second.
Proof.
  intros Hd. unfold Duration.Seconds, Duration.Second in *.
  rewrite Z.quot_div_nonneg, Z.rem_mod_nonneg by lia.
  pose proof (Z.div_mod d 1000000000 ltac:(lia)) as Hdm.
  pose proof (Z.mod_pos_bound d 1000000000 ltac:(lia)) as Hnsec.
  assert (0 <= d / 1000000000 < 2 ^ 24) as Hsec.
  { split; [apply Z.div_pos; lia | apply Z.div_lt_upper_bound; lia]. }
  set (sec := d / 1000000000) in *. set (nsec := d mod 1000000000) in *.
  clearbody sec nsec. unfold Duration.prec, Duration.emax.
  destruct sec as [|ps|ps]; [| |lia]; (destruct nsec as [|pn|pn]; [| |lia]).
  - lia.
  - (* less than one second *)
    change (Duration.float64_of_Z 0) with (S754_zero false).
    destruct (SFdiv_nsec pn) as (my & ey & -> & Hmyb & Hey & HU); [lia|].
    cbn [SFadd].
    set (K := 83 - Z.pos (digits2_pos pn)) in *.
    assert (Z.pos (digits2_pos pn) <= 30) by (apply digits_below; lia).
    pose proof (quotient_below (Z.pos pn) K ltac:(lia) ltac:(unfold K; lia)) as Hq.
    assert (0 < 2 ^ (K - 30)) by (apply Z.pow_pos_nonneg; unfold K; lia).
    rewrite (int64_of_float64_units my ey (- K)) by (unfold K; lia).
    replace (ey - - K) with (ey + K) by lia. rewrite Z.opp_involutive.
    apply Z.div_small. split; [|lia].
    apply Z.mul_nonneg_nonneg; [lia|]. apply Z.pow_nonneg; lia.
  - (* a whole number of seconds *)
    change (Duration.float64_of_Z 0) with (S754_zero false).
    rewrite float64_of_Z_1e9. cbn [SFdiv xorb].
    assert (Z.pos (digits2_pos ps) <= 24) by (apply digits_below; lia).
    destruct (float64_of_Z_exact ps) as (mx & -> & Hmx & _); [lia|].
    cbn [SFadd].
    rewrite (int64_of_float64_units mx _ (Z.pos (digits2_pos ps) - 53)) by lia.
    rewrite Z.sub_diag, Z.mul_1_r, Hmx.
    replace (- (Z.pos (digits2_pos ps) - 53)) with (53 - Z.pos (digits2_pos ps))
      by lia.
    apply Z.div_mul. apply Z.pow_nonzero; lia.
  - (* seconds and a fraction *)
    assert (Z.pos (digits2_pos ps) <= 24) as Hds by (apply digits_below; lia).
    assert (Z.pos (digits2_pos pn) <= 30) as Hdn by (apply digits_below; lia).
    pose proof (digits2_pos_bounds ps) as Hpsb.
    destruct (float64_of_Z_exact ps) as (mx & -> & Hmx & Hmxb); [lia|].
    destruct (SFdiv_nsec pn) as (my & ey & -> & Hmyb & Hey & HU); [lia|].
    set (ds := Z.pos (digits2_pos ps)) in *.
    set (K := 83 - Z.pos (digits2_pos pn)) in *.
    assert (53 <= K <= 82) as HK by (unfold K; lia).
    pose proof (quotient_below (Z.pos pn) K ltac:(lia) ltac:(lia)) as Hq.
    assert (ey <= -53) as Hey53.
    { destruct (Z_lt_le_dec ey (-52)) as [|Hge]; [lia|exfalso].
      assert (2 ^ (K - 52) <= 2 ^ (ey + K)) by (apply Z.pow_le_mono_r; lia).
      assert (2 ^ K = 2 ^ 52 * 2 ^ (K - 52))
        by (rewrite <- Z.pow_add_r by lia; f_equal; lia).
      assert (0 < 2 ^ (K - 30)) by (apply Z.pow_pos_nonneg; lia).
      assert (2 ^ 52 * 2 ^ (K - 52) <= Z.pos my * 2 ^ (ey + K))
        by (apply Z.mul_le_mono_nonneg; lia).
      lia. }
    set (n := ds - 53 - ey).
    assert (0 < n) as Hn by (unfold n; lia).
    set (Pn := 2 ^ n). set (B := 2 ^ (53 - ds)). set (A := 2 ^ (ey + K)).
    assert (0 < Pn) as HPn by (apply Z.pow_pos_nonneg; lia).
    assert (0 < B) as HB by (apply Z.pow_pos_nonneg; lia).
    assert (0 < A) as HA by (apply Z.pow_pos_nonneg; lia).
    assert (2 ^ (- ey) = Pn * B) as Hpey
      by (unfold Pn, B; rewrite <- Z.pow_add_r by lia; f_equal; unfold n; lia).
    assert (2 ^ K = Pn * B * A) as HpK
      by (unfold Pn, B, A; rewrite <- !Z.pow_add_r by lia; f_equal; unfold n; lia).
    assert (2 * 2 ^ (K - 30) = Pn * A * 2 ^ (24 - ds)) as HpT.
    { unfold Pn, A. rewrite <- !Z.pow_add_r by lia.
      rewrite <- Z.pow_succ_r by lia. f_equal. unfold n. lia. }
    assert (1 <= 2 ^ (24 - ds)) as HC
      by (change 1 with (2 ^ 0); apply Z.pow_le_mono_r; lia).
    fold B in Hmx. fold A in HU.
    assert (Z.pos my < Pn * B) as Hmylt.
    { assert (0 < 2 ^ (K - 30)) by (apply Z.pow_pos_nonneg; lia).
      apply (Z.mul_lt_mono_pos_r A); lia. }
    assert (2 * Z.pos my < (2 * B - 1) * Pn) as Hmyhalf.
    { apply (Z.mul_lt_mono_pos_r A); [done|].
      assert (Pn * A * 1 <= Pn * A * 2 ^ (24 - ds))
        by (apply Z.mul_le_mono_nonneg_l; lia).
      lia. }
    unfold SFadd. cbn [cond_Zopp]. rewrite Z.min_r by lia.
    destruct (shl_align_left mx (ds - 53) ey) as (mz & -> & Hmz); [lia|].
    rewrite (shl_align_same my ey ey) by lia. cbn [fst].
    replace (ds - 53 - ey) with n in Hmz by done. fold Pn in Hmz.
    change (Z.pos mz + Z.pos my) with (Z.pos (mz + my)).
    cbn [binary_normalize]. unfold binary_round.
    assert (Z.pos (mz + my) = Z.pos ps * B * Pn + Z.pos my) as HM
      by (rewrite Pos2Z.inj_add, Hmz, Hmx; done).
    assert (Z.pos (digits2_pos (mz + my)) = ds - ey) as HdM.
    { apply digits2_pos_unique. rewrite HM.
      assert (2 ^ (ds - ey - 1) = 2 ^ (ds - 1) * (B * Pn)) as ->.
      { unfold B, Pn. rewrite <- !Z.pow_add_r by lia. f_equal. unfold n. lia. }
      assert (2 ^ (ds - ey) = 2 ^ ds * (B * Pn)) as ->.
      { unfold B, Pn. rewrite <- !Z.pow_add_r by lia. f_equal. unfold n. lia. }
      assert (0 < B * Pn) by (apply Z.mul_pos_pos; lia).
      assert (2 ^ (ds - 1) * (B * Pn) <= Z.pos ps * (B * Pn))
        by (apply Z.mul_le_mono_nonneg_r; lia).
      assert ((Z.pos ps + 1) * (B * Pn) <= 2 ^ ds * (B * Pn))
        by (apply Z.mul_le_mono_nonneg_r; lia).
      lia. }
    rewrite HdM. replace (ds - ey + ey) with ds by lia.
    rewrite fexp_normal by lia.
    rewrite (shl_align_same (mz + my) ey (ds - 53)) by lia.
    destruct (binary_round_aux_spec (mz + my) ey loc_Exact)
      as (m' & e' & -> & He' & _ & Hcases & Hdown); [lia|lia|lia|].
    rewrite HdM in He', Hcases, Hdown.
    replace (ds - ey - 53) with n in He', Hcases, Hdown by (unfold n; lia).
    fold Pn in Hcases, Hdown.
    rewrite (int64_of_float64_units m' e' ey) by lia.
    rewrite Hpey.
    assert (Z.pos (mz + my) / Pn = Z.pos ps * B + Z.pos my / Pn) as Hquo.
    { rewrite HM. apply Z.div_add_l. lia. }
    assert (Z.pos (mz + my) mod Pn = Z.pos my mod Pn) as Hrem.
    { rewrite HM, Z.add_comm. apply Z.mod_add. lia. }
    rewrite Hquo in Hcases, Hdown. rewrite Hrem in Hdown.
    assert (0 <= Z.pos my / Pn < B) as Hc.
    { split; [apply Z.div_pos; lia|]. apply Z.div_lt_upper_bound; lia. }
    assert (forall c, 0 <= c < B ->
              ((Z.pos ps * B + c) * Pn) / (Pn * B) = Z.pos ps) as Hfloor.
    { intros c Hcb. rewrite (Z.mul_comm Pn B).
      rewrite Z.div_mul_cancel_r by lia.
      rewrite Z.div_add_l by lia. rewrite (Z.div_small c B) by lia. lia. }
    destruct (Z_lt_le_dec (2 * (Z.pos my mod Pn)) Pn) as [Hlow|Hhigh].
    + rewrite (Hdown eq_refl Hlow). by apply Hfloor.
    + destruct Hcases as [-> | ->]; [by apply Hfloor|].
      rewrite <- Z.add_assoc. apply Hfloor.
      pose proof (Z.div_mod (Z.pos my) Pn ltac:(lia)) as Hmy.
      split; [lia|].
      assert ((2 * (Z.pos my / Pn) + 1) * Pn < (2 * B - 1) * Pn) as Hlt by lia.
      apply Z.mul_lt_mono_pos_r in Hlt; lia.
Qed.

End SecondsWhole.

(** ** Facts about the builder *)


Lemma if_same {A : Type} (c : bool) (x : A) : (if c then x else x) = x.
Proof. by destruct c. Qed.

Lemma if_Ret {A : Type} (c : bool) (x y : A) :
  (if c then Ret x else Ret y) = Ret (if c then x else y).
Proof. by destruct c. Qed.

Lemma if_cons {A : Type} (c : bool) (x y : A) (l k : list A) :
  (if c then x :: l else y :: k) = (if c then x else y) :: (if c then l else k).
Proof. by destruct c. Qed.

Lemma if_Container (c : bool) (x y : Container.t) :
  (if c then x else y) =
  Container.mk
    (if c then Container.Name x else Container.Name y)
    (if c then Container.Image x else Container.Image y)
    (if c then Container.Args x else Container.Args y)
    (if c then Container.Resources x else Container.Resources y)
    (if c then Container.VolumeMounts x else Container.VolumeMounts y)
    (if c then Container.SecurityContext x else Container.SecurityContext y).
Proof. by destruct c, x, y. Qed.

Lemma if_PodSpec (c : bool) (x y : PodSpec.t) :
  (if c then x else y) =
  PodSpec.mk
    (if c then PodSpec.Containers x else PodSpec.Containers y)
    (if c then PodSpec.NodeSelector x else PodSpec.NodeSelector y)
    (if c then PodSpec.NodeName x else PodSpec.NodeName y)
    (if c then PodSpec.ServiceAccountName x else PodSpec.ServiceAccountName y)
    (if c then PodSpec.Affinity x else PodSpec.Affinity y)
    (if c then PodSpec.Tolerations x else PodSpec.Tolerations y)
    (if c then PodSpec.PriorityClassName x else PodSpec.PriorityClassName y)
    (if c then PodSpec.SecurityContext x else PodSpec.SecurityContext y)
    (if c then PodSpec.Volumes x else PodSpec.Volumes y)
    (if c then PodSpec.ImagePullSecrets x else PodSpec.ImagePullSecrets y).
Proof. by destruct c, x, y. Qed.

Lemma if_PodTemplateSpec (c : bool) (x y : PodTemplateSpec.t) :
  (if c then x else y) =
  PodTemplateSpec.mk (if c then PodTemplateSpec.Spec x else PodTemplateSpec.Spec y).
Proof. by destruct c, x, y. Qed.

Lemma if_JobSpec (c : bool) (x y : JobSpec.t) :
  (if c then x else y) =
  JobSpec.mk
    (if c then JobSpec.ActiveDeadlineSeconds x else JobSpec.ActiveDeadlineSeconds y)
    (if c then JobSpec.Template x else JobSpec.Template y).
Proof. by destruct c, x, y. Qed.

Lemma if_Job (c : bool) (x y : Job.t) :
  (if c then x else y) =
  Job.mk
    (if c then Job.Name x else Job.Name y)
    (if c then Job.Namespace x else Job.Namespace y)
    (if c then Job.Labels x else Job.Labels y)
    (if c then Job.Annotations x else Job.Annotations y)
    (if c then Job.Spec x else Job.Spec y).
Proof. by destruct c, x, y. Qed.

Lemma outcome_bind_Ret {A B : Type} (k : A -> outcome B) (a : A) :
  mbind k (Ret a) = k a.
Proof. reflexivity. Qed.

Lemma fold_left_const {A B : Type} (l : list B) (acc : A) :
  fold_left (fun a _ => a) l acc = acc.
Proof. by induction l. Qed.

(** The resource loop leaves the slice as it found it. *)
Lemma rangeResources_id rr containers : rangeResources rr containers = containers.
Proof. unfold rangeResources. apply fold_left_const. Qed.

(** Hence the step that sets the resource requirements returns its job. *)
Lemma resources_step (p : option corev1.ResourceRequirements) (job : Job.t) :
  match p with
  | Some rr =>
      set_podSpec
        (PodSpec.set_Containers
           (rangeResources rr (PodSpec.Containers (podSpec job))) (podSpec job)) job
  | None => job
  end = job.
Proof.
  destruct p; [|done]. rewrite rangeResources_id.
  by destruct job as [? ? ? ? [? [[]]]].
Qed.

Ltac job_fields :=
  cbn [Job.Name Job.Namespace Job.Labels Job.Annotations Job.Spec
       Job.set_Name Job.set_Namespace Job.set_Labels Job.set_Annotations Job.set_Spec
       JobSpec.ActiveDeadlineSeconds JobSpec.Template
       JobSpec.set_ActiveDeadlineSeconds JobSpec.set_Template
       PodTemplateSpec.Spec PodTemplateSpec.set_Spec
       PodSpec.Containers PodSpec.NodeSelector PodSpec.NodeName
       PodSpec.ServiceAccountName PodSpec.Affinity PodSpec.Tolerations
       PodSpec.PriorityClassName PodSpec.SecurityContext PodSpec.Volumes
       PodSpec.ImagePullSecrets
       PodSpec.set_Containers PodSpec.set_NodeSelector PodSpec.set_ServiceAccountName
       PodSpec.set_Affinity PodSpec.set_Tolerations PodSpec.set_PriorityClassName
       PodSpec.set_SecurityContext PodSpec.set_Volumes PodSpec.set_ImagePullSecrets
       Container.Name Container.Image Container.Args Container.Resources
       Container.VolumeMounts Container.SecurityContext
       Container.set_Image Container.set_Args Container.set_Resources
       Container.set_VolumeMounts Container.set_SecurityContext
       podSpec set_podSpec assignContainers0].

Ltac push_if :=
  repeat (progress
    (repeat first
       [ rewrite if_Ret | rewrite if_Job | rewrite if_JobSpec | rewrite if_PodTemplateSpec
       | rewrite if_PodSpec | rewrite if_cons | rewrite if_Container ];
     job_fields; rewrite ?if_same)).

Ltac norm_head a :=
  let H := fresh "H" in
  eassert (H : a = _) by (rewrite ?resources_step; job_fields; push_if; reflexivity);
  rewrite H; clear H.

Ltac build_step :=
  lazymatch goal with
  | |- (let x := ?a in @?f x) = ?r =>
      change (f a = r); norm_head a; cbv beta
  | |- (mbind ?f ?a) = _ =>
      norm_head a; rewrite outcome_bind_Ret; cbv beta
  end.

Section BuildFacts.

Variable getTemplate : string -> string.
Variable yaml_Unmarshal : string -> result Job.t.

(** A template that does not decode makes [build] return the decoder's
    error. *)
Lemma build_undecoded b err :
  yaml_Unmarshal (getTemplate (JobBuilder.template b)) = Error err ->
  build getTemplate yaml_Unmarshal b = Fail err.
Proof. intros Hdec. unfold build. by rewrite Hdec. Qed.

(** On a template that decodes and has a first container, [build] returns,
    and returns [builtJob]. *)
Lemma build_decoded b tj c0 rest :
  yaml_Unmarshal (getTemplate (JobBuilder.template b)) = Ok tj ->
  PodSpec.Containers (podSpec tj) = c0 :: rest ->
  build getTemplate yaml_Unmarshal b = Ret (builtJob b tj).
Proof.
  intros Hdec Hcs. cbv beta delta [build builtJob builtPodSpec].
  build_step. rewrite Hdec.
  destruct tj as [n ns l a [ads [[cs nsel nn san aff tol pcn sc vols ips]]]].
  cbn in Hcs. subst cs. destruct c0 as [cn ci ca cr cvm csc].
  repeat build_step. reflexivity.
Qed.

Ltac nil_step :=
  lazymatch goal with
  | |- mbind _ ?a = _ =>
      norm_head a;
      lazymatch goal with
      | |- mbind _ (if ?c then _ else _) = _ => destruct c eqn:?
      end;
      [ reflexivity | rewrite outcome_bind_Ret; cbv beta ]
  end.

(** On a template that decodes and has no container, [build] panics when a
    setting addresses the first container, and returns [builtJob]
    otherwise. *)
Lemma build_decoded_nil b tj :
  yaml_Unmarshal (getTemplate (JobBuilder.template b)) = Ok tj ->
  PodSpec.Containers (podSpec tj) = [] ->
  build getTemplate yaml_Unmarshal b =
  if needsContainer0 b then Panic else Ret (builtJob b tj).
Proof.
  intros Hdec Hcs.
  cbv beta delta [build builtJob builtPodSpec needsContainer0].
  build_step. rewrite Hdec.
  destruct tj as [n ns l a [ads [[cs nsel nn san aff tol pcn sc vols ips]]]].
  cbn in Hcs. subst cs.
  repeat build_step. nil_step.
  repeat build_step. nil_step.
  repeat build_step. nil_step.
  repeat build_step. nil_step.
  reflexivity.
Qed.

End BuildFacts.

(** ** The merge loops *)

Lemma assignKey_lookup dst k' v' k :
  lookupKey (assignKey dst (k', v')) k =
  if decide (k' = k) then Some v' else lookupKey dst k.
Proof.
  unfold assignKey, lookupKey. destruct dst as [m|]; cbn.
  - rewrite lookup_insert. by case_decide.
  - rewrite lookup_insert. case_decide; [done|]. by rewrite lookup_empty.
Qed.

Lemma fold_assignKey_lookup (l : list (string * string)) dst k :
  NoDup l.*1 ->
  lookupKey (fold_left assignKey l dst) k =
  match (list_to_map l : gmap string string) !! k with
  | Some v => Some v
  | None => lookupKey dst k
  end.
Proof.
  revert dst. induction l as [|[k' v'] l IH]; intros dst Hnd.
  - cbn [fold_left list_to_map foldr]. by rewrite lookup_empty.
  - apply NoDup_cons in Hnd as [Hk' Hnd].
    change (fold_left assignKey ((k', v') :: l) dst)
      with (fold_left assignKey l (assignKey dst (k', v'))).
    change (list_to_map ((k', v') :: l) : gmap string string)
      with (<[k':=v']> (list_to_map l : gmap string string)).
    rewrite IH by done.
    rewrite assignKey_lookup, lookup_insert.
    destruct (decide (k' = k)) as [->|Hne].
    + by rewrite (not_elem_of_list_to_map_1 _ _ Hk').
    + done.
Qed.

(** After the loop a key of the source maps to the source's value, and any
    other key reads as it did before. *)
Lemma rangeAssign_lookup src dst k :
  lookupKey (rangeAssign src dst) k =
  match src !! k with
  | Some v => Some v
  | None => lookupKey dst k
  end.
Proof.
  unfold rangeAssign. rewrite fold_assignKey_lookup by apply NoDup_fst_map_to_list.
  by rewrite list_to_map_to_list.
Qed.

(** Go ranges over a map in an unspecified order; the outcome of the loop
    does not depend on it. *)
Lemma rangeAssign_any_order src dst (l : list (string * string)) k :
  l ≡ₚ map_to_list src ->
  lookupKey (fold_left assignKey l dst) k = lookupKey (rangeAssign src dst) k.
Proof.
  intros Hp.
  assert (NoDup l.*1) as Hnd by (rewrite Hp; apply NoDup_fst_map_to_list).
  rewrite rangeAssign_lookup, fold_assignKey_lookup by done.
  by rewrite (list_to_map_proper _ _ Hnd Hp), list_to_map_to_list.
Qed.

Section BuilderProperties.

Variable getTemplate : string -> string.
Variable yaml_Unmarshal : string -> result Job.t.

(** [build] returns a job exactly on a template that decodes and that has
    a first container whenever a setting addresses it. *)
Lemma build_returns b tj :
  yaml_Unmarshal (getTemplate (JobBuilder.template b)) = Ok tj ->
  PodSpec.Containers (podSpec tj) <> [] \/ needsContainer0 b = false ->
  build getTemplate yaml_Unmarshal b = Ret (builtJob b tj).
Proof.
  intros Hdec Hok. destruct (PodSpec.Containers (podSpec tj)) as [|c0 rest] eqn:Hcs.
  - rewrite (build_decoded_nil _ _ b tj Hdec Hcs).
    destruct Hok as [Hne | ->]; [by destruct Hne | done].
  - by rewrite (build_decoded _ _ b tj c0 rest Hdec Hcs).
Qed.

Lemma build_Ret_inv b job :
  build getTemplate yaml_Unmarshal b = Ret job ->
  exists tj,
    yaml_Unmarshal (getTemplate (JobBuilder.template b)) = Ok tj /\
    job = builtJob b tj.
Proof.
  intros Hb.
  destruct (yaml_Unmarshal (getTemplate (JobBuilder.template b))) as [tj|err] eqn:Hdec.
  - exists tj. split; [done|].
    destruct (PodSpec.Containers (podSpec tj)) as [|c0 rest] eqn:Hcs.
    + rewrite (build_decoded_nil _ _ b tj Hdec Hcs) in Hb.
      destruct (needsContainer0 b); congruence.
    + rewrite (build_decoded _ _ b tj c0 rest Hdec Hcs) in Hb. congruence.
  - rewrite (build_undecoded _ _ b err Hdec) in Hb. discriminate.
Qed.

(** No setting of the builder changes the resources of a container: the
    built job carries the template's. *)
Lemma built_Resources b tj :
  Container.Resources <$> PodSpec.Containers (podSpec (builtJob b tj)) =
  Container.Resources <$> PodSpec.Containers (podSpec tj).
Proof.
  cbn. by destruct (PodSpec.Containers (podSpec tj)).
Qed.

Lemma nonempty_length (s : string) : s <> "" -> (0 <? String.length s)%nat = true.
Proof. destruct s; [done|]. intros _. reflexivity. Qed.

Lemma nonnil_length {A : Type} (l : list A) : l <> [] -> (0 <? length l)%nat = true.
Proof. destruct l; [done|]. intros _. reflexivity. Qed.

(** C5: with node-configuration mode enabled, whatever else the builder
    sets, the built job's first container has the template's arguments
    followed by one ["--node"; nodeName] pair and the other containers keep
    their arguments; with the mode disabled every container of the built job
    has the arguments of the template, so that no "--node" is injected. *)
Theorem C5_node_argument b tj :
  yaml_Unmarshal (getTemplate (JobBuilder.template b)) = Ok tj ->
  (JobBuilder.nodeConfig b = true ->
   forall c0 rest, PodSpec.Containers (podSpec tj) = c0 :: rest ->
   exists job,
     build getTemplate yaml_Unmarshal b = Ret job /\
     Container.Args <$> PodSpec.Containers (podSpec job) =
     (Container.Args c0 ++ ["--node"; JobBuilder.nodeName b])
       :: (Container.Args <$> rest)) /\
  (JobBuilder.nodeConfig b = false ->
   (PodSpec.Containers (podSpec tj) <> [] ->
    exists job, build getTemplate yaml_Unmarshal b = Ret job) /\
   forall job,
     build getTemplate yaml_Unmarshal b = Ret job ->
     Container.Args <$> PodSpec.Containers (podSpec job) =
     Container.Args <$> PodSpec.Containers (podSpec tj)).
Proof.
  intros Hdec. split.
  - intros Hnc c0 rest Hcs. exists (builtJob b tj). split.
    + by apply (build_decoded _ _ b tj c0 rest).
    + cbn. rewrite Hcs. cbn. by rewrite Hnc.
  - intros Hnc. split.
    + intros Hne. exists (builtJob b tj). apply build_returns; auto.
    + intros job Hb. apply build_Ret_inv in Hb as (tj' & Hdec' & ->).
      rewrite Hdec in Hdec'. injection Hdec' as <-.
      cbn. destruct (PodSpec.Containers (podSpec tj)); [done|].
      cbn. by rewrite Hnc.
Qed.

(** C6: on a template with a first container [c0] and further containers
    [rest], the built job has as many containers; a non-empty image
    reference, a non-nil container security context and a non-empty list of
    volume mounts are written to the first container, and the image, the
    security context and the volume mounts of every further container are
    those of the template. *)
Theorem C6_first_container_only b tj c0 rest :
  yaml_Unmarshal (getTemplate (JobBuilder.template b)) = Ok tj ->
  PodSpec.Containers (podSpec tj) = c0 :: rest ->
  exists job c0' rest',
    build getTemplate yaml_Unmarshal b = Ret job /\
    PodSpec.Containers (podSpec job) = c0' :: rest' /\
    (JobBuilder.imageRef b <> "" -> Container.Image c0' = JobBuilder.imageRef b) /\
    (forall sc, JobBuilder.securityContext b = Some sc ->
                Container.SecurityContext c0' = Some sc) /\
    (JobBuilder.volumeMounts b <> [] ->
     Container.VolumeMounts c0' = JobBuilder.volumeMounts b) /\
    length rest' = length rest /\
    Container.Image <$> rest' = Container.Image <$> rest /\
    Container.SecurityContext <$> rest' = Container.SecurityContext <$> rest /\
    Container.VolumeMounts <$> rest' = Container.VolumeMounts <$> rest.
Proof.
  intros Hdec Hcs. exists (builtJob b tj), (builtContainer0 b c0), rest.
  split; [by apply (build_decoded _ _ b tj c0 rest)|].
  split; [cbn; by rewrite Hcs|].
  split; [intros Hne; cbn [builtContainer0 Container.Image];
          by rewrite nonempty_length|].
  split; [intros sc Hsc; cbn [builtContainer0 Container.SecurityContext];
          by rewrite Hsc|].
  split; [intros Hne; cbn [builtContainer0 Container.VolumeMounts];
          by rewrite nonnil_length|].
  done.
Qed.

(** C8: the labels of the built job hold every key of the template's labels
    and every key supplied to the builder; a supplied key carries the
    supplied value, also when the template has the key, and a key that was
    not supplied reads as in the template. The same holds of the
    annotations. *)
Theorem C8_labels_annotations_merged b tj :
  yaml_Unmarshal (getTemplate (JobBuilder.template b)) = Ok tj ->
  PodSpec.Containers (podSpec tj) <> [] \/ needsContainer0 b = false ->
  exists job,
    build getTemplate yaml_Unmarshal b = Ret job /\
    (forall k, is_Some (lookupKey (Job.Labels tj) k) \/ is_Some (JobBuilder.labels b !! k) ->
               is_Some (lookupKey (Job.Labels job) k)) /\
    (forall k v, JobBuilder.labels b !! k = Some v ->
                 lookupKey (Job.Labels job) k = Some v) /\
    (forall k, JobBuilder.labels b !! k = None ->
               lookupKey (Job.Labels job) k = lookupKey (Job.Labels tj) k) /\
    (forall k, is_Some (lookupKey (Job.Annotations tj) k)
               \/ is_Some (JobBuilder.annotations b !! k) ->
               is_Some (lookupKey (Job.Annotations job) k)) /\
    (forall k v, JobBuilder.annotations b !! k = Some v ->
                 lookupKey (Job.Annotations job) k = Some v) /\
    (forall k, JobBuilder.annotations b !! k = None ->
               lookupKey (Job.Annotations job) k = lookupKey (Job.Annotations tj) k).
Proof.
  intros Hdec Hok. exists (builtJob b tj).
  split; [by apply build_returns|]. cbn [builtJob Job.Labels Job.Annotations].
  repeat split.
  - intros k Hk. rewrite rangeAssign_lookup.
    destruct (JobBuilder.labels b !! k) eqn:E; [by eexists|].
    destruct Hk as [Hk|Hk]; [done | by destruct Hk].
  - intros k v Hk. by rewrite rangeAssign_lookup, Hk.
  - intros k Hk. by rewrite rangeAssign_lookup, Hk.
  - intros k Hk. rewrite rangeAssign_lookup.
    destruct (JobBuilder.annotations b !! k) eqn:E; [by eexists|].
    destruct Hk as [Hk|Hk]; [done | by destruct Hk].
  - intros k v Hk. by rewrite rangeAssign_lookup, Hk.
  - intros k Hk. by rewrite rangeAssign_lookup, Hk.
Qed.

End BuilderProperties.

(** ** Facts about the collector *)

Lemma length_append (a b : string) :
  String.length (a +:+ b) = (String.length a + String.length b)%nat.
Proof.
  induction a as [|c a IH]; [done|].
  change (S (String.length (a +:+ b)) = S (String.length a + String.length b)).
  by rewrite IH.
Qed.

Lemma derived_name_nonempty (a b : string) :
  (0 <? String.length (a +:+ "-" +:+ b))%nat = true.
Proof. apply Nat.ltb_lt. rewrite !length_append. cbn. lia. Qed.

Section CollectorProperties.

Context {W : Type} (cluster : Cluster W).
Variable getTemplate : string -> string.
Variable yaml_Unmarshal : string -> result Job.t.
Variable GetAuth : string -> result (ClusterRole * ClusterRoleBinding * ServiceAccount).
Variables clusterRole roleBinding serviceAccount : string.
Variable ComputeHash : ObjectRef -> string.

Ltac exec_step :=
  match goal with
  | |- context [respond cluster ?c ?w] =>
      let r := fresh "r" in
      let w' := fresh "w" in
      let E := fresh "E" in
      destruct (respond cluster c w) as [r w'] eqn:E
  | |- context [match ?x with Ok _ => _ | Error _ => _ end] => destruct x
  | |- context [match ?x with Some _ => _ | None => _ end] => destruct x
  | |- context [match ?x with Ret _ => _ | Fail _ => _ | Panic => _ end] =>
      destruct x eqn:?
  | |- context [if ?x then _ else _] => destruct x eqn:?
  | |- context [let (_, _) := ?x in _] => is_var x; destruct x
  end.

Ltac unfold_M :=
  cbv beta iota zeta delta
    [ApplyAndCollect ensureNamespace provisionAuth runAndCollect Apply
     run runFrom mbind mret M_bind M_ret call throw lift defer orErrorf
     getTrivyNamespace cleanup world trace app fst snd].

Ltac exec := unfold_M; repeat (exec_step; unfold_M).

(** The builders the two methods hand to [build]. *)
Lemma collect_builder jb nodeName :
  applyOptions (collectJobOptions serviceAccount ComputeHash jb nodeName) zeroJobBuilder =
  {| JobBuilder.template := jobCollector.templateName jb;
     JobBuilder.nodeName := nodeName;
     JobBuilder.namespace := jobCollector.namespace jb;
     JobBuilder.imageRef := jobCollector.imageRef jb;
     JobBuilder.serviceAccount :=
       if jobCollector.nodeConfig jb then serviceAccount else "";
     JobBuilder.name :=
       jobCollector.templateName jb +:+ "-" +:+
       ComputeHash {| Kind := "Node-Info";
                      Name := nodeName;
                      Namespace_ := jobCollector.namespace jb |};
     JobBuilder.labels := jobCollector.labels jb;
     JobBuilder.podSecurityContext := jobCollector.podSecurityContext jb;
     JobBuilder.securityContext := jobCollector.securityContext jb;
     JobBuilder.annotations := jobCollector.annotation jb;
     JobBuilder.affinity := jobCollector.affinity jb;
     JobBuilder.tolerations := jobCollector.tolerations jb;
     JobBuilder.priorityClassName := jobCollector.priorityClassName jb;
     JobBuilder.volumes := jobCollector.volumes jb;
     JobBuilder.volumeMounts := jobCollector.volumeMounts jb;
     JobBuilder.imagePullSecrets := jobCollector.imagePullSecrets jb;
     JobBuilder.resourceRequirements := jobCollector.resourceRequirements jb;
     JobBuilder.timeout := jobCollector.collectorTimeout jb;
     JobBuilder.nodeConfig := jobCollector.nodeConfig jb;
     JobBuilder.useNodeSelector := true |}.
Proof. unfold collectJobOptions. by destruct (jobCollector.nodeConfig jb). Qed.

Lemma apply_builder jb nodeName :
  applyOptions (applyJobOptions jb nodeName) zeroJobBuilder =
  {| JobBuilder.template := jobCollector.templateName jb;
     JobBuilder.nodeName := nodeName;
     JobBuilder.namespace := jobCollector.namespace jb;
     JobBuilder.imageRef := jobCollector.imageRef jb;
     JobBuilder.serviceAccount := jobCollector.serviceAccount jb;
     JobBuilder.name := jobCollector.name jb;
     JobBuilder.labels := jobCollector.labels jb;
     JobBuilder.podSecurityContext := jobCollector.podSecurityContext jb;
     JobBuilder.securityContext := jobCollector.securityContext jb;
     JobBuilder.annotations := jobCollector.annotation jb;
     JobBuilder.affinity := jobCollector.affinity jb;
     JobBuilder.tolerations := jobCollector.tolerations jb;
     JobBuilder.priorityClassName := jobCollector.priorityClassName jb;
     JobBuilder.volumes := jobCollector.volumes jb;
     JobBuilder.volumeMounts := jobCollector.volumeMounts jb;
     JobBuilder.imagePullSecrets := jobCollector.imagePullSecrets jb;
     JobBuilder.resourceRequirements := jobCollector.resourceRequirements jb;
     JobBuilder.timeout := jobCollector.collectorTimeout jb;
     JobBuilder.nodeConfig := jobCollector.nodeConfig jb;
     JobBuilder.useNodeSelector := jobCollector.useNodeSelector jb |}.
Proof. reflexivity. Qed.

(** Every job [ApplyAndCollect] hands to [Run] is the one [GetJob] built
    from its options. *)
Lemma ApplyAndCollect_ran_job jb nodeName w job :
  In job (omap ranJob
            (run (ApplyAndCollect cluster getTemplate yaml_Unmarshal GetAuth
                    clusterRole roleBinding serviceAccount ComputeHash jb nodeName)
                 w).2) ->
  GetJob getTemplate yaml_Unmarshal
    (collectJobOptions serviceAccount ComputeHash jb nodeName) = Ret job.
Proof.
  exec; cbn; intros Hin; intuition congruence.
Qed.

(** Every job [Apply] hands to the jobs API is the one [GetJob] built from
    its options, submitted to the job's own namespace. *)
Lemma Apply_created_job jb nodeName w namespace job r :
  In (namespace, job, r)
     (omap createdJob (run (Apply cluster getTemplate yaml_Unmarshal jb nodeName) w).2) ->
  GetJob getTemplate yaml_Unmarshal (applyJobOptions jb nodeName) = Ret job /\
  namespace = Job.Namespace job.
Proof.
  exec; cbn; intros Hin; intuition congruence.
Qed.

(** The name of a job built from the options of [ApplyAndCollect]. *)
Lemma collect_job_name jb nodeName job :
  GetJob getTemplate yaml_Unmarshal
    (collectJobOptions serviceAccount ComputeHash jb nodeName) = Ret job ->
  Job.Name job =
  jobCollector.templateName jb +:+ "-" +:+
  ComputeHash {| Kind := "Node-Info";
                 Name := nodeName;
                 Namespace_ := jobCollector.namespace jb |}.
Proof.
  unfold GetJob. cbv zeta. rewrite collect_builder. intros Hb.
  apply build_Ret_inv in Hb as (tj & _ & ->).
  cbn [builtJob Job.Name JobBuilder.name]. by rewrite derived_name_nonempty.
Qed.

(** C2, as the code has it: when the namespace lookup fails with a
    not-found error, exactly one namespace-create call is issued, right
    after the lookup; when it fails with any other error, no
    namespace-create call is issued, the error is dropped and
    [ApplyAndCollect] goes on with the RBAC objects and the job from the
    state the lookup left, as it does after a lookup that succeeded. *)
Theorem C2_namespace_lookup jb nodeName w err w1 :
  respond cluster (NamespacesGet (jobCollector.namespace jb)) w = (Error err, w1) ->
  let out := run (ApplyAndCollect cluster getTemplate yaml_Unmarshal GetAuth
                    clusterRole roleBinding serviceAccount ComputeHash jb nodeName) w in
  let lookup := Issued (NamespacesGet (jobCollector.namespace jb)) (Error err) in
  (IsNotFound err = true ->
   countCalls isNamespacesCreate out.2 = 1 /\
   exists r tr,
     out.2 = lookup
             :: Issued (NamespacesCreate
                          {| NamespaceName := jobCollector.namespace jb |}) r
             :: tr) /\
  (IsNotFound err = false ->
   countCalls isNamespacesCreate out.2 = 0 /\
   out = runFrom (provisionAuth cluster GetAuth jb;;
                  runAndCollect cluster getTemplate yaml_Unmarshal
                    clusterRole roleBinding serviceAccount ComputeHash jb nodeName)
           w1 [lookup]).
Proof.
  intros Hget out lookup. subst out lookup. split; intros Hnf.
  - split.
    + unfold_M. rewrite Hget. unfold_M. rewrite Hnf. exec; reflexivity.
    + unfold_M. rewrite Hget. unfold_M. rewrite Hnf. exec; cbn; eauto.
  - split.
    + unfold_M. rewrite Hget. unfold_M. rewrite Hnf. exec; reflexivity.
    + unfold_M. rewrite Hget. unfold_M. rewrite Hnf. reflexivity.
Qed.

(** C4: when [Run] returns an error, [ApplyAndCollect] returns that error
    (wrapped with the prefix "running node-collector job: ") and its log holds
    no log-retrieval call and no deletion; in every run, no log-retrieval
    call and no deletion is logged before a [Run] that returned nil. *)
Theorem C4_run_error_no_teardown jb nodeName w :
  let out := run (ApplyAndCollect cluster getTemplate yaml_Unmarshal GetAuth
                    clusterRole roleBinding serviceAccount ComputeHash jb nodeName) w in
  (forall err,
     In err (omap runFailure out.2) ->
     out.1 = Fail (Errorf "running node-collector job: " err) /\
     Unwrap (Errorf "running node-collector job: " err) = Some err /\
     Forall (fun e => isLogRetrieval e = false /\ isDeletion e = false) out.2) /\
  Forall (fun e => isLogRetrieval e = false /\ isDeletion e = false)
    (beforeRunSucceeded out.2).
Proof.
  intros out. subst out. split.
  - intros err. exec; cbn; intros Hin; try (exfalso; tauto).
    all: destruct Hin as [<-|[]]; repeat split; repeat constructor.
  - exec; cbn; repeat constructor.
Qed.

(** C9: [Apply] hands [build] the collector's own name, so that a job built
    from a collector with a non-empty name bears it; its log never holds a
    wait, a deletion or a log retrieval, and holds at most one call, a job
    submission; whenever the job builds, the log is exactly the submission of
    that job to its namespace, and [Apply] returns what the jobs API
    answered: the created job, or the API's error; and whenever [Apply]
    returns a job handle, the log is exactly one submission, the one the
    handle answers. *)
Theorem C9_apply_submits_once jb nodeName w :
  let out := run (Apply cluster getTemplate yaml_Unmarshal jb nodeName) w in
  JobBuilder.name (applyOptions (applyJobOptions jb nodeName) zeroJobBuilder)
  = jobCollector.name jb /\
  Forall (fun e => isWait e = false /\ isDeletion e = false /\ isLogRetrieval e = false)
    out.2 /\
  (length out.2 <= 1)%nat /\
  (forall job,
     GetJob getTemplate yaml_Unmarshal (applyJobOptions jb nodeName) = Ret job ->
     (jobCollector.name jb <> "" -> Job.Name job = jobCollector.name jb) /\
     countCalls isJobsCreate out.2 = 1 /\
     exists r,
       out.2 = [Issued (JobsCreate (Job.Namespace job) job) r] /\
       out.1 = match r with
               | Ok handle => Ret handle
               | Error err => Fail err
               end) /\
  (forall handle,
     out.1 = Ret handle ->
     exists job,
       GetJob getTemplate yaml_Unmarshal (applyJobOptions jb nodeName) = Ret job /\
       out.2 = [Issued (JobsCreate (Job.Namespace job) job) (Ok handle)]).
Proof.
  intros out. subst out. split; [reflexivity|]. split; [|split; [|split]].
  - exec; cbn; repeat constructor.
  - exec; cbn; lia.
  - intros job Hjob. split.
    + intros Hne. unfold GetJob in Hjob. cbv zeta in Hjob.
      rewrite apply_builder in Hjob.
      apply build_Ret_inv in Hjob as (tj & _ & ->).
      cbn [builtJob Job.Name JobBuilder.name]. by rewrite nonempty_length.
    + unfold_M. rewrite Hjob. exec; cbn; eauto.
  - intros handle. exec; cbn; intros Hret; try discriminate.
    injection Hret as ->. eauto.
Qed.

(** C10: [ApplyAndCollect] always builds with the node selector enabled,
    and every job it runs selects the node by the hostname label, whatever
    the collector's [useNodeSelector]; [Apply] builds with the collector's
    [useNodeSelector], and a job it submits selects the node by the hostname
    label when the setting is true and keeps the template's selector when it
    is false. *)
Theorem C10_node_selector jb nodeName w :
  JobBuilder.useNodeSelector
    (applyOptions (collectJobOptions serviceAccount ComputeHash jb nodeName)
       zeroJobBuilder) = true /\
  (forall job,
     In job (omap ranJob
               (run (ApplyAndCollect cluster getTemplate yaml_Unmarshal GetAuth
                       clusterRole roleBinding serviceAccount ComputeHash jb nodeName)
                    w).2) ->
     PodSpec.NodeSelector (podSpec job) = Some {[ corev1.LabelHostname := nodeName ]}) /\
  JobBuilder.useNodeSelector (applyOptions (applyJobOptions jb nodeName) zeroJobBuilder)
  = jobCollector.useNodeSelector jb /\
  (forall namespace job r tj,
     In (namespace, job, r)
        (omap createdJob
           (run (Apply cluster getTemplate yaml_Unmarshal jb nodeName) w).2) ->
     yaml_Unmarshal (getTemplate (jobCollector.templateName jb)) = Ok tj ->
     PodSpec.NodeSelector (podSpec job) =
     if jobCollector.useNodeSelector jb
     then Some {[ corev1.LabelHostname := nodeName ]}
     else PodSpec.NodeSelector (podSpec tj)).
Proof.
  split; [by rewrite collect_builder|]. split; [|split; [reflexivity|]].
  - intros job Hin. apply ApplyAndCollect_ran_job in Hin.
    unfold GetJob in Hin. cbv zeta in Hin. rewrite collect_builder in Hin.
    by apply build_Ret_inv in Hin as (tj & _ & ->).
  - intros namespace job r tj Hin Hdec. apply Apply_created_job in Hin as [Hjob _].
    unfold GetJob in Hjob. cbv zeta in Hjob. rewrite apply_builder in Hjob.
    apply build_Ret_inv in Hjob as (tj' & Hdec' & ->).
    cbn [JobBuilder.template] in Hdec'. rewrite Hdec in Hdec'. by injection Hdec' as <-.
Qed.

End CollectorProperties.

(** C3: two runs of [ApplyAndCollect] for the same node, by collectors with
    the same template name and namespace, on any two clusters in any two
    states, hand [Run] jobs of the same name: the template name, a dash and
    the hash of the reference ("Node-Info", node, namespace). *)
Theorem C3_job_name_stable {W1 W2 : Type} (cluster1 : Cluster W1) (cluster2 : Cluster W2)
  getTemplate yaml_Unmarshal GetAuth clusterRole roleBinding serviceAccount ComputeHash
  jb1 jb2 nodeName w1 w2 job1 job2 :
  jobCollector.templateName jb1 = jobCollector.templateName jb2 ->
  jobCollector.namespace jb1 = jobCollector.namespace jb2 ->
  In job1 (omap ranJob
             (run (ApplyAndCollect cluster1 getTemplate yaml_Unmarshal GetAuth
                     clusterRole roleBinding serviceAccount ComputeHash jb1 nodeName)
                  w1).2) ->
  In job2 (omap ranJob
             (run (ApplyAndCollect cluster2 getTemplate yaml_Unmarshal GetAuth
                     clusterRole roleBinding serviceAccount ComputeHash jb2 nodeName)
                  w2).2) ->
  Job.Name job1 = Job.Name job2 /\
  Job.Name job1 =
  jobCollector.templateName jb1 +:+ "-" +:+
  ComputeHash {| Kind := "Node-Info";
                 Name := nodeName;
                 Namespace_ := jobCollector.namespace jb1 |}.
Proof.
  intros Ht Hn H1 H2.
  apply ApplyAndCollect_ran_job, collect_job_name in H1.
  apply ApplyAndCollect_ran_job, collect_job_name in H2.
  rewrite H1, H2, Ht, Hn. done.
Qed.

(** ** The remaining claims, and the claims at the sample inputs *)

(** C1, on the code as written: building the sample template (two
    containers, no resources) with the resource requirements [cpu: 100m]
    set returns a job both of whose containers still carry the template's
    empty resources, and none the requested ones. *)
Theorem C1_resources_not_applied :
  JobBuilder.resourceRequirements Sample.builder = Some Sample.resources /\
  exists job,
    build Sample.getTemplate Sample.yaml_Unmarshal Sample.builder = Ret job /\
    Container.Resources <$> PodSpec.Containers (podSpec job) =
    [Sample.noResources; Sample.noResources] /\
    Forall (fun c => Container.Resources c <> Sample.resources)
      (PodSpec.Containers (podSpec job)).
Proof.
  split; [reflexivity|]. eexists. split.
  - apply (build_returns _ _ Sample.builder Sample.template); [reflexivity|].
    left. discriminate.
  - split; [reflexivity|].
    assert (Sample.noResources <> Sample.resources) as Hne.
    { intros Heq. apply (f_equal (fun r => corev1.Limits r !! "cpu")) in Heq.
      vm_compute in Heq. discriminate. }
    repeat constructor; exact Hne.
Qed.

Section Deadline.

Variable getTemplate : string -> string.
Variable yaml_Unmarshal : string -> result Job.t.

(** C7, as the code has it: with a positive timeout the built job's active
    deadline is [int64(timeout.Seconds())], the seconds being computed in
    binary64; for a positive timeout below [2 ^ 24] seconds this is the
    timeout in whole seconds, the sub-second part discarded; with a zero or
    negative timeout the template's active deadline is kept. *)
Theorem C7_active_deadline b tj :
  yaml_Unmarshal (getTemplate (JobBuilder.template b)) = Ok tj ->
  PodSpec.Containers (podSpec tj) <> [] \/ needsContainer0 b = false ->
  exists job,
    build getTemplate yaml_Unmarshal b = Ret job /\
    ((0 < JobBuilder.timeout b)%Z ->
     JobSpec.ActiveDeadlineSeconds (Job.Spec job) =
     Some (Duration.int64_of_float64 (Duration.Seconds (JobBuilder.timeout b)))) /\
    ((0 < JobBuilder.timeout b < 2 ^ 24 * Duration.Second)%Z ->
     JobSpec.ActiveDeadlineSeconds (Job.Spec job) =
     Some (JobBuilder.timeout b / Duration.Second)%Z) /\
    ((JobBuilder.timeout b <= 0)%Z ->
     JobSpec.ActiveDeadlineSeconds (Job.Spec job) =
     JobSpec.ActiveDeadlineSeconds (Job.Spec tj)).
Proof.
  intros Hdec Hok. exists (builtJob b tj). split; [by apply build_returns|].
  cbn [builtJob Job.Spec JobSpec.ActiveDeadlineSeconds].
  split; [|split].
  - intros Hpos. by rewrite (proj2 (Z.ltb_lt _ _) Hpos).
  - intros Hpos. rewrite (proj2 (Z.ltb_lt _ _) (proj1 Hpos)).
    by rewrite Seconds_truncates.
  - intros Hle. by rewrite (proj2 (Z.ltb_ge _ _) Hle).
Qed.

End Deadline.

(** C7 as stated fails: a timeout of 16777216.999999999 seconds gives an
    active deadline of 16777217 seconds, one more than its whole seconds. *)
Lemma C7_counterexample :
  exists job,
    build Sample.getTemplate Sample.yaml_Unmarshal
      (WithJobTimeout 16777216999999999%Z Sample.builder) = Ret job /\
    JobSpec.ActiveDeadlineSeconds (Job.Spec job) = Some 16777217%Z /\
    (16777216999999999 / Duration.Second)%Z = 16777216%Z.
Proof.
  eexists. split.
  - apply (build_returns _ _ _ Sample.template); [reflexivity|].
    left. discriminate.
  - split; by vm_compute.
Qed.

(** C2 as stated fails: with a lookup that fails with a forbidden error,
    which is not a not-found error, [ApplyAndCollect] does not return that
    error; it runs the job and returns its logs. *)
Lemma C2_counterexample :
  let out := Sample.applyAndCollect (Error Sample.forbidden) None
               Sample.collector "worker-1" in
  omap lookupFailure out.2 = [Sample.forbidden] /\
  IsNotFound Sample.forbidden = false /\
  out.1 = Ret "{}" /\
  out.1 <> Fail Sample.forbidden /\
  countCalls isWait out.2 = 1%nat.
Proof.
  vm_compute. repeat split. discriminate.
Qed.

(** ** The theorems at the sample inputs *)

Lemma C2_namespace_lookup_witness :
  countCalls isNamespacesCreate
    (Sample.applyAndCollect (Error Sample.notFound) None Sample.collector "worker-1").2
  = 1%nat /\
  countCalls isNamespacesCreate
    (Sample.applyAndCollect (Error Sample.forbidden) None Sample.collector "worker-1").2
  = 0%nat.
Proof.
  split.
  - exact (proj1 (proj1 (C2_namespace_lookup
                           (Sample.scripted (Error Sample.notFound) None)
                           Sample.getTemplate Sample.yaml_Unmarshal Sample.GetAuth
                           "node-collector-cr" "node-collector-rb" "node-collector-sa"
                           Sample.ComputeHash Sample.collector "worker-1" tt
                           Sample.notFound tt eq_refl) eq_refl)).
  - exact (proj1 (proj2 (C2_namespace_lookup
                           (Sample.scripted (Error Sample.forbidden) None)
                           Sample.getTemplate Sample.yaml_Unmarshal Sample.GetAuth
                           "node-collector-cr" "node-collector-rb" "node-collector-sa"
                           Sample.ComputeHash Sample.collector "worker-1" tt
                           Sample.forbidden tt eq_refl) eq_refl)).
Defined.

Lemma C3_job_name_stable_witness :
  exists job1 job2,
    In job1 (omap ranJob
               (run (ApplyAndCollect (Sample.scripted (Ok {| NamespaceName := "trivy-temp" |}) None)
                       Sample.getTemplate Sample.yaml_Unmarshal Sample.GetAuth
                       "node-collector-cr" "node-collector-rb" "node-collector-sa"
                       Sample.ComputeHash Sample.collector "worker-1") tt).2) /\
    In job2 (omap ranJob
               (run (ApplyAndCollect (Sample.scripted (Error Sample.notFound) (Some Sample.deadlineExceeded))
                       Sample.getTemplate Sample.yaml_Unmarshal Sample.GetAuth
                       "node-collector-cr" "node-collector-rb" "node-collector-sa"
                       Sample.ComputeHash Sample.collector "worker-1") tt).2) /\
    Job.Name job1 = Job.Name job2 /\
    Job.Name job1 = "node-collector-Node-Info.worker-1.trivy-temp".
Proof.
  pose (job := builtJob
                 (applyOptions
                    (collectJobOptions "node-collector-sa" Sample.ComputeHash
                       Sample.collector "worker-1") zeroJobBuilder)
                 Sample.template).
  assert (In job (omap ranJob
                    (run (ApplyAndCollect (Sample.scripted (Ok {| NamespaceName := "trivy-temp" |}) None)
                       Sample.getTemplate Sample.yaml_Unmarshal Sample.GetAuth
                       "node-collector-cr" "node-collector-rb" "node-collector-sa"
                       Sample.ComputeHash Sample.collector "worker-1") tt).2)) as H1
    by (vm_compute; left; reflexivity).
  assert (In job (omap ranJob
                    (run (ApplyAndCollect (Sample.scripted (Error Sample.notFound) (Some Sample.deadlineExceeded))
                       Sample.getTemplate Sample.yaml_Unmarshal Sample.GetAuth
                       "node-collector-cr" "node-collector-rb" "node-collector-sa"
                       Sample.ComputeHash Sample.collector "worker-1") tt).2))
    as H2 by (vm_compute; left; reflexivity).
  exists job, job. split; [exact H1|]. split; [exact H2|].
  exact (C3_job_name_stable
           (Sample.scripted (Ok {| NamespaceName := "trivy-temp" |}) None)
           (Sample.scripted (Error Sample.notFound) (Some Sample.deadlineExceeded))
           Sample.getTemplate Sample.yaml_Unmarshal Sample.GetAuth
           "node-collector-cr" "node-collector-rb" "node-collector-sa"
           Sample.ComputeHash Sample.collector Sample.collector "worker-1" tt tt
           job job eq_refl eq_refl H1 H2).
Defined.

Lemma C4_run_error_no_teardown_witness :
  let out := Sample.applyAndCollect (Ok {| NamespaceName := "trivy-temp" |})
               (Some Sample.deadlineExceeded) Sample.collector "worker-1" in
  out.1 = Fail (Errorf "running node-collector job: " Sample.deadlineExceeded) /\
  Forall (fun e => isLogRetrieval e = false /\ isDeletion e = false) out.2.
Proof.
  intros out.
  destruct (proj1 (C4_run_error_no_teardown
                     (Sample.scripted (Ok {| NamespaceName := "trivy-temp" |})
                        (Some Sample.deadlineExceeded))
                     Sample.getTemplate Sample.yaml_Unmarshal Sample.GetAuth
                     "node-collector-cr" "node-collector-rb" "node-collector-sa"
                     Sample.ComputeHash Sample.collector "worker-1" tt)
              Sample.deadlineExceeded (or_introl eq_refl)) as (Hres & _ & Hlog).
  split; [exact Hres | exact Hlog].
Defined.

Lemma C5_node_argument_witness :
  (exists job,
     build Sample.getTemplate Sample.yaml_Unmarshal Sample.builder = Ret job /\
     Container.Args <$> PodSpec.Containers (podSpec job) =
     [["k8s"; "--node"; "worker-1"]; ["tail"]]) /\
  (forall job,
     build Sample.getTemplate Sample.yaml_Unmarshal
       (WithNodeConfiguration false Sample.builder) = Ret job ->
     Container.Args <$> PodSpec.Containers (podSpec job) = [["k8s"]; ["tail"]]).
Proof.
  split.
  - exact (proj1 (C5_node_argument Sample.getTemplate Sample.yaml_Unmarshal
                    Sample.builder Sample.template eq_refl)
             eq_refl Sample.collectorContainer [Sample.sidecarContainer] eq_refl).
  - exact (proj2 (proj2 (C5_node_argument Sample.getTemplate Sample.yaml_Unmarshal
                           (WithNodeConfiguration false Sample.builder)
                           Sample.template eq_refl)
                    eq_refl)).
Defined.

Lemma C6_first_container_only_witness :
  exists job c0' rest',
    build Sample.getTemplate Sample.yaml_Unmarshal Sample.builder = Ret job /\
    PodSpec.Containers (podSpec job) = c0' :: rest' /\
    Container.Image c0' = "example.org/node-collector:1" /\
    Container.SecurityContext c0' = Some Sample.securityContext /\
    Container.VolumeMounts c0' = Sample.volumeMounts /\
    Container.Image <$> rest' = ["busybox:1.36"] /\
    Container.SecurityContext <$> rest' = [None] /\
    Container.VolumeMounts <$> rest' = [[]].
Proof.
  destruct (C6_first_container_only Sample.getTemplate Sample.yaml_Unmarshal
              Sample.builder Sample.template Sample.collectorContainer
              [Sample.sidecarContainer] eq_refl eq_refl)
    as (job & c0' & rest' & Hb & Hcs & Hi & Hsc & Hvm & _ & Hri & Hrsc & Hrvm).
  exists job, c0', rest'.
  split; [exact Hb|]. split; [exact Hcs|].
  split; [apply Hi; discriminate|].
  split; [apply Hsc; reflexivity|].
  split; [apply Hvm; discriminate|].
  split; [exact Hri|]. split; [exact Hrsc | exact Hrvm].
Defined.

Lemma C7_active_deadline_witness :
  exists job,
    build Sample.getTemplate Sample.yaml_Unmarshal Sample.builder = Ret job /\
    JobSpec.ActiveDeadlineSeconds (Job.Spec job) = Some 1%Z.
Proof.
  destruct (C7_active_deadline Sample.getTemplate Sample.yaml_Unmarshal
              Sample.builder Sample.template eq_refl
              ltac:(left; discriminate))
    as (job & Hb & _ & Hwhole & _).
  exists job. split; [exact Hb|].
  apply Hwhole. split; reflexivity.
Defined.

Lemma C8_labels_annotations_merged_witness :
  exists job,
    build Sample.getTemplate Sample.yaml_Unmarshal Sample.builder = Ret job /\
    lookupKey (Job.Labels job) "team" = Some "caller" /\
    lookupKey (Job.Labels job) "app" = Some "node-collector" /\
    lookupKey (Job.Labels job) "trivy.collector.name" = Some "node-collector" /\
    lookupKey (Job.Annotations job) "note" = Some "scan".
Proof.
  destruct (C8_labels_annotations_merged Sample.getTemplate Sample.yaml_Unmarshal
              Sample.builder Sample.template eq_refl
              ltac:(left; discriminate))
    as (job & Hb & _ & Hl & Hlt & _ & Ha & _).
  exists job. split; [exact Hb|].
  split; [apply Hl; reflexivity|].
  split; [rewrite Hlt; reflexivity|].
  split; [apply Hl; reflexivity|].
  apply Ha; reflexivity.
Defined.

Lemma C9_apply_submits_once_witness :
  exists job r,
    GetJob Sample.getTemplate Sample.yaml_Unmarshal
      (applyJobOptions Sample.collector "worker-1") = Ret job /\
    Job.Name job = "scan-worker-1" /\
    (Sample.apply Sample.collector "worker-1").2 =
    [Issued (JobsCreate (Job.Namespace job) job) r] /\
    countCalls isJobsCreate (Sample.apply Sample.collector "worker-1").2 = 1%nat.
Proof.
  pose (job := builtJob
                 (applyOptions (applyJobOptions Sample.collector "worker-1")
                    zeroJobBuilder)
                 Sample.template).
  assert (GetJob Sample.getTemplate Sample.yaml_Unmarshal
            (applyJobOptions Sample.collector "worker-1") = Ret job) as Hjob
    by (apply build_returns; [reflexivity | left; discriminate]).
  destruct (C9_apply_submits_once
              (Sample.scripted (Ok {| NamespaceName := "trivy-temp" |}) None)
              Sample.getTemplate Sample.yaml_Unmarshal Sample.collector "worker-1" tt)
    as (_ & _ & _ & Hbuilt & _).
  destruct (Hbuilt job Hjob) as (Hname & Hcount & r & Htr & _).
  exists job, r. split; [exact Hjob|].
  split; [apply Hname; discriminate|].
  split; [exact Htr | exact Hcount].
Defined.

Lemma C10_node_selector_witness :
  (exists job,
     In job (omap ranJob
               (run (ApplyAndCollect (Sample.scripted (Ok {| NamespaceName := "trivy-temp" |}) None)
                       Sample.getTemplate Sample.yaml_Unmarshal Sample.GetAuth
                       "node-collector-cr" "node-collector-rb" "node-collector-sa"
                       Sample.ComputeHash Sample.collector "worker-1") tt).2) /\
     PodSpec.NodeSelector (podSpec job) =
     Some {[ "kubernetes.io/hostname" := "worker-1" ]}) /\
  (exists job,
     In ("trivy-temp", job, Ok job)
        (omap createdJob (run (Apply (Sample.scripted (Ok {| NamespaceName := "trivy-temp" |}) None)
                      Sample.getTemplate Sample.yaml_Unmarshal Sample.collector
                      "worker-1") tt).2) /\
     PodSpec.NodeSelector (podSpec job) = None).
Proof.
  pose (job1 := builtJob
                  (applyOptions
                     (collectJobOptions "node-collector-sa" Sample.ComputeHash
                        Sample.collector "worker-1") zeroJobBuilder)
                  Sample.template).
  pose (job2 := builtJob
                  (applyOptions (applyJobOptions Sample.collector "worker-1")
                     zeroJobBuilder)
                  Sample.template).
  assert (In job1 (omap ranJob
                     (run (ApplyAndCollect (Sample.scripted (Ok {| NamespaceName := "trivy-temp" |}) None)
                       Sample.getTemplate Sample.yaml_Unmarshal Sample.GetAuth
                       "node-collector-cr" "node-collector-rb" "node-collector-sa"
                       Sample.ComputeHash Sample.collector "worker-1") tt).2)) as H1
    by (vm_compute; left; reflexivity).
  assert (In ("trivy-temp", job2, Ok job2)
             (omap createdJob (run (Apply (Sample.scripted (Ok {| NamespaceName := "trivy-temp" |}) None)
                      Sample.getTemplate Sample.yaml_Unmarshal Sample.collector
                      "worker-1") tt).2)) as H2
    by (vm_compute; left; reflexivity).
  split.
  - exists job1. split; [exact H1|].
    exact (proj1 (proj2 (C10_node_selector
                           (Sample.scripted (Ok {| NamespaceName := "trivy-temp" |})
                              None)
                           Sample.getTemplate Sample.yaml_Unmarshal Sample.GetAuth
                           "node-collector-cr" "node-collector-rb" "node-collector-sa"
                           Sample.ComputeHash Sample.collector "worker-1" tt))
             job1 H1).
  - exists job2. split; [exact H2|].
    exact (proj2 (proj2 (proj2 (C10_node_selector
                                  (Sample.scripted
                                     (Ok {| NamespaceName := "trivy-temp" |}) None)
                                  Sample.getTemplate Sample.yaml_Unmarshal
                                  Sample.GetAuth
                                  "node-collector-cr" "node-collector-rb"
                                  "node-collector-sa"
                                  Sample.ComputeHash Sample.collector "worker-1" tt)))
             "trivy-temp" job2 (Ok job2) Sample.template H2 eq_refl).
Defined.

(** * Further properties of the options *)

(** The loop of [WithJobLabels] leaves the union of the two maps, the new
    entries first. *)
Lemma insertAll_union (labels dst : gmap string string) :
  insertAll labels dst = labels ∪ dst.
Proof.
  unfold insertAll.
  assert (forall (l : list (string * string)) (dst : gmap string string),
            NoDup l.*1 ->
            fold_left (fun dst kv => <[kv.1 := kv.2]> dst) l dst
            = (list_to_map l : gmap string string) ∪ dst) as Hfold.
  { induction l as [|[k v] l IH]; intros m Hnd.
    - cbn. by rewrite (left_id_L ∅ (∪)).
    - apply NoDup_cons in Hnd as [Hk Hnd].
      cbn [fold_left fst snd]. rewrite IH by done.
      change (list_to_map ((k, v) :: l) : gmap string string)
        with (<[k:=v]> (list_to_map l : gmap string string)).
      apply map_eq. intros k'.
      rewrite !lookup_union, !lookup_insert.
      destruct (decide (k = k')) as [<-|Hne]; [|done].
      rewrite (not_elem_of_list_to_map_1 _ _ Hk).
      by destruct (m !! k). }
  rewrite Hfold by apply NoDup_fst_map_to_list.
  by rewrite list_to_map_to_list.
Qed.

Lemma WithJobLabels_labels labels jc :
  jobCollector.labels (WithJobLabels labels jc) = labels ∪ jobCollector.labels jc.
Proof. destruct jc. cbn. apply insertAll_union. Qed.

Lemma WithJobLabels_namespace labels jc :
  jobCollector.namespace (WithJobLabels labels jc) = jobCollector.namespace jc.
Proof. by destruct jc. Qed.

Lemma NewCollector_snoc (opts : list CollectorOption) (opt : CollectorOption) :
  NewCollector (opts ++ [opt]) = opt (NewCollector opts).
Proof. unfold NewCollector. by rewrite fold_left_app. Qed.

(** X1: [WithJobLabels] adds to the labels of the collector: after it a key of
    the new labels has the new value and any other key the value it had;
    no other setting changes; and applying it twice leaves the labels of
    both, the later ones winning. *)
Theorem WithJobLabels_merges labels jc :
  (forall k,
     jobCollector.labels (WithJobLabels labels jc) !! k =
     match labels !! k with
     | Some v => Some v
     | None => jobCollector.labels jc !! k
     end) /\
  WithJobLabels labels jc =
  jobCollector.mk (jobCollector.timeout jc) (labels ∪ jobCollector.labels jc)
    (jobCollector.annotation jc) (jobCollector.templateName jc)
    (jobCollector.namespace jc) (jobCollector.priorityClassName jc)
    (jobCollector.name jc) (jobCollector.serviceAccount jc)
    (jobCollector.podSecurityContext jc) (jobCollector.securityContext jc)
    (jobCollector.imageRef jc) (jobCollector.affinity jc)
    (jobCollector.tolerations jc) (jobCollector.volumes jc)
    (jobCollector.volumeMounts jc) (jobCollector.imagePullSecrets jc)
    (jobCollector.collectorTimeout jc) (jobCollector.resourceRequirements jc)
    (jobCollector.nodeConfig jc) (jobCollector.useNodeSelector jc) /\
  (forall labels2,
     WithJobLabels labels2 (WithJobLabels labels jc) =
     WithJobLabels (labels2 ∪ labels) jc).
Proof.
  split; [|split].
  - intros k. rewrite WithJobLabels_labels, lookup_union.
    destruct (labels !! k), (jobCollector.labels jc !! k); done.
  - destruct jc. cbn. by rewrite insertAll_union.
  - intros labels2. destruct jc. cbn.
    by rewrite !insertAll_union, (assoc_L (∪)).
Qed.



(** X4: [NewCollector] and [AppendLabels] apply their options in order, so that
    options given later to [AppendLabels] act as if they had been given last
    to [NewCollector]; [AppendLabels] takes any option, not labels only; and
    labels appended in two calls accumulate, the later call winning on a
    shared key. *)
Theorem AppendLabels_composes (opts1 opts2 : list CollectorOption) jb :
  AppendLabels (NewCollector opts1) opts2 = NewCollector (opts1 ++ opts2) /\
  (forall namespace,
     jobCollector.namespace (AppendLabels jb [WithJobNamespace namespace]) = namespace) /\
  (forall labels1 labels2,
     jobCollector.labels
       (AppendLabels (AppendLabels jb [WithJobLabels labels1]) [WithJobLabels labels2])
     = labels2 ∪ (labels1 ∪ jobCollector.labels jb)).
Proof.
  split; [|split].
  - unfold NewCollector. symmetry. apply fold_left_app.
  - intros namespace. by destruct jb.
  - intros labels1 labels2. cbn. by rewrite !WithJobLabels_labels.
Qed.

(** X5: The options of the collector reach the builder of [Apply]: a collector
    given every option hands [build] the builder with the values given, the
    labels added to those the collector had. *)
Theorem collector_options_reach_builder jc nodeName
  timeout labels annotation namespace priorityClassName affinity tolerations name
  nodeConfig imageRef sa templateName rr securityContext podSecurityContext
  volumes volumesMount imagePullSecrets collectorTimeout useNodeSelector :
  applyOptions
    (applyJobOptions
       (AppendLabels jc
          [ WithTimetout timeout; WithJobLabels labels; WithJobAnnotation annotation;
            WithJobNamespace namespace; WithPodPriorityClassName priorityClassName;
            WithJobAffinity affinity; WithJobTolerations tolerations; WithName name;
            WithNodeConfig nodeConfig; WithImageRef imageRef; WithServiceAccount sa;
            WithJobTemplateName templateName;
            WithContainerResourceRequirements rr;
            WithContainerSecurityContext securityContext;
            WithPodSpecSecurityContext podSecurityContext;
            WithVolumes volumes; WithVolumesMount volumesMount;
            WithPodImagePullSecrets imagePullSecrets;
            WithCollectorTimeout collectorTimeout;
            WithUseNodeSelector useNodeSelector ])
       nodeName)
    zeroJobBuilder =
  {| JobBuilder.template := templateName;
     JobBuilder.nodeName := nodeName;
     JobBuilder.namespace := namespace;
     JobBuilder.imageRef := imageRef;
     JobBuilder.serviceAccount := sa;
     JobBuilder.name := name;
     JobBuilder.labels := labels ∪ jobCollector.labels jc;
     JobBuilder.podSecurityContext := podSecurityContext;
     JobBuilder.securityContext := securityContext;
     JobBuilder.annotations := annotation;
     JobBuilder.affinity := affinity;
     JobBuilder.tolerations := tolerations;
     JobBuilder.priorityClassName := priorityClassName;
     JobBuilder.volumes := volumes;
     JobBuilder.volumeMounts := volumesMount;
     JobBuilder.imagePullSecrets := imagePullSecrets;
     JobBuilder.resourceRequirements := rr;
     JobBuilder.timeout := collectorTimeout;
     JobBuilder.nodeConfig := nodeConfig;
     JobBuilder.useNodeSelector := useNodeSelector |}.
Proof.
  rewrite apply_builder. destruct jc. cbn. by rewrite insertAll_union.
Qed.

(** * Further properties of the builder *)

Lemma rangeAssign_empty (dst : option (gmap string string)) : rangeAssign ∅ dst = dst.
Proof. unfold rangeAssign. by rewrite map_to_list_empty. Qed.

Lemma fold_assignKey_Some (l : list (string * string)) (m : gmap string string) :
  exists m', fold_left assignKey l (Some m) = Some m'.
Proof.
  revert m. induction l as [|kv l IH]; intros m; [by exists m|].
  cbn [fold_left]. apply IH.
Qed.

(** The merge loop leaves a nil map nil when there is nothing to merge, and
    otherwise the union of the two maps, the source first. *)
Lemma rangeAssign_union (src : gmap string string) (dst : option (gmap string string)) :
  rangeAssign src dst =
  if decide (src = ∅) then dst else Some (src ∪ default ∅ dst).
Proof.
  case_decide as Hsrc; [subst; apply rangeAssign_empty|].
  assert (exists m', rangeAssign src dst = Some m') as [m' Hm'].
  { unfold rangeAssign. destruct (map_to_list src) as [|kv l] eqn:Hl.
    - by apply map_to_list_empty_iff in Hl.
    - cbn [fold_left]. destruct dst as [m|]; apply fold_assignKey_Some. }
  rewrite Hm'. f_equal. apply map_eq. intros k.
  pose proof (rangeAssign_lookup src dst k) as Hk.
  rewrite Hm' in Hk. cbn in Hk. rewrite Hk, lookup_union.
  destruct (src !! k), dst as [m|]; cbn; rewrite ?lookup_empty; try done.
  all: by destruct (m !! k).
Qed.

Lemma needsContainer0_true b :
  needsContainer0 b = true <->
  JobBuilder.imageRef b <> "" \/ JobBuilder.nodeConfig b = true \/
  JobBuilder.securityContext b <> None \/ JobBuilder.volumeMounts b <> [].
Proof.
  unfold needsContainer0.
  destruct (JobBuilder.imageRef b), (JobBuilder.nodeConfig b),
    (JobBuilder.securityContext b), (JobBuilder.volumeMounts b); cbn;
    split; intros H; try done; try tauto; try (by eauto);
    destruct H as [?|[?|[?|?]]]; done.
Qed.

Section BuilderOutcomes.

Variable getTemplate : string -> string.
Variable yaml_Unmarshal : string -> result Job.t.

Lemma build_Fail_inv b err :
  build getTemplate yaml_Unmarshal b = Fail err ->
  yaml_Unmarshal (getTemplate (JobBuilder.template b)) = Error err.
Proof.
  intros Hb.
  destruct (yaml_Unmarshal (getTemplate (JobBuilder.template b))) as [tj|err'] eqn:Hdec.
  - destruct (PodSpec.Containers (podSpec tj)) as [|c0 rest] eqn:Hcs.
    + rewrite (build_decoded_nil _ _ b tj Hdec Hcs) in Hb.
      destruct (needsContainer0 b); discriminate.
    + rewrite (build_decoded _ _ b tj c0 rest Hdec Hcs) in Hb. discriminate.
  - rewrite (build_undecoded _ _ b err' Hdec) in Hb. congruence.
Qed.

Lemma build_Panic_inv b :
  build getTemplate yaml_Unmarshal b = Panic ->
  exists tj,
    yaml_Unmarshal (getTemplate (JobBuilder.template b)) = Ok tj /\
    PodSpec.Containers (podSpec tj) = [] /\
    needsContainer0 b = true.
Proof.
  intros Hb.
  destruct (yaml_Unmarshal (getTemplate (JobBuilder.template b))) as [tj|err'] eqn:Hdec.
  - exists tj. split; [done|].
    destruct (PodSpec.Containers (podSpec tj)) as [|c0 rest] eqn:Hcs.
    + rewrite (build_decoded_nil _ _ b tj Hdec Hcs) in Hb.
      by destruct (needsContainer0 b).
    + rewrite (build_decoded _ _ b tj c0 rest Hdec Hcs) in Hb. discriminate.
  - rewrite (build_undecoded _ _ b err' Hdec) in Hb. discriminate.
Qed.

Lemma build_Panic_intro b tj :
  yaml_Unmarshal (getTemplate (JobBuilder.template b)) = Ok tj ->
  PodSpec.Containers (podSpec tj) = [] ->
  needsContainer0 b = true ->
  build getTemplate yaml_Unmarshal b = Panic.
Proof.
  intros Hdec Hcs Hn. rewrite (build_decoded_nil _ _ b tj Hdec Hcs). by rewrite Hn.
Qed.

(** X6: The only error [build] returns is the decoder's, unchanged: it returns
    an error exactly when the template does not decode. *)
Theorem build_fails_iff b err :
  build getTemplate yaml_Unmarshal b = Fail err <->
  yaml_Unmarshal (getTemplate (JobBuilder.template b)) = Error err.
Proof.
  split; [apply build_Fail_inv | apply build_undecoded].
Qed.

(** X7: [build] panics (index out of range) exactly when the template decodes
    to a job without containers and the image, the node argument, the
    container security context or the volume mounts are to be set. The
    resource requirements, whose loop ranges over the containers, never make
    it panic. *)
Theorem build_panics_iff b :
  build getTemplate yaml_Unmarshal b = Panic <->
  exists tj,
    yaml_Unmarshal (getTemplate (JobBuilder.template b)) = Ok tj /\
    PodSpec.Containers (podSpec tj) = [] /\
    (JobBuilder.imageRef b <> "" \/ JobBuilder.nodeConfig b = true \/
     JobBuilder.securityContext b <> None \/ JobBuilder.volumeMounts b <> []).
Proof.
  split.
  - intros Hb. apply build_Panic_inv in Hb as (tj & Hdec & Hcs & Hn).
    exists tj. by rewrite <- needsContainer0_true.
  - intros (tj & Hdec & Hcs & Hn). apply (build_Panic_intro b tj); [done..|].
    by apply needsContainer0_true.
Qed.

(** X8: [GetJob] with the template, the namespace, the node name, resource
    requirements and a timeout that is not positive, and no other option,
    returns the decoded template with its namespace replaced and nothing
    else changed, also when the template has no container. *)
Theorem GetJob_unset_keeps_template template namespace nodeName rr timeout tj :
  yaml_Unmarshal (getTemplate template) = Ok tj ->
  (timeout <= 0)%Z ->
  GetJob getTemplate yaml_Unmarshal
    [ WithTemplate template; WithNamespace namespace; WithNodeName nodeName;
      WithResourceRequirements rr; WithJobTimeout timeout ]
  = Ret (Job.set_Namespace namespace tj).
Proof.
  intros Hdec Hle. unfold GetJob. cbv zeta.
  rewrite (build_returns _ _ _ tj); [|exact Hdec|right; reflexivity].
  f_equal.
  destruct tj as [n ns l a [ads [[cs nsel nn san aff tol pcn sc vols ips]]]].
  unfold builtJob, builtPodSpec, Job.set_Namespace. cbn.
  rewrite !rangeAssign_empty, (proj2 (Z.ltb_ge _ _) Hle).
  destruct cs as [|[cn ci ca cr cvm csc] cs]; reflexivity.
Qed.

(** X9: What [build] overwrites without asking and what it never writes: the
    namespace of the job is the builder's, also when that is empty; the name
    is the builder's only when that is not empty; the node name of the pod,
    and the number and the names of the containers, are the template's. *)
Theorem build_keeps b tj job :
  yaml_Unmarshal (getTemplate (JobBuilder.template b)) = Ok tj ->
  build getTemplate yaml_Unmarshal b = Ret job ->
  Job.Namespace job = JobBuilder.namespace b /\
  Job.Name job = (if decide (JobBuilder.name b = "") then Job.Name tj
                  else JobBuilder.name b) /\
  PodSpec.NodeName (podSpec job) = PodSpec.NodeName (podSpec tj) /\
  length (PodSpec.Containers (podSpec job)) = length (PodSpec.Containers (podSpec tj)) /\
  Container.Name <$> PodSpec.Containers (podSpec job) =
  Container.Name <$> PodSpec.Containers (podSpec tj).
Proof.
  intros Hdec Hb. apply build_Ret_inv in Hb as (tj' & Hdec' & ->).
  rewrite Hdec in Hdec'. injection Hdec' as <-.
  split; [reflexivity|]. split; [|split; [reflexivity|]].
  - cbn. by destruct (JobBuilder.name b).
  - cbn. by destruct (PodSpec.Containers (podSpec tj)).
Qed.

(** X10: The labels and the annotations of the built job as maps: with nothing
    to merge the template's map is kept as it is, nil if it was nil;
    otherwise the map is not nil and is the union of the builder's entries
    and the template's, the builder's first. *)
Theorem build_merges_maps b tj job :
  yaml_Unmarshal (getTemplate (JobBuilder.template b)) = Ok tj ->
  build getTemplate yaml_Unmarshal b = Ret job ->
  Job.Labels job =
  (if decide (JobBuilder.labels b = ∅) then Job.Labels tj
   else Some (JobBuilder.labels b ∪ default ∅ (Job.Labels tj))) /\
  Job.Annotations job =
  (if decide (JobBuilder.annotations b = ∅) then Job.Annotations tj
   else Some (JobBuilder.annotations b ∪ default ∅ (Job.Annotations tj))).
Proof.
  intros Hdec Hb. apply build_Ret_inv in Hb as (tj' & Hdec' & ->).
  rewrite Hdec in Hdec'. injection Hdec' as <-.
  cbn [builtJob Job.Labels Job.Annotations]. by rewrite !rangeAssign_union.
Qed.

(** X11: The settings of the pod replace the template's values and are not
    merged with them: the tolerations, the volumes and the image pull
    secrets of the built job are the builder's lists when these are not
    empty and the template's otherwise; likewise the affinity and the pod
    security context when not nil, and the priority class and the service
    account when not empty. *)
Theorem build_pod_settings b tj job :
  yaml_Unmarshal (getTemplate (JobBuilder.template b)) = Ok tj ->
  build getTemplate yaml_Unmarshal b = Ret job ->
  PodSpec.Tolerations (podSpec job) =
  (if decide (JobBuilder.tolerations b = []) then PodSpec.Tolerations (podSpec tj)
   else JobBuilder.tolerations b) /\
  PodSpec.Volumes (podSpec job) =
  (if decide (JobBuilder.volumes b = []) then PodSpec.Volumes (podSpec tj)
   else JobBuilder.volumes b) /\
  PodSpec.ImagePullSecrets (podSpec job) =
  (if decide (JobBuilder.imagePullSecrets b = [])
   then PodSpec.ImagePullSecrets (podSpec tj)
   else JobBuilder.imagePullSecrets b) /\
  PodSpec.Affinity (podSpec job) =
  (if decide (JobBuilder.affinity b = None) then PodSpec.Affinity (podSpec tj)
   else JobBuilder.affinity b) /\
  PodSpec.SecurityContext (podSpec job) =
  (if decide (JobBuilder.podSecurityContext b = None)
   then PodSpec.SecurityContext (podSpec tj)
   else JobBuilder.podSecurityContext b) /\
  PodSpec.PriorityClassName (podSpec job) =
  (if decide (JobBuilder.priorityClassName b = "")
   then PodSpec.PriorityClassName (podSpec tj)
   else JobBuilder.priorityClassName b) /\
  PodSpec.ServiceAccountName (podSpec job) =
  (if decide (JobBuilder.serviceAccount b = "")
   then PodSpec.ServiceAccountName (podSpec tj)
   else JobBuilder.serviceAccount b).
Proof.
  intros Hdec Hb. apply build_Ret_inv in Hb as (tj' & Hdec' & ->).
  rewrite Hdec in Hdec'. injection Hdec' as <-.
  cbn.
  destruct (JobBuilder.tolerations b), (JobBuilder.volumes b),
    (JobBuilder.imagePullSecrets b), (JobBuilder.affinity b),
    (JobBuilder.podSecurityContext b), (JobBuilder.priorityClassName b) as [|? ?],
    (JobBuilder.serviceAccount b); cbn; repeat split.
Qed.

End BuilderOutcomes.

(** * Further properties of the collector *)

Section CollectorRuns.

Context {W : Type} (cluster : Cluster W).
Variable getTemplate : string -> string.
Variable yaml_Unmarshal : string -> result Job.t.
Variable GetAuth : string -> result (ClusterRole * ClusterRoleBinding * ServiceAccount).
Variables clusterRole roleBinding serviceAccount : string.
Variable ComputeHash : ObjectRef -> string.

Ltac step :=
  match goal with
  | |- context [respond cluster ?c ?w] =>
      let r := fresh "r" in
      let w' := fresh "w" in
      let E := fresh "E" in
      destruct (respond cluster c w) as [r w'] eqn:E
  | |- context [match ?x with Ok _ => _ | Error _ => _ end] => destruct x
  | |- context [match ?x with Some _ => _ | None => _ end] => destruct x
  | |- context [match ?x with Ret _ => _ | Fail _ => _ | Panic => _ end] =>
      destruct x eqn:?
  | |- context [if ?x then _ else _] => destruct x eqn:?
  | |- context [let (_, _) := ?x in _] => is_var x; destruct x
  end.

Ltac unfold_run :=
  cbv beta iota zeta delta
    [ApplyAndCollect ensureNamespace provisionAuth runAndCollect Apply
     Cleanup deleteTrivyNamespace
     run runFrom mbind mret M_bind M_ret call throw lift defer orErrorf
     getTrivyNamespace cleanup world trace app fst snd].

Ltac symex := unfold_run; repeat (step; unfold_run).

(** The job [ApplyAndCollect] builds lives in the collector's namespace. *)
Lemma collect_job_namespace jb nodeName job :
  GetJob getTemplate yaml_Unmarshal
    (collectJobOptions serviceAccount ComputeHash jb nodeName) = Ret job ->
  Job.Namespace job = jobCollector.namespace jb.
Proof.
  unfold GetJob. cbv zeta. rewrite collect_builder. intros Hb.
  by apply build_Ret_inv in Hb as (tj & _ & ->).
Qed.

(** X12: [Cleanup] issues one call, the deletion of the collector's namespace
    with the background propagation policy, and returns normally whatever
    the cluster answers. *)
Theorem Cleanup_deletes_namespace jb w :
  let out := run (Cleanup cluster jb) w in
  out.1 = Ret tt /\
  callOf <$> out.2 = [op (NamespacesDelete (jobCollector.namespace jb) background)] /\
  PropagationPolicy background = Some DeletePropagationBackground.
Proof.
  intros out. subst out. symex; cbn; done.
Qed.



(** X14: Once [Run] has returned nil, the cleanup is run however the rest goes
    (also when the logs cannot be found or read): the deletions are, with
    [nodeConfig], the role binding, the cluster role and the service
    account, then the job that was run, all of them with the background
    policy and in the collector's namespace; they are the last calls of
    the method. *)
Theorem ApplyAndCollect_cleanup_after_run jb nodeName w :
  let out := run (ApplyAndCollect cluster getTemplate yaml_Unmarshal GetAuth
                    clusterRole roleBinding serviceAccount ComputeHash jb nodeName) w in
  existsb runSucceeded out.2 = true ->
  exists job,
    omap ranJob out.2 = [job] /\
    Job.Namespace job = jobCollector.namespace jb /\
    callOf <$> List.filter isDeletion out.2 =
    (if jobCollector.nodeConfig jb
     then authDeletes clusterRole roleBinding serviceAccount (jobCollector.namespace jb)
     else [])
    ++ [ op (JobsDelete (jobCollector.namespace jb) (Job.Name job) background) ] /\
    out.2 = List.filter (fun e => negb (isDeletion e)) out.2
            ++ List.filter isDeletion out.2.
Proof.
  intros out. subst out.
  symex; cbn; intros Hran; try discriminate.
  all: match goal with
       | H : GetJob _ _ _ = Ret ?j |- _ =>
           exists j; rewrite <- (collect_job_namespace _ _ _ H)
       end.
  all: repeat split; reflexivity.
Qed.

(** X15: A failed RBAC creation, log lookup or log read makes [ApplyAndCollect]
    return the error of that call wrapped with the prefix of that step. *)
Theorem ApplyAndCollect_wraps_call_errors jb nodeName w prefix err :
  let out := run (ApplyAndCollect cluster getTemplate yaml_Unmarshal GetAuth
                    clusterRole roleBinding serviceAccount ComputeHash jb nodeName) w in
  In (prefix, err) (omap wrappedFailure out.2) ->
  out.1 = Fail (Errorf prefix err) /\
  Unwrap (Errorf prefix err) = Some err.
Proof.
  intros out. subst out.
  symex; cbn; intros Hin; try (by destruct Hin).
  all: destruct Hin as [[= <- <-]|[]]; split; reflexivity.
Qed.

(** X16: The RBAC creations fail fast and are not rolled back: a failed creation
    is the last call of the method, so that no later object is created and no
    job is run, and no object created before it is deleted. *)
Theorem ApplyAndCollect_auth_not_rolled_back jb nodeName w e :
  let out := run (ApplyAndCollect cluster getTemplate yaml_Unmarshal GetAuth
                    clusterRole roleBinding serviceAccount ComputeHash jb nodeName) w in
  In e out.2 ->
  isAuthCreate e = true ->
  wrappedFailure e <> None ->
  last out.2 = Some e /\
  Forall (fun e => isWait e = false /\ isDeletion e = false /\ isLogRetrieval e = false)
    out.2.
Proof.
  intros out. subst out.
  symex; cbn; intros Hin Hauth Hfail.
  all: repeat (destruct Hin as [<-|Hin]; [cbn in Hauth, Hfail; try congruence|]);
       try (destruct Hin).
  all: split; [reflexivity | repeat constructor].
Qed.

(** X17: When the namespace creation fails, [ApplyAndCollect] returns the error
    of the call as it is, and has issued the lookup and the creation
    only. *)
Theorem ApplyAndCollect_namespace_create_failure jb nodeName w err :
  let out := run (ApplyAndCollect cluster getTemplate yaml_Unmarshal GetAuth
                    clusterRole roleBinding serviceAccount ComputeHash jb nodeName) w in
  In err (omap namespaceCreateFailure out.2) ->
  out.1 = Fail err /\
  callOf <$> out.2 =
  [ op (NamespacesGet (jobCollector.namespace jb));
    op (NamespacesCreate {| NamespaceName := jobCollector.namespace jb |}) ].
Proof.
  intros out. subst out.
  symex; cbn; intros Hin; try (by destruct Hin).
  all: destruct Hin as [<-|[]]; split; reflexivity.
Qed.

(** X18: The streams [ApplyAndCollect] closes are those the log lookup opened,
    each closed once, whether or not the read succeeds. *)
Theorem ApplyAndCollect_closes_streams jb nodeName w :
  let out := run (ApplyAndCollect cluster getTemplate yaml_Unmarshal GetAuth
                    clusterRole roleBinding serviceAccount ComputeHash jb nodeName) w in
  omap closedStream out.2 = omap openedStream out.2 /\
  (length (omap openedStream out.2) <= 1)%nat.
Proof.
  intros out. subst out.
  symex; cbn; split; (reflexivity || lia).
Qed.

(** X19: Nothing is retried: no operation of the API is called twice by one
    [ApplyAndCollect]; and it never submits a job through the jobs API
    itself, nor deletes a namespace. *)
Theorem ApplyAndCollect_no_call_twice jb nodeName w :
  let out := run (ApplyAndCollect cluster getTemplate yaml_Unmarshal GetAuth
                    clusterRole roleBinding serviceAccount ComputeHash jb nodeName) w in
  NoDup (kindOf <$> out.2) /\
  Forall (fun e => kindOf e <> "Jobs.Create" /\ kindOf e <> "Namespaces.Delete") out.2.
Proof.
  intros out. subst out.
  symex; cbn; (split; [apply (bool_decide_unpack _); by vm_compute | repeat constructor; discriminate]).
Qed.


(** X20: [ApplyAndCollect] does not read the collector's [name],
    [serviceAccount] and [useNodeSelector], and [Apply] does not read its
    [timeout]: changing them changes neither the calls nor the result. *)
Theorem collector_unused_settings jb nodeName w name sa sel timeout :
  run (ApplyAndCollect cluster getTemplate yaml_Unmarshal GetAuth
         clusterRole roleBinding serviceAccount ComputeHash
         (WithName name (WithServiceAccount sa (WithUseNodeSelector sel jb))) nodeName) w =
  run (ApplyAndCollect cluster getTemplate yaml_Unmarshal GetAuth
         clusterRole roleBinding serviceAccount ComputeHash jb nodeName) w /\
  run (Apply cluster getTemplate yaml_Unmarshal (WithTimetout timeout jb) nodeName) w =
  run (Apply cluster getTemplate yaml_Unmarshal jb nodeName) w.
Proof. destruct jb. split; reflexivity. Qed.

Lemma collect_undecoded jb nodeName err :
  yaml_Unmarshal (getTemplate (jobCollector.templateName jb)) = Error err ->
  GetJob getTemplate yaml_Unmarshal
    (collectJobOptions serviceAccount ComputeHash jb nodeName) = Fail err.
Proof.
  intros Hdec. unfold GetJob. cbv zeta. rewrite collect_builder.
  by apply build_undecoded.
Qed.

Lemma apply_undecoded jb nodeName err :
  yaml_Unmarshal (getTemplate (jobCollector.templateName jb)) = Error err ->
  GetJob getTemplate yaml_Unmarshal (applyJobOptions jb nodeName) = Fail err.
Proof.
  intros Hdec. unfold GetJob. cbv zeta. rewrite apply_builder.
  by apply build_undecoded.
Qed.

(** X21: With a template that does not decode, [Apply] returns the decoder's
    error, wrapped, without any call. [ApplyAndCollect] returns an error,
    and runs no job, reads no log and deletes nothing; it builds the job
    only after the namespace and the RBAC objects, so that when those steps
    went through its calls are the lookup, the namespace creation if any and
    with [nodeConfig] the three RBAC creations, and the objects created are
    left on the cluster. *)
Theorem undecodable_template jb nodeName w err :
  let out := run (ApplyAndCollect cluster getTemplate yaml_Unmarshal GetAuth
                    clusterRole roleBinding serviceAccount ComputeHash jb nodeName) w in
  yaml_Unmarshal (getTemplate (jobCollector.templateName jb)) = Error err ->
  run (Apply cluster getTemplate yaml_Unmarshal jb nodeName) w =
  (Fail (Errorf "running node-collector job: " err), []) /\
  (exists e, out.1 = Fail e) /\
  Forall (fun e => isWait e = false /\ isDeletion e = false /\ isLogRetrieval e = false)
    out.2 /\
  (omap namespaceCreateFailure out.2 = [] ->
   omap wrappedFailure out.2 = [] ->
   (jobCollector.nodeConfig jb = true ->
    exists auth, GetAuth (jobCollector.namespace jb) = Ok auth) ->
   out.1 = Fail (Errorf "running node-collector job: " err) /\
   callOf <$> out.2 =
   op (NamespacesGet (jobCollector.namespace jb))
   :: (callOf <$> List.filter isNamespacesCreate out.2)
   ++ (if jobCollector.nodeConfig jb
       then authCreates (jobCollector.namespace jb)
              (GetAuth (jobCollector.namespace jb))
       else [])).
Proof.
  intros out Hdec. subst out.
  pose proof (collect_undecoded jb nodeName err Hdec) as HC.
  pose proof (apply_undecoded jb nodeName err Hdec) as HA.
  split; [|split; [|split]].
  - unfold_run. rewrite HA. reflexivity.
  - unfold_run. rewrite HC. symex; cbn; eauto.
  - unfold_run. rewrite HC. symex; cbn; repeat constructor.
  - unfold_run. rewrite HC. symex; cbn; intros Hns Hw Hauth; try discriminate.
    all: try (by destruct (Hauth eq_refl)).
    all: split; reflexivity.
Qed.

(** X22: With [nodeConfig], an error of [GetAuth] ends [ApplyAndCollect] before
    any RBAC call: unless the namespace creation failed first, it returns
    that error wrapped with the prefix of the job errors, having issued the
    namespace calls only. *)
Theorem ApplyAndCollect_GetAuth_error jb nodeName w err :
  let out := run (ApplyAndCollect cluster getTemplate yaml_Unmarshal GetAuth
                    clusterRole roleBinding serviceAccount ComputeHash jb nodeName) w in
  jobCollector.nodeConfig jb = true ->
  GetAuth (jobCollector.namespace jb) = Error err ->
  omap namespaceCreateFailure out.2 = [] ->
  out.1 = Fail (Errorf "running node-collector job: " err) /\
  callOf <$> out.2 =
  op (NamespacesGet (jobCollector.namespace jb))
  :: (callOf <$> List.filter isNamespacesCreate out.2).
Proof.
  intros out Hnc Hauth. subst out.
  unfold_run. rewrite Hnc, Hauth.
  symex; cbn; intros Hns; try discriminate; split; reflexivity.
Qed.

(** X23: The two timeouts of the collector go different ways: [Run] is called
    once, under the collector's [timeout], and the active deadline of the
    job it is given comes from [collectorTimeout] (from the template when
    that is not positive). *)
Theorem ApplyAndCollect_timeouts jb nodeName w job tj :
  let out := run (ApplyAndCollect cluster getTemplate yaml_Unmarshal GetAuth
                    clusterRole roleBinding serviceAccount ComputeHash jb nodeName) w in
  In job (omap ranJob out.2) ->
  yaml_Unmarshal (getTemplate (jobCollector.templateName jb)) = Ok tj ->
  callOf <$> List.filter isWait out.2 = [op (RunnerRun (jobCollector.timeout jb) job)] /\
  JobSpec.ActiveDeadlineSeconds (Job.Spec job) =
  if (0 <? jobCollector.collectorTimeout jb)%Z
  then Some (Duration.int64_of_float64
               (Duration.Seconds (jobCollector.collectorTimeout jb)))
  else JobSpec.ActiveDeadlineSeconds (Job.Spec tj).
Proof.
  intros out Hin Hdec. subst out. split.
  - revert Hin. symex; cbn; intros Hin; try (by destruct Hin).
    all: destruct Hin as [<-|[]]; reflexivity.
  - apply ApplyAndCollect_ran_job in Hin.
    unfold GetJob in Hin. cbv zeta in Hin. rewrite collect_builder in Hin.
    apply build_Ret_inv in Hin as (tj' & Hdec' & ->).
    cbn [JobBuilder.template] in Hdec'. rewrite Hdec in Hdec'.
    by injection Hdec' as <-.
Qed.

(** X24: Without [nodeConfig], [ApplyAndCollect] makes no RBAC call; and the
    service account of the job it runs is the fixed RBAC account with
    [nodeConfig] and the template's without, never the collector's own
    [serviceAccount]. *)
Theorem ApplyAndCollect_service_account jb nodeName w :
  let out := run (ApplyAndCollect cluster getTemplate yaml_Unmarshal GetAuth
                    clusterRole roleBinding serviceAccount ComputeHash jb nodeName) w in
  (jobCollector.nodeConfig jb = false ->
   Forall (fun e => isAuthCreate e = false /\ isAuthDelete e = false) out.2) /\
  (forall job tj,
     In job (omap ranJob out.2) ->
     yaml_Unmarshal (getTemplate (jobCollector.templateName jb)) = Ok tj ->
     PodSpec.ServiceAccountName (podSpec job) =
     if jobCollector.nodeConfig jb && (0 <? String.length serviceAccount)%nat
     then serviceAccount
     else PodSpec.ServiceAccountName (podSpec tj)).
Proof.
  intros out. subst out. split.
  - intros Hnc. unfold_run. rewrite Hnc. symex; cbn; repeat constructor.
  - intros job tj Hin Hdec. apply ApplyAndCollect_ran_job in Hin.
    unfold GetJob in Hin. cbv zeta in Hin. rewrite collect_builder in Hin.
    apply build_Ret_inv in Hin as (tj' & Hdec' & ->).
    cbn [JobBuilder.template] in Hdec'. rewrite Hdec in Hdec'.
    injection Hdec' as <-.
    cbn. by destruct (jobCollector.nodeConfig jb).
Qed.


Lemma Apply_submitted_job jb nodeName w namespace job r :
  In (namespace, job, r)
     (omap createdJob (run (Apply cluster getTemplate yaml_Unmarshal jb nodeName) w).2) ->
  GetJob getTemplate yaml_Unmarshal (applyJobOptions jb nodeName) = Ret job /\
  namespace = Job.Namespace job.
Proof.
  symex; cbn; intros Hin; try (by destruct Hin).
  all: destruct Hin as [[= <- <- <-]|[]]; split; congruence.
Qed.

(** X25: Labels given to the collector reach the job [Apply] submits: after
    [NewCollector] with [WithJobLabels] as its last option, a submitted job
    carries every label given, whatever the template and the earlier options
    say for that key, and is submitted in the collector's namespace. *)
Theorem Apply_submits_collector_labels opts labels nodeName w namespace job r k v :
  In (namespace, job, r)
     (omap createdJob
        (run (Apply cluster getTemplate yaml_Unmarshal
                (NewCollector (opts ++ [WithJobLabels labels])) nodeName) w).2) ->
  labels !! k = Some v ->
  namespace = jobCollector.namespace (NewCollector opts) /\
  Job.Namespace job = namespace /\
  lookupKey (Job.Labels job) k = Some v.
Proof.
  rewrite NewCollector_snoc.
  intros Hin Hk.
  apply Apply_submitted_job in Hin as [Hjob ->].
  unfold GetJob in Hjob. cbv zeta in Hjob. rewrite apply_builder in Hjob.
  apply build_Ret_inv in Hjob as (tj & _ & ->).
  split; [|split; [reflexivity|]].
  - cbn [builtJob Job.Namespace JobBuilder.namespace].
    apply WithJobLabels_namespace.
  - cbn [builtJob Job.Labels JobBuilder.labels].
    rewrite rangeAssign_lookup, WithJobLabels_labels.
    by rewrite (lookup_union_Some_l _ _ _ _ Hk).
Qed.

(** X26: A template that decodes to a job without containers: [Apply] panics
    exactly when, on such a template, the collector sets the image, the node
    configuration, the container security context or the volume mounts, and
    then has made no call; [ApplyAndCollect] panics only in that case, and
    then has run no job and deleted nothing. *)
Theorem template_without_containers jb nodeName w :
  let needs :=
    jobCollector.imageRef jb <> "" \/ jobCollector.nodeConfig jb = true \/
    jobCollector.securityContext jb <> None \/ jobCollector.volumeMounts jb <> [] in
  let empty :=
    exists tj,
      yaml_Unmarshal (getTemplate (jobCollector.templateName jb)) = Ok tj /\
      PodSpec.Containers (podSpec tj) = [] in
  let applied := run (Apply cluster getTemplate yaml_Unmarshal jb nodeName) w in
  let out := run (ApplyAndCollect cluster getTemplate yaml_Unmarshal GetAuth
                    clusterRole roleBinding serviceAccount ComputeHash jb nodeName) w in
  (applied.1 = Panic <-> empty /\ needs) /\
  (applied.1 = Panic -> applied.2 = []) /\
  (out.1 = Panic ->
   (empty /\ needs) /\
   Forall (fun e => isWait e = false /\ isDeletion e = false) out.2).
Proof.
  intros needs empty applied out. subst needs empty applied out.
  assert (forall b : JobBuilder.t,
            build getTemplate yaml_Unmarshal b = Panic <->
            (exists tj,
               yaml_Unmarshal (getTemplate (JobBuilder.template b)) = Ok tj /\
               PodSpec.Containers (podSpec tj) = []) /\
            (JobBuilder.imageRef b <> "" \/ JobBuilder.nodeConfig b = true \/
             JobBuilder.securityContext b <> None \/ JobBuilder.volumeMounts b <> []))
    as Hpanic.
  { intros b. rewrite <- needsContainer0_true. split.
    - intros Hb. apply build_Panic_inv in Hb as (tj & Hdec & Hcs & Hn). eauto.
    - intros [(tj & Hdec & Hcs) Hn]. by apply (build_Panic_intro _ _ b tj). }
  pose proof (Hpanic (applyOptions (applyJobOptions jb nodeName) zeroJobBuilder)) as HA.
  pose proof (Hpanic (applyOptions
                        (collectJobOptions serviceAccount ComputeHash jb nodeName)
                        zeroJobBuilder)) as HC.
  rewrite apply_builder in HA. rewrite collect_builder in HC.
  cbn [JobBuilder.template JobBuilder.imageRef JobBuilder.nodeConfig
       JobBuilder.securityContext JobBuilder.volumeMounts] in HA, HC.
  rewrite <- apply_builder in HA. rewrite <- collect_builder in HC.
  change (build getTemplate yaml_Unmarshal
            (applyOptions (applyJobOptions jb nodeName) zeroJobBuilder))
    with (GetJob getTemplate yaml_Unmarshal (applyJobOptions jb nodeName)) in HA.
  change (build getTemplate yaml_Unmarshal
            (applyOptions (collectJobOptions serviceAccount ComputeHash jb nodeName)
               zeroJobBuilder))
    with (GetJob getTemplate yaml_Unmarshal
            (collectJobOptions serviceAccount ComputeHash jb nodeName)) in HC.
  clear Hpanic. split; [|split].
  - rewrite <- HA. clear HA HC. symex; cbn; split; congruence.
  - clear HA HC. symex; cbn; congruence.
  - rewrite <- HC. clear HA HC.
    symex; cbn; intros Hp; try discriminate.
    all: split; [congruence | repeat constructor].
Qed.

End CollectorRuns.

(** ** The further properties at the sample inputs *)

Lemma GetJob_unset_keeps_template_witness :
  GetJob Sample.getTemplate Sample.yaml_Unmarshal
    [ WithTemplate "node-collector"; WithNamespace "trivy-temp";
      WithNodeName "worker-1"; WithResourceRequirements (Some Sample.resources);
      WithJobTimeout 0%Z ]
  = Ret (Job.set_Namespace "trivy-temp" Sample.template).
Proof.
  exact (GetJob_unset_keeps_template Sample.getTemplate Sample.yaml_Unmarshal
           "node-collector" "trivy-temp" "worker-1" (Some Sample.resources) 0%Z
           Sample.template eq_refl ltac:(discriminate)).
Defined.

Lemma build_fails_iff_witness :
  build Sample.getTemplate Sample.yaml_Unmarshal (WithTemplate "missing" Sample.builder)
  = Fail (errorString "error unmarshaling JSON").
Proof.
  exact (proj2 (build_fails_iff Sample.getTemplate Sample.yaml_Unmarshal
                  (WithTemplate "missing" Sample.builder)
                  (errorString "error unmarshaling JSON")) eq_refl).
Defined.

Lemma build_panics_iff_witness :
  build Sample.getTemplate Faulty.yaml_Unmarshal
    (WithTemplate "no-containers" Sample.builder) = Panic /\
  build Sample.getTemplate Faulty.yaml_Unmarshal
    (WithTemplate "no-containers"
       (WithNamespace "trivy-temp" (WithResourceRequirements (Some Sample.resources)
                                      zeroJobBuilder))) <> Panic.
Proof.
  split.
  - apply (proj2 (build_panics_iff Sample.getTemplate Faulty.yaml_Unmarshal
                    (WithTemplate "no-containers" Sample.builder))).
    exists Faulty.emptyTemplate. split; [reflexivity|]. split; [reflexivity|].
    left. discriminate.
  - intros Hp.
    apply (proj1 (build_panics_iff Sample.getTemplate Faulty.yaml_Unmarshal _)) in Hp
      as (tj & _ & _ & [H|[H|[H|H]]]); [by apply H | discriminate H | by apply H..].
Defined.

Lemma build_keeps_witness :
  exists job,
    build Sample.getTemplate Sample.yaml_Unmarshal Sample.builder = Ret job /\
    Job.Namespace job = "trivy-temp" /\
    Job.Name job = "node-collector" /\
    PodSpec.NodeName (podSpec job) = "" /\
    Container.Name <$> PodSpec.Containers (podSpec job) =
    ["node-collector"; "log-shipper"].
Proof.
  pose proof (build_returns Sample.getTemplate Sample.yaml_Unmarshal Sample.builder
                Sample.template eq_refl ltac:(left; discriminate)) as Hb.
  destruct (build_keeps Sample.getTemplate Sample.yaml_Unmarshal Sample.builder
              Sample.template _ eq_refl Hb) as (Hns & Hname & Hnn & _ & Hnames).
  eexists. split; [exact Hb|].
  split; [exact Hns|]. split; [exact Hname|]. split; [exact Hnn | exact Hnames].
Defined.

Lemma build_merges_maps_witness :
  exists job,
    build Sample.getTemplate Sample.yaml_Unmarshal Sample.builder = Ret job /\
    Job.Labels job =
    Some ({[ "team" := "caller"; "trivy.collector.name" := "node-collector" ]}
          ∪ {[ "app" := "node-collector"; "team" := "template" ]}) /\
    Job.Annotations job = Some ({[ "note" := "scan" ]} ∪ ∅).
Proof.
  pose proof (build_returns Sample.getTemplate Sample.yaml_Unmarshal Sample.builder
                Sample.template eq_refl ltac:(left; discriminate)) as Hb.
  destruct (build_merges_maps Sample.getTemplate Sample.yaml_Unmarshal Sample.builder
              Sample.template _ eq_refl Hb) as (Hl & Ha).
  eexists. split; [exact Hb|]. split; [exact Hl | exact Ha].
Defined.

Lemma build_pod_settings_witness :
  exists job,
    build Sample.getTemplate Sample.yaml_Unmarshal
      (WithTolerations
         [ {| corev1.Key := "node-role.kubernetes.io/control-plane";
              corev1.Operator := "Exists";
              corev1.Value := "";
              corev1.Effect := "NoSchedule" |} ]
         (WithPriorityClassName "system-node-critical" Sample.builder)) = Ret job /\
    PodSpec.Tolerations (podSpec job) =
    [ {| corev1.Key := "node-role.kubernetes.io/control-plane";
         corev1.Operator := "Exists";
         corev1.Value := "";
         corev1.Effect := "NoSchedule" |} ] /\
    PodSpec.PriorityClassName (podSpec job) = "system-node-critical" /\
    PodSpec.Volumes (podSpec job) = [] /\
    PodSpec.ServiceAccountName (podSpec job) = "".
Proof.
  pose proof (build_returns Sample.getTemplate Sample.yaml_Unmarshal
                (WithTolerations
                   [ {| corev1.Key := "node-role.kubernetes.io/control-plane";
                        corev1.Operator := "Exists";
                        corev1.Value := "";
                        corev1.Effect := "NoSchedule" |} ]
                   (WithPriorityClassName "system-node-critical" Sample.builder))
                Sample.template eq_refl ltac:(left; discriminate)) as Hb.
  destruct (build_pod_settings Sample.getTemplate Sample.yaml_Unmarshal
              (WithTolerations
                 [ {| corev1.Key := "node-role.kubernetes.io/control-plane";
                      corev1.Operator := "Exists";
                      corev1.Value := "";
                      corev1.Effect := "NoSchedule" |} ]
                 (WithPriorityClassName "system-node-critical" Sample.builder))
              Sample.template _ eq_refl Hb) as (Ht & Hv & _ & _ & _ & Hp & Hsa).
  eexists. split; [exact Hb|].
  split; [exact Ht|]. split; [exact Hp|]. split; [exact Hv | exact Hsa].
Defined.


Lemma ApplyAndCollect_cleanup_after_run_witness :
  let out := run (ApplyAndCollect (Faulty.cluster Faulty.readFails) Sample.getTemplate Sample.yaml_Unmarshal
                    Sample.GetAuth "node-collector-cr" "node-collector-rb" "node-collector-sa"
                    Sample.ComputeHash Faulty.nodeConfigCollector "worker-1") tt in
  out.1 = Fail (Errorf "reading logs: " Faulty.internalError) /\
  exists job,
    omap ranJob out.2 = [job] /\
    callOf <$> List.filter isDeletion out.2 =
    authDeletes "node-collector-cr" "node-collector-rb" "node-collector-sa" "trivy-temp"
    ++ [ op (JobsDelete "trivy-temp" (Job.Name job) background) ].
Proof.
  intros out. split; [by vm_compute|].
  destruct (ApplyAndCollect_cleanup_after_run
              (Faulty.cluster Faulty.readFails) Sample.getTemplate Sample.yaml_Unmarshal
              Sample.GetAuth "node-collector-cr" "node-collector-rb" "node-collector-sa"
              Sample.ComputeHash Faulty.nodeConfigCollector "worker-1" tt
              ltac:(vm_compute; reflexivity)) as (job & Hran & _ & Hdel & _).
  exists job. split; [exact Hran | exact Hdel].
Defined.

Lemma ApplyAndCollect_wraps_call_errors_witness :
  (run (ApplyAndCollect (Faulty.cluster Faulty.serviceAccountFails) Sample.getTemplate Sample.yaml_Unmarshal
         Sample.GetAuth "node-collector-cr" "node-collector-rb" "node-collector-sa"
         Sample.ComputeHash Faulty.nodeConfigCollector "worker-1") tt).1
  = Fail (Errorf "creating service account: " Sample.forbidden) /\
  (run (ApplyAndCollect (Faulty.cluster Faulty.logsFail) Sample.getTemplate Sample.yaml_Unmarshal
         Sample.GetAuth "node-collector-cr" "node-collector-rb" "node-collector-sa"
         Sample.ComputeHash Faulty.nodeConfigCollector "worker-1") tt).1
  = Fail (Errorf "getting logs: " Faulty.internalError).
Proof.
  split.
  - exact (proj1 (ApplyAndCollect_wraps_call_errors
                    (Faulty.cluster Faulty.serviceAccountFails) Sample.getTemplate Sample.yaml_Unmarshal
                    Sample.GetAuth "node-collector-cr" "node-collector-rb" "node-collector-sa"
                    Sample.ComputeHash Faulty.nodeConfigCollector "worker-1" tt
                    "creating service account: " Sample.forbidden
                    ltac:(vm_compute; left; reflexivity))).
  - exact (proj1 (ApplyAndCollect_wraps_call_errors
                    (Faulty.cluster Faulty.logsFail) Sample.getTemplate Sample.yaml_Unmarshal
                    Sample.GetAuth "node-collector-cr" "node-collector-rb" "node-collector-sa"
                    Sample.ComputeHash Faulty.nodeConfigCollector "worker-1" tt
                    "getting logs: " Faulty.internalError
                    ltac:(vm_compute; left; reflexivity))).
Defined.

Lemma ApplyAndCollect_auth_not_rolled_back_witness :
  let out := run (ApplyAndCollect (Faulty.cluster Faulty.serviceAccountFails) Sample.getTemplate Sample.yaml_Unmarshal
                    Sample.GetAuth "node-collector-cr" "node-collector-rb" "node-collector-sa"
                    Sample.ComputeHash Faulty.nodeConfigCollector "worker-1") tt in
  last out.2 =
  Some (Issued (ServiceAccountsCreate "trivy-temp"
                  {| ServiceAccountName := "node-collector-sa" |})
          (Error Sample.forbidden)) /\
  Forall (fun e => isWait e = false /\ isDeletion e = false /\ isLogRetrieval e = false)
    out.2.
Proof.
  exact (ApplyAndCollect_auth_not_rolled_back
           (Faulty.cluster Faulty.serviceAccountFails) Sample.getTemplate Sample.yaml_Unmarshal
           Sample.GetAuth "node-collector-cr" "node-collector-rb" "node-collector-sa"
           Sample.ComputeHash Faulty.nodeConfigCollector "worker-1" tt
           (Issued (ServiceAccountsCreate "trivy-temp"
                      {| ServiceAccountName := "node-collector-sa" |})
              (Error Sample.forbidden))
           ltac:(vm_compute; right; right; left; reflexivity)
           eq_refl ltac:(discriminate)).
Defined.

Lemma ApplyAndCollect_namespace_create_failure_witness :
  let out := run (ApplyAndCollect (Faulty.cluster Faulty.namespaceCreateFails) Sample.getTemplate Sample.yaml_Unmarshal
                    Sample.GetAuth "node-collector-cr" "node-collector-rb" "node-collector-sa"
                    Sample.ComputeHash Faulty.nodeConfigCollector "worker-1") tt in
  out.1 = Fail Sample.forbidden /\
  callOf <$> out.2 =
  [ op (NamespacesGet "trivy-temp");
    op (NamespacesCreate {| NamespaceName := "trivy-temp" |}) ].
Proof.
  exact (ApplyAndCollect_namespace_create_failure
           (Faulty.cluster Faulty.namespaceCreateFails) Sample.getTemplate Sample.yaml_Unmarshal
           Sample.GetAuth "node-collector-cr" "node-collector-rb" "node-collector-sa"
           Sample.ComputeHash Faulty.nodeConfigCollector "worker-1" tt
           Sample.forbidden ltac:(vm_compute; left; reflexivity)).
Defined.

Lemma undecodable_template_witness :
  let out := run (ApplyAndCollect (Faulty.cluster Faulty.noFault) Sample.getTemplate Sample.yaml_Unmarshal
                    Sample.GetAuth "node-collector-cr" "node-collector-rb" "node-collector-sa"
                    Sample.ComputeHash (WithJobTemplateName "missing" Faulty.nodeConfigCollector) "worker-1") tt in
  run (Apply (Faulty.cluster Faulty.noFault) Sample.getTemplate Sample.yaml_Unmarshal
                          (WithJobTemplateName "missing" Faulty.nodeConfigCollector) "worker-1") tt
  = (Fail (Errorf "running node-collector job: "
             (errorString "error unmarshaling JSON")), []) /\
  out.1 = Fail (Errorf "running node-collector job: "
                  (errorString "error unmarshaling JSON")) /\
  callOf <$> out.2 =
  [ op (NamespacesGet "trivy-temp");
    op (ClusterRolesCreate {| ClusterRoleName := "node-collector-cr" |});
    op (ServiceAccountsCreate "trivy-temp" {| ServiceAccountName := "node-collector-sa" |});
    op (ClusterRoleBindingsCreate {| ClusterRoleBindingName := "node-collector-rb" |}) ] /\
  Forall (fun e => isWait e = false /\ isDeletion e = false /\ isLogRetrieval e = false)
    out.2.
Proof.
  intros out.
  destruct (undecodable_template
              (Faulty.cluster Faulty.noFault) Sample.getTemplate Sample.yaml_Unmarshal
              Sample.GetAuth "node-collector-cr" "node-collector-rb" "node-collector-sa"
              Sample.ComputeHash (WithJobTemplateName "missing" Faulty.nodeConfigCollector) "worker-1" tt
              (errorString "error unmarshaling JSON") eq_refl)
    as (Happly & _ & Hnone & Hrest).
  destruct (Hrest eq_refl eq_refl (fun _ => ex_intro _ _ eq_refl)) as (Hres & Hcalls).
  split; [exact Happly|]. split; [exact Hres|]. split; [exact Hcalls | exact Hnone].
Defined.

Lemma ApplyAndCollect_GetAuth_error_witness :
  let out := run (ApplyAndCollect (Faulty.cluster Faulty.noFault) Sample.getTemplate Sample.yaml_Unmarshal
                    Faulty.noAuth "node-collector-cr" "node-collector-rb" "node-collector-sa"
                    Sample.ComputeHash Faulty.nodeConfigCollector "worker-1") tt in
  out.1 = Fail (Errorf "running node-collector job: "
                  (errorString "error unmarshaling JSON")) /\
  callOf <$> out.2 = [ op (NamespacesGet "trivy-temp") ].
Proof.
  exact (ApplyAndCollect_GetAuth_error
           (Faulty.cluster Faulty.noFault) Sample.getTemplate Sample.yaml_Unmarshal
           Faulty.noAuth "node-collector-cr" "node-collector-rb" "node-collector-sa"
           Sample.ComputeHash Faulty.nodeConfigCollector "worker-1" tt
           (errorString "error unmarshaling JSON") eq_refl eq_refl eq_refl).
Defined.

Lemma ApplyAndCollect_timeouts_witness :
  let out := run (ApplyAndCollect (Faulty.cluster Faulty.noFault) Sample.getTemplate Sample.yaml_Unmarshal
                    Sample.GetAuth "node-collector-cr" "node-collector-rb" "node-collector-sa"
                    Sample.ComputeHash (WithTimetout 60000000000%Z (WithCollectorTimeout 90000000000%Z Sample.collector)) "worker-1") tt in
  exists job,
    callOf <$> List.filter isWait out.2 = [op (RunnerRun 60000000000%Z job)] /\
    JobSpec.ActiveDeadlineSeconds (Job.Spec job) = Some 90%Z.
Proof.
  intros out.
  pose (job := builtJob
                 (applyOptions
                    (collectJobOptions "node-collector-sa" Sample.ComputeHash
                       (WithTimetout 60000000000%Z (WithCollectorTimeout 90000000000%Z Sample.collector))
                       "worker-1") zeroJobBuilder)
                 Sample.template).
  assert (In job (omap ranJob out.2)) as Hin by (vm_compute; left; reflexivity).
  destruct (ApplyAndCollect_timeouts
              (Faulty.cluster Faulty.noFault) Sample.getTemplate Sample.yaml_Unmarshal
              Sample.GetAuth "node-collector-cr" "node-collector-rb" "node-collector-sa"
              Sample.ComputeHash (WithTimetout 60000000000%Z (WithCollectorTimeout 90000000000%Z Sample.collector)) "worker-1" tt
              job Sample.template Hin eq_refl) as (Hwait & Hdeadline).
  exists job. split; [exact Hwait|].
  rewrite Hdeadline. by vm_compute.
Defined.

Lemma ApplyAndCollect_service_account_witness :
  Forall (fun e => isAuthCreate e = false /\ isAuthDelete e = false)
    (run (ApplyAndCollect (Faulty.cluster Faulty.noFault) Sample.getTemplate Sample.yaml_Unmarshal
         Sample.GetAuth "node-collector-cr" "node-collector-rb" "node-collector-sa"
         Sample.ComputeHash Sample.collector "worker-1") tt).2 /\
  exists job,
    In job (omap ranJob
              (run (ApplyAndCollect (Faulty.cluster Faulty.noFault) Sample.getTemplate Sample.yaml_Unmarshal
                  Sample.GetAuth "node-collector-cr" "node-collector-rb" "node-collector-sa"
                  Sample.ComputeHash Faulty.nodeConfigCollector "worker-1") tt).2) /\
    PodSpec.ServiceAccountName (podSpec job) = "node-collector-sa".
Proof.
  split.
  - exact (proj1 (ApplyAndCollect_service_account
                    (Faulty.cluster Faulty.noFault) Sample.getTemplate Sample.yaml_Unmarshal
                    Sample.GetAuth "node-collector-cr" "node-collector-rb" "node-collector-sa"
                    Sample.ComputeHash Sample.collector "worker-1" tt) eq_refl).
  - pose (job := builtJob
                   (applyOptions
                      (collectJobOptions "node-collector-sa" Sample.ComputeHash
                         Faulty.nodeConfigCollector "worker-1") zeroJobBuilder)
                   Sample.template).
    assert (In job (omap ranJob
                      (run (ApplyAndCollect (Faulty.cluster Faulty.noFault) Sample.getTemplate Sample.yaml_Unmarshal
                          Sample.GetAuth "node-collector-cr" "node-collector-rb" "node-collector-sa"
                          Sample.ComputeHash Faulty.nodeConfigCollector "worker-1") tt).2)) as Hin
      by (vm_compute; left; reflexivity).
    exists job. split; [exact Hin|].
    exact (proj2 (ApplyAndCollect_service_account
                    (Faulty.cluster Faulty.noFault) Sample.getTemplate Sample.yaml_Unmarshal
                    Sample.GetAuth "node-collector-cr" "node-collector-rb" "node-collector-sa"
                    Sample.ComputeHash Faulty.nodeConfigCollector "worker-1" tt)
             job Sample.template Hin eq_refl).
Defined.

Lemma Apply_submits_collector_labels_witness :
  exists job,
    In ("trivy-temp", job, Ok job)
       (omap createdJob
          (run (Apply (Faulty.cluster Faulty.noFault) Sample.getTemplate
                  Sample.yaml_Unmarshal
                  (NewCollector
                     ([WithJobTemplateName "node-collector"; WithJobNamespace "trivy-temp"]
                      ++ [WithJobLabels {[ "team" := "security" ]}])) "worker-1") tt).2) /\
    Job.Namespace job = "trivy-temp" /\
    lookupKey (Job.Labels job) "team" = Some "security".
Proof.
  pose (job := builtJob
                 (applyOptions
                    (applyJobOptions
                       (NewCollector
                     ([WithJobTemplateName "node-collector"; WithJobNamespace "trivy-temp"]
                      ++ [WithJobLabels {[ "team" := "security" ]}])) "worker-1") zeroJobBuilder)
                 Sample.template).
  assert (In ("trivy-temp", job, Ok job)
            (omap createdJob
               (run (Apply (Faulty.cluster Faulty.noFault) Sample.getTemplate
                       Sample.yaml_Unmarshal
                       (NewCollector
                     ([WithJobTemplateName "node-collector"; WithJobNamespace "trivy-temp"]
                      ++ [WithJobLabels {[ "team" := "security" ]}])) "worker-1") tt).2)) as Hin
    by (vm_compute; left; reflexivity).
  exists job. split; [exact Hin|].
  exact (proj2 (Apply_submits_collector_labels
                  (Faulty.cluster Faulty.noFault) Sample.getTemplate
                  Sample.yaml_Unmarshal
                  [WithJobTemplateName "node-collector"; WithJobNamespace "trivy-temp"]
                  {[ "team" := "security" ]}
                  "worker-1" tt "trivy-temp" job (Ok job) "team" "security"
                  Hin eq_refl)).
Defined.

Lemma template_without_containers_witness :
  run (Apply (Faulty.cluster Faulty.noFault) Sample.getTemplate Faulty.yaml_Unmarshal
                          (WithJobTemplateName "no-containers" (WithImageRef "busybox:1.36" Sample.collector)) "worker-1") tt
  = (Panic, []).
Proof.
  pose proof (template_without_containers
                (Faulty.cluster Faulty.noFault) Sample.getTemplate Faulty.yaml_Unmarshal
                Sample.GetAuth "node-collector-cr" "node-collector-rb" "node-collector-sa"
                Sample.ComputeHash (WithJobTemplateName "no-containers" (WithImageRef "busybox:1.36" Sample.collector)) "worker-1" tt) as (Hiff & Hnone & _).
  assert ((run (Apply (Faulty.cluster Faulty.noFault) Sample.getTemplate Faulty.yaml_Unmarshal
                          (WithJobTemplateName "no-containers" (WithImageRef "busybox:1.36" Sample.collector)) "worker-1") tt).1 = Panic) as Hp.
  { apply (proj2 Hiff). split.
    - exists Faulty.emptyTemplate. split; reflexivity.
    - left. discriminate. }
  specialize (Hnone Hp). revert Hp Hnone.
  destruct (run (Apply (Faulty.cluster Faulty.noFault) Sample.getTemplate Faulty.yaml_Unmarshal
                          (WithJobTemplateName "no-containers" (WithImageRef "busybox:1.36" Sample.collector)) "worker-1") tt) as [o tr].
  cbn [fst snd]. by intros -> ->.
Defined.
